(** * Project Naranja: the trainer's reveal engine, question fetching,
      search pagination and the explanation fetcher

    A shallow embedding of [project_naranja.py].  The program is a Streamlit
    script: every user action (and every [st.rerun()]) executes the script
    from the top against the persistent [st.session_state].  A script run is
    modelled as a computation over a [Machine] (session state, the elements
    put on the page, the number of calls of [qbr.random_tossup] and
    [qbr.random_bonus] made so far) that ends normally, with [st.rerun()],
    or with an uncaught exception; session mutations made before the script
    is cut short persist, as they do in Streamlit.

    External collaborators (the qbreader client, the HTTP endpoints, the
    judge, spaCy, [json.loads], the wall clock) are fields of a [World]
    record or of the per-run [Input]; wall-clock readings are floats in the
    program and rationals here; a [str] is the UTF-8 encoding of its code
    points. *)

From Stdlib Require Import ZArith QArith Lqa List String Ascii Bool Lia.
Import ListNotations.

#[local] Set Warnings "-register-all".

Local Open Scope string_scope.
Local Open Scope Z_scope.

(** ** Python built-ins used by the program *)

Module Py.

(** A Python [str] is represented by the UTF-8 encoding of its code points: a
    [string] is the sequence of the bytes, and a character of the [str] is
    one to four of them.  Concatenation, comparison, the search for a
    substring and the replacement of an ASCII character are the same on the
    bytes as on the code points; what reads characters ([str.split],
    [str.strip], [s[0]], iteration over a [str]) goes through [chars]. *)

Definition is_empty (s : string) : bool :=
  match s with EmptyString => true | String _ _ => false end.

(** The UTF-8 encoding of a code point. *)
Definition utf8 (cp : N) : string :=
  let byte (n : N) := ascii_of_N n in
  (if cp <? 128 then String (byte cp) EmptyString
   else if cp <? 2048 then
     String (byte (192 + cp / 64))
       (String (byte (128 + cp mod 64)) EmptyString)
   else if cp <? 65536 then
     String (byte (224 + cp / 4096))
       (String (byte (128 + (cp / 64) mod 64))
          (String (byte (128 + cp mod 64)) EmptyString))
   else
     String (byte (240 + cp / 262144))
       (String (byte (128 + (cp / 4096) mod 64))
          (String (byte (128 + (cp / 64) mod 64))
             (String (byte (128 + cp mod 64)) EmptyString))))%N.

(** A continuation byte, [10xxxxxx]. *)
Definition is_continuation (c : ascii) : bool :=
  let n := N_of_ascii c in
  ((128 <=? n)%N && (n <? 192)%N)%bool.

(** [chars_aux s]: the continuation bytes [s] starts with, and the
    characters after them. *)
Fixpoint chars_aux (s : string) : string * list string :=
  match s with
  | EmptyString => (EmptyString, [])
  | String c rest =>
      let '(cont, l) := chars_aux rest in
      if is_continuation c then (String c cont, l)
      else (EmptyString, String c cont :: l)
  end.

(** The characters of a text, each one the bytes of its code point. *)
Definition chars (s : string) : list string :=
  let '(cont, l) := chars_aux s in
  if is_empty cont then l else cont :: l.

(** The code points for which [str.isspace] holds: U+0009 to U+000D, U+001C
    to U+0020, U+0085, U+00A0, U+1680, U+2000 to U+200A, U+2028, U+2029,
    U+202F, U+205F and U+3000. *)
Definition whitespace : list N :=
  [ 9; 10; 11; 12; 13; 28; 29; 30; 31; 32; 133; 160; 5760;
    8192; 8193; 8194; 8195; 8196; 8197; 8198; 8199; 8200; 8201; 8202;
    8232; 8233; 8239; 8287; 12288 ]%N.

(** [ch.isspace()] for one character. *)
Definition isspace (ch : string) : bool :=
  existsb (fun cp => String.eqb ch (utf8 cp)) whitespace.

(** [split_aux l cur]: [l] are the characters still to read, [cur] is the
    word being read. *)
Fixpoint split_aux (l : list string) (cur : string) : list string :=
  match l with
  | [] => if is_empty cur then [] else [cur]
  | ch :: rest =>
      if isspace ch
      then (if is_empty cur then split_aux rest EmptyString
            else cur :: split_aux rest EmptyString)
      else split_aux rest (cur ++ ch)
  end.

(** [s.split()]: the maximal runs of non-whitespace characters. *)
Definition split (s : string) : list string := split_aux (chars s) EmptyString.

(** [sep.join(l)] *)
Fixpoint join (sep : string) (l : list string) : string :=
  match l with
  | [] => EmptyString
  | [x] => x
  | x :: rest => x ++ sep ++ join sep rest
  end.

(** [len(l)] *)
Definition len {A} (l : list A) : Z := Z.of_nat (List.length l).

(** [l[:k]]: a negative [k] counts from the end. *)
Definition slice_to {A} (l : list A) (k : Z) : list A :=
  if 0 <=? k then firstn (Z.to_nat k) l
  else firstn (Z.to_nat (len l + k)) l.

(** Without the whitespace characters at the front. *)
Fixpoint lstrip_chars (l : list string) : list string :=
  match l with
  | [] => []
  | ch :: rest => if isspace ch then lstrip_chars rest else l
  end.

(** Without the whitespace characters at the end. *)
Definition rstrip_chars (l : list string) : list string :=
  rev (lstrip_chars (rev l)).

(** [s.strip()] *)
Definition strip (s : string) : string :=
  String.concat EmptyString (rstrip_chars (lstrip_chars (chars s))).

Fixpoint replace_char (a b : ascii) (s : string) : string :=
  match s with
  | EmptyString => EmptyString
  | String c rest =>
      String (if Ascii.eqb c a then b else c) (replace_char a b rest)
  end.

Definition digit (n : nat) : string :=
  String (ascii_of_nat (48 + n)) EmptyString.

Fixpoint str_of_nat_aux (fuel n : nat) (acc : string) : string :=
  match fuel with
  | O => acc
  | S fuel' =>
      let acc' := digit (n mod 10) ++ acc in
      match (n / 10)%nat with
      | O => acc'
      | q => str_of_nat_aux fuel' q acc'
      end
  end.

(** [str(n)] for a natural number. *)
Definition str_of_nat (n : nat) : string := str_of_nat_aux (S n) n EmptyString.

(** [str(n)] for an integer. *)
Definition str_of_Z (n : Z) : string :=
  if n <? 0 then "-" ++ str_of_nat (Z.to_nat (- n)) else str_of_nat (Z.to_nat n).

(** [s1 in s2] for strings. *)
Fixpoint contains (needle hay : string) : bool :=
  match hay with
  | EmptyString => is_empty needle
  | String _ rest => (prefix needle hay || contains needle rest)%bool
  end.

End Py.

(** The double-quote character, written through its code. *)
Definition dq : string := String (ascii_of_nat 34) EmptyString.

(** ** Data model *)

(** [qbreader.Difficulty] and [qbreader.Category], restricted to the members
    the program's maps mention. *)
Inductive Difficulty :=
| MS | HS_EASY | HS_REGS | HS_HARD | HS_NATS
| ONE_DOT | TWO_DOT | THREE_DOT | FOUR_DOT.

Inductive Category :=
| LITERATURE | HISTORY | SCIENCE | FINE_ARTS | RELIGION | MYTHOLOGY
| PHILOSOPHY | SOCIAL_SCIENCE | GEOGRAPHY | OTHER_ACADEMIC | TRASH.

Definition difficulty_map : list (string * Difficulty) :=
  [ ("Middle School", MS); ("High School (Easy)", HS_EASY);
    ("High School (Regular)", HS_REGS); ("High School (Hard)", HS_HARD);
    ("High School (Nationals)", HS_NATS); ("College (Easy)", ONE_DOT);
    ("College (Medium)", TWO_DOT); ("College (Hard)", THREE_DOT);
    ("College (Hardest)", FOUR_DOT) ].

Definition category_map : list (string * Category) :=
  [ ("Literature", LITERATURE); ("History", HISTORY); ("Science", SCIENCE);
    ("Fine Arts", FINE_ARTS); ("Religion", RELIGION); ("Mythology", MYTHOLOGY);
    ("Philosophy", PHILOSOPHY); ("Social Science", SOCIAL_SCIENCE);
    ("Geography", GEOGRAPHY); ("Other Academic", OTHER_ACADEMIC);
    ("Pop Culture / Trash", TRASH) ].

(** The attributes of [qbreader.Tossup] and [qbreader.Bonus] the program reads.
    [t_set_name] is [question.set.name], [t_category] is
    [question.category.value]. *)
Record Tossup := mkTossup {
  question_sanitized : string;
  answer : string;
  answer_sanitized : string;
  t_set_name : string;
  t_category : string
}.

Record Bonus := mkBonus {
  leadin : string;
  parts : list string;
  answers : list string;
  b_set_name : string;
  b_category : string
}.

Inductive Question :=
| QTossup (t : Tossup)
| QBonus (b : Bonus).

Definition is_tossup (q : Question) : bool :=
  match q with QTossup _ => true | QBonus _ => false end.

(** The values the program ever writes to [st.session_state.tossup_state]. *)
Inductive TossupState := waiting | reading | grace_period | buzzed | over.

Definition TossupState_eqb (a b : TossupState) : bool :=
  match a, b with
  | waiting, waiting | reading, reading | grace_period, grace_period
  | buzzed, buzzed | over, over => true
  | _, _ => false
  end.

(** [feedback] is a pair [(kind, text)]; [kind] names the Streamlit function
    that displays it, and only ["success"] and ["error"] are ever stored. *)
Inductive FeedbackKind := fb_success | fb_error.

Definition Feedback : Type := FeedbackKind * string.

(** The part of a search response the pagination reads:
    [results['tossups']['count']], [results['bonuses']['count']] and the number
    of items on the page, with the defaults [0] and [[]] of the [.get] calls
    already applied. *)
Record SearchJson := mkSearchJson {
  tossup_count : Z;
  tossup_array : list string;
  bonus_count : Z;
  bonus_array : list string
}.

(** [st.session_state], one field per key.  [None] is an absent key (reading
    it as an attribute raises [AttributeError]), except for [question] and
    [search_results], which lines 266-267 initialise to Python's [None], and
    [search_page], initialised to [1].  The keys of the Packet Study tab are
    left out: no modelled code touches them. *)
Record Session := mkSession {
  question : option Question;
  search_results : option (SearchJson * string);
  search_page : Z;
  search_submitted : bool;
  words : option (list string);
  tossup_state : option TossupState;
  word_index : option Z;
  feedback : option (option Feedback);
  grace_period_end : option Q;
  bonus_answers : option (list (bool * string))
}.

Definition initial_session : Session :=
  mkSession None None 1 false None None None None None None.

Definition with_question v (s : Session) : Session :=
  mkSession v (search_results s) (search_page s) (search_submitted s) (words s)
    (tossup_state s) (word_index s) (feedback s) (grace_period_end s) (bonus_answers s).

Definition with_search_results v (s : Session) : Session :=
  mkSession (question s) v (search_page s) (search_submitted s) (words s)
    (tossup_state s) (word_index s) (feedback s) (grace_period_end s) (bonus_answers s).

Definition with_search_page v (s : Session) : Session :=
  mkSession (question s) (search_results s) v (search_submitted s) (words s)
    (tossup_state s) (word_index s) (feedback s) (grace_period_end s) (bonus_answers s).

Definition with_search_submitted v (s : Session) : Session :=
  mkSession (question s) (search_results s) (search_page s) v (words s)
    (tossup_state s) (word_index s) (feedback s) (grace_period_end s) (bonus_answers s).

Definition with_words v (s : Session) : Session :=
  mkSession (question s) (search_results s) (search_page s) (search_submitted s) v
    (tossup_state s) (word_index s) (feedback s) (grace_period_end s) (bonus_answers s).

Definition with_tossup_state v (s : Session) : Session :=
  mkSession (question s) (search_results s) (search_page s) (search_submitted s) (words s)
    v (word_index s) (feedback s) (grace_period_end s) (bonus_answers s).

Definition with_word_index v (s : Session) : Session :=
  mkSession (question s) (search_results s) (search_page s) (search_submitted s) (words s)
    (tossup_state s) v (feedback s) (grace_period_end s) (bonus_answers s).

Definition with_feedback v (s : Session) : Session :=
  mkSession (question s) (search_results s) (search_page s) (search_submitted s) (words s)
    (tossup_state s) (word_index s) v (grace_period_end s) (bonus_answers s).

Definition with_grace_period_end v (s : Session) : Session :=
  mkSession (question s) (search_results s) (search_page s) (search_submitted s) (words s)
    (tossup_state s) (word_index s) (feedback s) v (bonus_answers s).

Definition with_bonus_answers v (s : Session) : Session :=
  mkSession (question s) (search_results s) (search_page s) (search_submitted s) (words s)
    (tossup_state s) (word_index s) (feedback s) (grace_period_end s) v.

(** ** Exceptions, the page, user input *)

Inductive Exn :=
| IndexError | KeyError | TypeError | AttributeError
| RequestException | JSONDecodeError
| OtherException (msg : string).

Definition exn_message (e : Exn) : string :=
  match e with
  | IndexError => "list index out of range"
  | KeyError => "KeyError"
  | TypeError => "TypeError"
  | AttributeError => "AttributeError"
  | RequestException => "RequestException"
  | JSONDecodeError => "JSONDecodeError"
  | OtherException msg => msg
  end.

(** The result of a call into a collaborator. *)
Inductive ApiResult (A : Type) :=
| Returned (a : A)
| Raised (e : Exn).
Arguments Returned {A} a.
Arguments Raised {A} e.

Inductive Button :=
| BtnGetNewQuestion      (* sidebar, on_click=get_new_question *)
| BtnStartReading
| BtnBuzz
| BtnNextQuestion        (* review screen, on_click=get_new_question *)
| BtnPreviousPage
| BtnNextPage.

Definition Button_eqb (a b : Button) : bool :=
  match a, b with
  | BtnGetNewQuestion, BtnGetNewQuestion | BtnStartReading, BtnStartReading
  | BtnBuzz, BtnBuzz | BtnNextQuestion, BtnNextQuestion
  | BtnPreviousPage, BtnPreviousPage | BtnNextPage, BtnNextPage => true
  | _, _ => false
  end.

(** What one script run puts on the page, in order. *)
Inductive Element :=
| StInfo (body : string)
| StInfoTimeToBuzz (remaining_time : Q)
| StWarning (body : string)
| StError (body : string)
| StSuccess (body : string)
| StMarkdown (body : string)
| StSubheader (body : string)
| StHeader (body : string)
| StDivider
| StButton (b : Button) (disabled : bool)
| StForm (key : string)
| StExpander (label : string)
| StLinkButton (label url : string).

(** The widget event that triggered a script run.  [NoEvent] is a run started
    by [st.rerun()] or by a widget that no modelled code reads. *)
Inductive Event :=
| NoEvent
| Click (b : Button)
| SubmitAnswer (user_answer : string)              (* form "answer_form" *)
| SubmitBonusPart (i : nat) (bonus_answer : string) (* form "bonus_part_i" *)
| SubmitSearch.                                    (* form "search_form" *)

Inductive Tab := Trainer | QuestionSearch | PacketStudy.

Inductive QType := TossupType | BonusType.

Definition QType_label (q : QType) : string :=
  match q with TossupType => "Tossup" | BonusType => "Bonus" end.

(** What a script run reads from the browser and the clock: the event, the
    value of [time.time()], the navigation radio, the question-type radio, the
    checkboxes by key ([st.session_state.get(key)] as a truth value), and the
    search box. *)
Record Input := mkInput {
  event : Event;
  now : Q;
  active_tab : Tab;
  q_type : QType;
  checked : string -> bool;
  search_query : string
}.

(** ** JSON values, as [json.loads] and [response.json()] produce them *)

Inductive Json :=
| JNull
| JBool (b : bool)
| JNum (n : Z)
| JStr (s : string)
| JArr (items : list Json)
| JObj (fields : list (string * Json)).

(** The empty dict [{}]. *)
Definition empty_dict : Json := JObj [].

Fixpoint assoc {A} (k : string) (l : list (string * A)) : option A :=
  match l with
  | [] => None
  | (k', v) :: rest => if String.eqb k k' then Some v else assoc k rest
  end.

(** Python truthiness of a JSON value. *)
Definition truthy (j : Json) : bool :=
  match j with
  | JNull => false
  | JBool b => b
  | JNum n => negb (n =? 0)
  | JStr s => negb (Py.is_empty s)
  | JArr l => match l with [] => false | _ => true end
  | JObj l => match l with [] => false | _ => true end
  end.

(** The response of [requests.post]: the call raises, or gives a response
    whose status [raise_for_status] accepts or not, with a body. *)
Inductive PostResult :=
| PostRaised
| PostResponse (status_ok : bool) (body : string).

(** ** The collaborators *)

Record World := mkWorld {
  (** [qbr.random_tossup(difficulties, categories)], by the number of
      calls of [random_tossup] and [random_bonus] made before the call. *)
  random_tossup : nat -> list Difficulty -> list Category -> ApiResult (list Tossup);
  (** [qbr.random_bonus(difficulties, categories, three_part_bonuses)] *)
  random_bonus : nat -> list Difficulty -> list Category -> bool -> ApiResult (list Bonus);
  (** [qbr.check_answer(expected, given).correct()]; [Tossup.check_answer_sync]
      calls it with the tossup's answer line. *)
  check_answer : string -> string -> ApiResult bool;
  (** [os.getenv("GEMINI_API_KEY")] *)
  getenv_api_key : option string;
  (** [requests.post(api_url, json=payload, headers=headers)], by the prompt. *)
  requests_post : string -> PostResult;
  (** [json.loads]; [None] when the text is not JSON. *)
  json_loads : string -> option Json;
  (** [[sent.text for sent in nlp(text).sents]] *)
  nlp_sents : string -> list string;
  (** [requests.get] on the query endpoint followed by [raise_for_status] and
      [json()], by the query string and the page number. *)
  requests_get_query : string -> Z -> ApiResult SearchJson
}.

(** ** Script runs *)

Record Machine := mkMachine {
  session : Session;
  page : list Element;
  fetches : nat
}.

(** How a piece of script ends: normally, with [st.rerun()], or with an
    exception. *)
Inductive Outcome (A : Type) :=
| Ret (a : A)
| Rerun
| Raise (e : Exn).
Arguments Ret {A} a.
Arguments Rerun {A}.
Arguments Raise {A} e.

Definition Script (A : Type) : Type := Machine -> Outcome A * Machine.

Definition ret {A} (a : A) : Script A := fun m => (Ret a, m).

Definition bind {A B} (c : Script A) (k : A -> Script B) : Script B :=
  fun m =>
    match c m with
    | (Ret a, m') => k a m'
    | (Rerun, m') => (Rerun, m')
    | (Raise e, m') => (Raise e, m')
    end.

Notation "x <- c ;; k" := (bind c (fun x => k))
  (at level 61, c at next level, right associativity).
Notation "c ;;; k" := (bind c (fun _ => k))
  (at level 61, right associativity).

Definition st_rerun {A} : Script A := fun m => (Rerun, m).

Definition raise {A} (e : Exn) : Script A := fun m => (Raise e, m).

(** [try: body except Exception as e: handler e].  [st.rerun()] is not an
    [Exception] and passes through. *)
Definition try_except {A} (body : Script A) (handler : Exn -> Script A) : Script A :=
  fun m =>
    match body m with
    | (Raise e, m') => handler e m'
    | r => r
    end.

Definition get_session : Script Session := fun m => (Ret (session m), m).

Definition modify_session (f : Session -> Session) : Script unit :=
  fun m => (Ret tt, mkMachine (f (session m)) (page m) (fetches m)).

Definition emit (e : Element) : Script unit :=
  fun m => (Ret tt, mkMachine (session m) (page m ++ [e])%list (fetches m)).

(** [st.session_state.<key>] for a key that may be absent. *)
Definition read {A} (field : Session -> option A) : Script A :=
  fun m =>
    match field (session m) with
    | Some v => (Ret v, m)
    | None => (Raise AttributeError, m)
    end.

(** [l[i]] *)
Definition index {A} (l : list A) (i : nat) : Script A :=
  match nth_error l i with
  | Some v => ret v
  | None => raise IndexError
  end.

Definition of_api {A} (r : ApiResult A) : Script A :=
  match r with
  | Returned a => ret a
  | Raised e => raise e
  end.

(** The run was triggered by a click on [b]. *)
Definition clicked (inp : Input) (b : Button) : bool :=
  match event inp with
  | Click b' => Button_eqb b b'
  | _ => false
  end.

(** [st.button(label, disabled=...)]: true in the run its click triggered; a
    disabled button cannot be clicked. *)
Definition st_button (inp : Input) (b : Button) (disabled : bool) : Script bool :=
  emit (StButton b disabled) ;;;
  ret (clicked inp b && negb disabled)%bool.

(** A call of [qbr.random_tossup] or [qbr.random_bonus]: one more fetch of
    a question.  The other calls of the service (the judge, the search, the
    packets) are not counted in [fetches]. *)
Definition fetch {A} (call : nat -> ApiResult A) : Script A :=
  fun m =>
    let m' := mkMachine (session m) (page m) (S (fetches m)) in
    match call (fetches m) with
    | Returned a => (Ret a, m')
    | Raised e => (Raise e, m')
    end.

Definition st_info (body : string) : Script unit := emit (StInfo body).
Definition st_warning (body : string) : Script unit := emit (StWarning body).
Definition st_error (body : string) : Script unit := emit (StError body).
Definition st_success (body : string) : Script unit := emit (StSuccess body).
Definition st_markdown (body : string) : Script unit := emit (StMarkdown body).
Definition st_subheader (body : string) : Script unit := emit (StSubheader body).
Definition st_header (body : string) : Script unit := emit (StHeader body).

(** [for x in l: body x] *)
Fixpoint for_each {A} (l : list A) (body : A -> Script unit) : Script unit :=
  match l with
  | [] => ret tt
  | x :: rest => body x ;;; for_each rest body
  end.

(** [enumerate(l)] *)
Definition enumerate {A} (l : list A) : list (nat * A) :=
  combine (seq 0 (List.length l)) l.

(** ** The explanation fetcher (lines 163-199) *)

(** [j[k]] for a string key. *)
Definition subscript_key (j : Json) (k : string) : Script Json :=
  match j with
  | JObj fields =>
      match assoc k fields with
      | Some v => ret v
      | None => raise KeyError
      end
  | _ => raise TypeError
  end.

(** [j[0]] *)
Definition subscript_0 (j : Json) : Script Json :=
  match j with
  | JArr (x :: _) => ret x
  | JArr [] => raise IndexError
  | JStr s =>
      match Py.chars s with
      | ch :: _ => ret (JStr ch)
      | [] => raise IndexError
      end
  | JObj _ => raise KeyError
  | _ => raise TypeError
  end.

Definition is_JStr (k : string) (j : Json) : bool :=
  match j with JStr s => String.eqb s k | _ => false end.

(** [k in j] for a string [k]. *)
Definition py_in (k : string) (j : Json) : Script bool :=
  match j with
  | JObj fields => ret (match assoc k fields with Some _ => true | None => false end)
  | JArr items => ret (existsb (is_JStr k) items)
  | JStr s => ret (Py.contains k s)
  | _ => raise TypeError
  end.

(** [response.json()] and [json.loads(text)] *)
Definition loads (W : World) (text : string) : Script Json :=
  match json_loads W text with
  | Some j => ret j
  | None => raise JSONDecodeError
  end.

Definition no_structured_explanation : Json :=
  JObj [ ("explanation", JStr "Sorry, the AI could not provide a structured explanation.");
         ("image_search_query", JStr "error");
         ("recommended_reading", JArr []) ].

(** [get_ai_structured_explanation(prompt)].  The [st.cache_data] decorator
    memoises it by prompt; here the answer of the endpoint is a function of
    the prompt. *)
Definition get_ai_structured_explanation (W : World) (prompt : string) : Script Json :=
  match getenv_api_key W with
  | Some (String _ _) =>
      try_except
        (match requests_post W prompt with
         | PostRaised => raise RequestException
         | PostResponse status_ok body =>
             (if status_ok then ret tt else raise RequestException) ;;;
             result <- loads W body ;;
             has_candidates <- py_in "candidates" result ;;
             if has_candidates then
               c <- subscript_key result "candidates" ;;
               c0 <- subscript_0 c ;;
               content <- subscript_key c0 "content" ;;
               ps <- subscript_key content "parts" ;;
               p0 <- subscript_0 ps ;;
               json_string <- subscript_key p0 "text" ;;
               match json_string with
               | JStr text => loads W text
               | _ => raise TypeError
               end
             else ret no_structured_explanation
         end)
        (fun e =>
           match e with
           | RequestException | JSONDecodeError =>
               st_error ("An error occurred while getting the AI explanation: " ++ exn_message e) ;;;
               ret empty_dict
           | _ => raise e
           end)
  | _ =>
      st_error "Error: GEMINI_API_KEY not found. Please set it in your .env file." ;;;
      ret empty_dict
  end.

(** [data.get(k, default)]: only a dict has [get]. *)
Definition dict_get (data : Json) (k : string) (default : Json) : Script Json :=
  match data with
  | JObj fields => ret (match assoc k fields with Some v => v | None => default end)
  | _ => raise AttributeError
  end.

(** The values [for link in j] goes through. *)
Definition iterate (j : Json) : Script (list Json) :=
  match j with
  | JArr items => ret items
  | JObj fields => ret (map (fun kv => JStr (fst kv)) fields)
  | JStr s => ret (map JStr (Py.chars s))
  | _ => raise TypeError
  end.

(** [display_explanation_section(prompt)] (lines 212-226).  A value that is
    formatted into the page without being a string is kept as the JSON value
    in [StMarkdown] through [json_text]. *)
Definition json_text (j : Json) : string :=
  match j with
  | JStr s => s
  | JNull => "None"
  | JBool true => "True"
  | JBool false => "False"
  | JNum n => Py.str_of_Z n
  | JArr _ => "[...]"
  | JObj _ => "{...}"
  end.

Definition display_explanation_section (W : World) (prompt : string) : Script unit :=
  data <- get_ai_structured_explanation W prompt ;;
  if truthy data then
    query <- dict_get data "image_search_query" (JStr "book") ;;
    match query with
    | JStr q =>
        let google_image_search_url :=
          "https://www.google.com/search?tbm=isch&q=" ++ Py.replace_char " " "+" q in
        emit (StLinkButton ("Search for images of '" ++ q ++ "'") google_image_search_url) ;;;
        explanation <- dict_get data "explanation" (JStr "No explanation available.") ;;
        st_markdown (json_text explanation) ;;;
        reading <- dict_get data "recommended_reading" JNull ;;
        if truthy reading then
          st_markdown "**Further Reading:**" ;;;
          links <- iterate reading ;;
          for_each links (fun link =>
            title <- subscript_key link "title" ;;
            url <- subscript_key link "url" ;;
            st_markdown ("- [" ++ json_text title ++ "](" ++ json_text url ++ ")"))
        else ret tt
    | _ => raise AttributeError
    end
  else ret tt.

(** ** Fetching a new question (lines 232-264) *)

Definition selected {A} (prefix : string) (inp : Input) (table : list (string * A)) : list A :=
  map snd (filter (fun entry => checked inp (prefix ++ fst entry)) table).

Definition is_nil {A} (l : list A) : bool :=
  match l with [] => true | _ => false end.

Definition get_new_question (W : World) (inp : Input) : Script unit :=
  try_except
    (let selected_difficulties := selected "diff_" inp difficulty_map in
     let selected_categories := selected "cat_" inp category_map in
     if (is_nil selected_difficulties || is_nil selected_categories)%bool then
       st_error "Please select at least one difficulty and one category."
     else
       question <-
         match q_type inp with
         | TossupType =>
             found <- fetch (fun n => random_tossup W n selected_difficulties selected_categories) ;;
             question <- index found 0 ;;
             modify_session (with_words (Some (Py.split (question_sanitized question)))) ;;;
             modify_session (with_tossup_state (Some waiting)) ;;;
             ret (QTossup question)
         | BonusType =>
             found <- fetch (fun n => random_bonus W n selected_difficulties selected_categories true) ;;
             question <- index found 0 ;;
             modify_session (with_bonus_answers (Some [])) ;;;
             ret (QBonus question)
         end ;;
       modify_session (with_question (Some question)) ;;;
       modify_session (with_word_index (Some (-1))) ;;;
       modify_session (with_feedback (Some None)))
    (fun e =>
       match e with
       | IndexError =>
           st_error "No questions found with the selected criteria. Please broaden your selection." ;;;
           modify_session (with_question None)
       | _ =>
           st_error ("An error occurred: " ++ exn_message e) ;;;
           modify_session (with_question None)
       end).

(** ** The Trainer tab (lines 290-399) *)

Definition Qgtb (a b : Q) : bool := negb (Qle_bool a b).

Definition feedback_of (correct : bool) : Feedback :=
  if correct then (fb_success, "Correct!") else (fb_error, "Incorrect.").

(** [" ".join(st.session_state.words[:st.session_state.word_index + 1])] *)
Definition revealed_text : Script string :=
  ws <- read words ;;
  i <- read word_index ;;
  ret (Py.join " " (Py.slice_to ws (i + 1))).

(** The [if is_tossup:] branch (lines 310-348). *)
Definition tossup_branch (W : World) (inp : Input) (question : Tossup) : Script unit :=
  s <- get_session ;;
  match match tossup_state s with Some st => st | None => waiting end with
  | waiting =>
      st_markdown "_(Ready to read tossup)_" ;;;
      clicked <- st_button inp BtnStartReading false ;;
      if clicked then
        modify_session (with_tossup_state (Some reading)) ;;;
        modify_session (with_word_index (Some 0)) ;;;
        st_rerun
      else ret tt
  | reading =>
      text <- revealed_text ;;
      st_markdown text ;;;
      clicked <- st_button inp BtnBuzz false ;;
      (if clicked then
         modify_session (with_tossup_state (Some buzzed)) ;;; st_rerun
       else ret tt) ;;;
      i <- read word_index ;;
      ws <- read words ;;
      if i <? Py.len ws - 1 then
        modify_session (with_word_index (Some (i + 1))) ;;;
        st_rerun
      else
        modify_session (with_tossup_state (Some grace_period)) ;;;
        modify_session (with_grace_period_end (Some (now inp + 5)%Q)) ;;;
        st_rerun
  | grace_period =>
      st_markdown (question_sanitized question) ;;;
      deadline <- read grace_period_end ;;
      let remaining_time := (deadline - now inp)%Q in
      if Qgtb remaining_time 0 then
        emit (StInfoTimeToBuzz remaining_time) ;;;
        clicked <- st_button inp BtnBuzz false ;;
        (if clicked then
           modify_session (with_tossup_state (Some buzzed)) ;;; st_rerun
         else ret tt) ;;;
        st_rerun
      else
        modify_session (with_tossup_state (Some over)) ;;;
        st_rerun
  | buzzed =>
      i <- read word_index ;;
      text <- (if i >? -1 then revealed_text else ret EmptyString) ;;
      st_markdown text ;;;
      emit (StForm "answer_form") ;;;
      match event inp with
      | SubmitAnswer user_answer =>
          correct <- of_api (check_answer W (answer question) user_answer) ;;
          modify_session (with_feedback (Some (Some (feedback_of correct)))) ;;;
          modify_session (with_tossup_state (Some over)) ;;;
          st_rerun
      | _ => ret tt
      end
  | over =>
      st_markdown (question_sanitized question) ;;;
      fb <- read feedback ;;
      match fb with
      | Some (fb_success, text) => st_success text
      | Some (fb_error, text) => st_error text
      | None => st_warning "Time's up!"
      end
  end.

(** [len(st.session_state.get('bonus_answers', []))] *)
Definition bonus_answers_len (s : Session) : nat :=
  match bonus_answers s with Some l => List.length l | None => O end.

(** The loop over the parts (lines 351-366), on the indices still to visit;
    the [break] after the form ends it. *)
Fixpoint bonus_parts_loop (W : World) (inp : Input) (question : Bonus) (indices : list nat)
  : Script unit :=
  match indices with
  | [] => ret tt
  | i :: rest =>
      part <- index (parts question) i ;;
      st_markdown ("**Part " ++ Py.str_of_nat (i + 1) ++ ":** " ++ part) ;;;
      s <- get_session ;;
      if (i <? bonus_answers_len s)%nat then
        given <- read bonus_answers ;;
        entry <- index given i ;;
        (let '(is_correct, user_ans) := entry in
         if is_correct then
           st_success ("You answered: '" ++ user_ans ++ "' (Correct)")
         else
           st_error ("You answered: '" ++ user_ans ++ "' (Incorrect)") ;;;
           expected <- index (answers question) i ;;
           st_markdown ("**Correct Answer:** " ++ expected)) ;;;
        bonus_parts_loop W inp question rest
      else
        emit (StForm ("bonus_part_" ++ Py.str_of_nat i)) ;;;
        match event inp with
        | SubmitBonusPart j bonus_answer =>
            if (j =? i)%nat then
              expected <- index (answers question) i ;;
              correct <- of_api (check_answer W expected bonus_answer) ;;
              s <- get_session ;;
              (match bonus_answers s with
               | None => modify_session (with_bonus_answers (Some []))
               | Some _ => ret tt
               end) ;;;
              given <- read bonus_answers ;;
              modify_session (with_bonus_answers (Some (given ++ [(correct, bonus_answer)])%list)) ;;;
              st_rerun
            else ret tt
        | _ => ret tt
        end
  end.

(** The [else: # Bonus] branch (lines 349-368). *)
Definition bonus_branch (W : World) (inp : Input) (question : Bonus) : Script unit :=
  st_markdown ("**Leadin:** " ++ leadin question) ;;;
  st_markdown "---" ;;;
  bonus_parts_loop W inp question (seq 0 (List.length (parts question))) ;;;
  s <- get_session ;;
  if (bonus_answers_len s =? List.length (parts question))%nat then
    modify_session (with_tossup_state (Some over))
  else ret tt.

Definition tossup_summary_prompt (question : Tossup) : string :=
  "Act as a subject matter expert. Provide a detailed, in-depth encyclopedic summary of "
  ++ dq ++ answer_sanitized question ++ dq
  ++ ". Use Markdown bolding to highlight key terms. Also provide a concise, 2-3 word search term for a relevant image and 2-3 links for further reading. Prioritize links from Wikipedia and Encyclopedia Britannica.".

Definition clue_prompt (question : Tossup) (sentence : string) : string :=
  "The overall answer to a quizbowl question is " ++ dq ++ answer_sanitized question ++ dq
  ++ ". Your role is a subject-matter expert. Your task is to provide a detailed, in-depth explanation of the specific names, places, or concepts within this single clue: "
  ++ dq ++ Py.strip sentence ++ dq
  ++ ". Explain how they connect to the main answer. Crucially, use Markdown bolding (**text**) to highlight the most important key terms. Do NOT repeat general information about the main answer. Provide a search query and reading links specific to this clue's specific content. Prioritize links from Wikipedia and Encyclopedia Britannica.".

Definition bonus_summary_prompt (question : Bonus) : string :=
  "Act as a subject matter expert. The lead-in to a bonus is: " ++ dq ++ leadin question ++ dq
  ++ ". Provide a detailed, in-depth summary of the likely overall topic. Use Markdown bolding to highlight key terms. Also provide a concise, 2-3 word search term for a relevant image and reading links. Prioritize links from Wikipedia and Encyclopedia Britannica.".

Definition part_prompt (part expected : string) : string :=
  "Act as a subject matter expert. A quizbowl question asks: " ++ dq ++ part ++ dq
  ++ ". The correct answer is " ++ dq ++ expected ++ dq
  ++ ". Provide a very detailed, in-depth, encyclopedic explanation of the answer in the context of the question. Use Markdown bolding to highlight key terms. Do not repeat the question itself in your explanation. Also provide a search query and reading links for "
  ++ dq ++ expected ++ dq
  ++ ". Prioritize links from Wikipedia and Encyclopedia Britannica.".

(** The review of a tossup (lines 374-385). *)
Definition tossup_review (W : World) (question : Tossup) : Script unit :=
  st_markdown ("**Correct Answer:** " ++ answer question) ;;;
  emit (StExpander "Show Overall Answer Summary") ;;;
  display_explanation_section W (tossup_summary_prompt question) ;;;
  st_subheader "Clue-by-Clue Breakdown" ;;;
  for_each (enumerate (nlp_sents W (question_sanitized question)))
    (fun entry =>
       let '(i, sentence) := entry in
       if Py.is_empty sentence then ret tt
       else
         emit (StExpander ("**Clue " ++ Py.str_of_nat (i + 1) ++ ":** *" ++ Py.strip sentence ++ "*")) ;;;
         display_explanation_section W (clue_prompt question sentence)).

(** The review of a bonus (lines 387-395). *)
Definition bonus_review (W : World) (question : Bonus) : Script unit :=
  emit (StExpander "Show Overall Bonus Topic Summary") ;;;
  display_explanation_section W (bonus_summary_prompt question) ;;;
  st_subheader "Part-by-Part Breakdown" ;;;
  for_each (seq 0 (List.length (parts question)))
    (fun i =>
       emit (StExpander ("**Part " ++ Py.str_of_nat (i + 1) ++ " Review**")) ;;;
       part <- index (parts question) i ;;
       st_markdown ("**Question:** " ++ part) ;;;
       expected <- index (answers question) i ;;
       st_markdown ("**Correct Answer:** " ++ expected) ;;;
       display_explanation_section W (part_prompt part expected)).

(** Lines 370-399: the review screen and its button. *)
Definition review_screen (W : World) (inp : Input) (question : Question) : Script unit :=
  s <- get_session ;;
  let is_game_over :=
    match tossup_state s with Some st => TossupState_eqb st over | None => false end in
  if is_game_over then
    emit StDivider ;;;
    st_header "Review and Analyze" ;;;
    match question with
    | QTossup t => tossup_review W t
    | QBonus b => bonus_review W b
    end ;;;
    clicked <- st_button inp BtnNextQuestion false ;;
    if clicked then
      get_new_question W inp ;;;
      st_rerun
    else ret tt
  else ret tt.

Definition trainer_tab (W : World) (inp : Input) : Script unit :=
  st_header "Trainer Settings" ;;;
  _ <- st_button inp BtnGetNewQuestion false ;;
  s <- get_session ;;
  match question s with
  | None => st_info "Click 'Get New Question' in the sidebar to start practicing!"
  | Some question =>
      st_subheader (QType_label (q_type inp) ++ " Question") ;;;
      match question with
      | QTossup t =>
          st_markdown ("**Set:** " ++ t_set_name t ++ " | **Category:** " ++ t_category t) ;;;
          tossup_branch W inp t
      | QBonus b =>
          st_markdown ("**Set:** " ++ b_set_name b ++ " | **Category:** " ++ b_category b) ;;;
          bonus_branch W inp b
      end ;;;
      review_screen W inp question
  end.

(** ** The Question Search tab: submission, query and pagination *)

(** Lines 425-429: a fresh submission goes back to page 1. *)
Definition search_form (inp : Input) : Script unit :=
  emit (StForm "search_form") ;;;
  match event inp with
  | SubmitSearch =>
      modify_session (with_search_page 1) ;;;
      modify_session (with_search_submitted true)
  | _ => ret tt
  end.

(** Lines 432-456: the query is issued for the current page on every run
    once a search was submitted; a failed request is not caught. *)
Definition issue_query (W : World) (inp : Input) : Script unit :=
  s <- get_session ;;
  if search_submitted s then
    json_data <- of_api (requests_get_query W (search_query inp) (search_page s)) ;;
    modify_session (with_search_results (Some (json_data, search_query inp)))
  else ret tt.

(** Line 520 *)
Definition total_pages (total_results : Z) : Z :=
  total_results / 10 + (if total_results mod 10 >? 0 then 1 else 0).

(** Lines 518-529 *)
Definition pagination_controls (inp : Input) (tossup_count bonus_count : Z) : Script unit :=
  let total_results := Z.max tossup_count bonus_count in
  if total_results >? 10 then
    s <- get_session ;;
    clicked <- st_button inp BtnPreviousPage (search_page s <=? 1) ;;
    (if clicked then
       modify_session (fun s => with_search_page (search_page s - 1) s) ;;; st_rerun
     else ret tt) ;;;
    s <- get_session ;;
    st_markdown ("<div style='text-align: center; margin-top: 0.5rem;'>Page "
                 ++ Py.str_of_Z (search_page s) ++ " of "
                 ++ Py.str_of_Z (total_pages total_results) ++ "</div>") ;;;
    clicked <- st_button inp BtnNextPage (search_page s >=? total_pages total_results) ;;
    if clicked then
      modify_session (fun s => with_search_page (search_page s + 1) s) ;;; st_rerun
    else ret tt
  else ret tt.

(** Lines 404-529.  Of the listing of the results (lines 467-516) only the
    two subheaders are kept: it reads the page of results and writes no
    session key. *)
Definition search_tab (W : World) (inp : Input) : Script unit :=
  st_header "Question Database Search" ;;;
  search_form inp ;;;
  issue_query W inp ;;;
  s <- get_session ;;
  match search_results s with
  | Some (results, query) =>
      emit StDivider ;;;
      st_subheader ("Search Results for '" ++ query ++ "'") ;;;
      (if is_nil (tossup_array results) then ret tt
       else st_subheader ("Tossups (" ++ Py.str_of_Z (tossup_count results) ++ " found)")) ;;;
      (if is_nil (bonus_array results) then ret tt
       else st_subheader ("Bonuses (" ++ Py.str_of_Z (bonus_count results) ++ " found)")) ;;;
      pagination_controls inp (tossup_count results) (bonus_count results)
  | None => ret tt
  end.

(** ** The script and the runs of a session *)

(** Lines 290-596.  The Packet Study tab touches none of the modelled keys. *)
Definition script (W : World) (inp : Input) : Script unit :=
  match active_tab inp with
  | Trainer => trainer_tab W inp
  | QuestionSearch => search_tab W inp
  | PacketStudy => ret tt
  end.

(** The [on_click] callback of the clicked button, which Streamlit runs
    before the script. *)
Definition callback (W : World) (inp : Input) : Script unit :=
  match event inp with
  | Click BtnGetNewQuestion | Click BtnNextQuestion => get_new_question W inp
  | _ => ret tt
  end.

Definition clear_page (m : Machine) : Machine :=
  mkMachine (session m) [] (fetches m).

(** The machine after the callback of a user action. *)
Definition after_callback (W : World) (inp : Input) (m : Machine) : Machine :=
  snd (callback W inp (clear_page m)).

(** One user action or rerun: the callback, then one run of the script. *)
Definition step (W : World) (inp : Input) (m : Machine) : Machine :=
  snd (script W inp (after_callback W inp m)).

Definition initial_machine : Machine := mkMachine initial_session [] 0.

(** The machine after a sequence of runs from a fresh session. *)
Definition run (W : World) (inputs : list Input) : Machine :=
  fold_left (fun m inp => step W inp m) inputs initial_machine.

(** ** A concrete world, for the examples *)

Definition sample_tossup : Tossup :=
  mkTossup "This city is the capital of France" "<b>Paris</b>" "Paris" "Sample Set" "Geography".

Definition empty_tossup : Tossup :=
  mkTossup EmptyString "<b>Paris</b>" "Paris" "Sample Set" "Geography".

Definition sample_bonus : Bonus :=
  mkBonus "Name these European capitals" ["France"; "Italy"; "Germany"]
    ["Paris"; "Rome"; "Berlin"] "Sample Set" "Geography".

Definition other_bonus : Bonus :=
  mkBonus "Name these rivers" ["Egypt"; "Brazil"; "China"]
    ["Nile"; "Amazon"; "Yangtze"] "Sample Set" "Geography".

(** A question bank that always has [t], and [sample_bonus] then
    [other_bonus]; a judge that compares with the sanitized answer; no API key;
    an endpoint whose body is never JSON. *)
Definition sample_world (t : Tossup) : World :=
  mkWorld
    (fun _ _ _ => Returned [t])
    (fun n _ _ _ => Returned [if Nat.even n then sample_bonus else other_bonus])
    (fun expected given => Returned (orb (String.eqb given "Paris") (String.eqb expected given)))
    None
    (fun _ => PostResponse true "<html>Bad Gateway</html>")
    (fun _ => None)
    (fun text => [text])
    (fun _ _ => Returned (mkSearchJson 23 [] 0 [])).

(** The same world with an API key set. *)
Definition keyed_world : World :=
  mkWorld
    (random_tossup (sample_world sample_tossup))
    (random_bonus (sample_world sample_tossup))
    (check_answer (sample_world sample_tossup))
    (Some "key")
    (requests_post (sample_world sample_tossup))
    (json_loads (sample_world sample_tossup))
    (nlp_sents (sample_world sample_tossup))
    (requests_get_query (sample_world sample_tossup)).

(** A world whose question bank has nothing for the filters. *)
Definition barren_world : World :=
  mkWorld
    (fun _ _ _ => Returned [])
    (fun _ _ _ _ => Returned [])
    (check_answer (sample_world sample_tossup))
    None
    (requests_post (sample_world sample_tossup))
    (json_loads (sample_world sample_tossup))
    (nlp_sents (sample_world sample_tossup))
    (requests_get_query (sample_world sample_tossup)).

(** The default boxes of the sidebar: every category, and the difficulty
    "High School (Regular)". *)
Definition default_boxes (key : string) : bool :=
  (String.eqb key "diff_High School (Regular)" || prefix "cat_" key)%bool.

Definition no_boxes (key : string) : bool := false.

Definition input (ev : Event) (time : Q) (qt : QType) : Input :=
  mkInput ev time Trainer qt default_boxes EmptyString.

Definition tick (time : Q) : Input := input NoEvent time TossupType.

(** ** The session effect of the tossup branch, as a function

    [reveal_step] is what one run of [tossup_branch] does to the session; it
    is proved equal to it below ([tossup_branch_post]). *)
Definition reveal_step (W : World) (inp : Input) (t : Tossup) (s : Session) : Session :=
  match match tossup_state s with Some st => st | None => waiting end with
  | waiting =>
      if clicked inp BtnStartReading
      then with_word_index (Some 0) (with_tossup_state (Some reading) s)
      else s
  | reading =>
      match words s, word_index s with
      | Some ws, Some i =>
          if clicked inp BtnBuzz then with_tossup_state (Some buzzed) s
          else if i <? Py.len ws - 1 then with_word_index (Some (i + 1)) s
          else with_grace_period_end (Some (now inp + 5)%Q)
                 (with_tossup_state (Some grace_period) s)
      | _, _ => s
      end
  | grace_period =>
      match grace_period_end s with
      | Some deadline =>
          if Qgtb (deadline - now inp)%Q 0
          then (if clicked inp BtnBuzz then with_tossup_state (Some buzzed) s else s)
          else with_tossup_state (Some over) s
      | None => s
      end
  | buzzed =>
      match word_index s, words s, event inp with
      | Some i, ws, SubmitAnswer user_answer =>
          match (if i >? -1 then ws else Some []), check_answer W (answer t) user_answer with
          | Some _, Returned correct =>
              with_tossup_state (Some over)
                (with_feedback (Some (Some (feedback_of correct))) s)
          | _, _ => s
          end
      | _, _, _ => s
      end
  | over => s
  end.

(** A relation between the machine before and after a piece of script that
    is reflexive, transitive and blind to what is put on the page holds of a
    sequence as soon as it holds of every session write in it. *)
Class Frame (R : Machine -> Machine -> Prop) : Prop := {
  frame_refl : forall m, R m m;
  frame_trans : forall a b c, R a b -> R b c -> R a c;
  frame_emit : forall m e, R m (mkMachine (session m) (page m ++ [e])%list (fetches m))
}.

Definition preserves (R : Machine -> Machine -> Prop) {A} (c : Script A) : Prop :=
  forall m, R m (snd (c m)).

(** Only the page changed. *)
Definition same_state (m m' : Machine) : Prop :=
  session m' = session m /\ fetches m' = fetches m.


(** The session once [get_new_question] has fetched a tossup, or a bonus. *)
Definition loaded_tossup (t : Tossup) (s : Session) : Session :=
  with_feedback (Some None)
    (with_word_index (Some (-1))
       (with_question (Some (QTossup t))
          (with_tossup_state (Some waiting)
             (with_words (Some (Py.split (question_sanitized t))) s)))).

Definition loaded_bonus (b : Bonus) (s : Session) : Session :=
  with_feedback (Some None)
    (with_word_index (Some (-1))
       (with_question (Some (QBonus b))
          (with_bonus_answers (Some []) s))).

(** The index of the last word of a tossup: [len(words) - 1]. *)
Definition last_index (t : Tossup) : Z :=
  Py.len (Py.split (question_sanitized t)) - 1.

(** What holds of the session whenever the active question is the tossup
    [t]: the reveal keys are all present, [words] are the words of [t], and
    the word index and the feedback fit the reveal state. *)
Definition tossup_inv (t : Tossup) (s : Session) : Prop :=
  words s = Some (Py.split (question_sanitized t)) /\
  exists st i fb,
    tossup_state s = Some st /\ word_index s = Some i /\ feedback s = Some fb /\
    match st with
    | waiting => i = -1 /\ fb = None
    | reading => 0 <= i <= Z.max 0 (last_index t) /\ fb = None
    | grace_period =>
        i = Z.max 0 (last_index t) /\ fb = None /\ exists d, grace_period_end s = Some d
    | buzzed => 0 <= i <= Z.max 0 (last_index t) /\ fb = None
    | over => 0 <= i <= Z.max 0 (last_index t)
    end.

Definition Inv (s : Session) : Prop :=
  match question s with
  | Some (QTossup t) => tossup_inv t s
  | _ => True
  end.

(** The keys of the trainer did not change, nor the number of fetches. *)
Definition trainer_kept (m m' : Machine) : Prop :=
  question (session m') = question (session m) /\
  words (session m') = words (session m) /\
  tossup_state (session m') = tossup_state (session m) /\
  word_index (session m') = word_index (session m) /\
  feedback (session m') = feedback (session m) /\
  grace_period_end (session m') = grace_period_end (session m) /\
  bonus_answers (session m') = bonus_answers (session m) /\
  fetches m' = fetches m.

(** What the bonus branch may change: the answers given, and the reveal
    state, which it can only set to [over]. *)
Definition bonus_kept (m m' : Machine) : Prop :=
  question (session m') = question (session m) /\
  words (session m') = words (session m) /\
  word_index (session m') = word_index (session m) /\
  feedback (session m') = feedback (session m) /\
  grace_period_end (session m') = grace_period_end (session m) /\
  fetches m' = fetches m /\
  (tossup_state (session m') = tossup_state (session m) \/
   tossup_state (session m') = Some over).

(** The machine after [emit e]. *)
Definition put_on_page (m : Machine) (e : Element) : Machine :=
  mkMachine (session m) (page m ++ [e])%list (fetches m).

(** How a run of the Trainer tab on the tossup [t] ends: with the session
    [reveal_step] gives, or, from the review screen with a click on its
    button, with a further [get_new_question]. *)
Definition tossup_run (W : World) (inp : Input) (t : Tossup) (m m' : Machine) : Prop :=
  (session m' = reveal_step W inp t (session m) /\ fetches m' = fetches m) \/
  (tossup_state (session m) = Some over /\ clicked inp BtnNextQuestion = true /\
   exists m2, same_state m m2 /\ m' = snd (get_new_question W inp m2)).

(** The same for a bonus. *)
Definition bonus_run (W : World) (inp : Input) (m m' : Machine) : Prop :=
  bonus_kept m m' \/
  (clicked inp BtnNextQuestion = true /\
   exists m2, bonus_kept m m2 /\ tossup_state (session m2) = Some over /\
     m' = snd (get_new_question W inp m2)).

(** The fetch of the question bank found no question: the call raised, or
    gave an empty list ([found[0]] raises [IndexError]). *)
Definition fetch_failed {A} (r : ApiResult (list A)) : Prop :=
  match r with
  | Returned (_ :: _) => False
  | _ => True
  end.

(** The call of the generative endpoint failed in transport (the request
    raised, or [raise_for_status] refused the status), or the body of the
    response is not JSON. *)
Definition transport_failure_or_malformed (W : World) (prompt : string) : Prop :=
  match requests_post W prompt with
  | PostRaised => True
  | PostResponse status_ok body => status_ok = false \/ json_loads W body = None
  end.

(** Inputs of the examples. *)
Definition unchecked_input (ev : Event) : Input :=
  mkInput ev 0 Trainer TossupType no_boxes EmptyString.

Definition search_input (ev : Event) : Input :=
  mkInput ev 0 QuestionSearch TossupType default_boxes "paris".

(** A session read to the end and answered: the tossup is in [over]. *)
Definition answered_session : list Input :=
  [ input (Click BtnGetNewQuestion) 0 TossupType;
    input (Click BtnStartReading) 0 TossupType;
    input (Click BtnBuzz) 1 TossupType;
    input (SubmitAnswer "Paris") 2 TossupType;
    tick 3 ].

(** A run only adds to the page. *)
Definition page_grows (m m' : Machine) : Prop :=
  exists added, page m' = (page m ++ added)%list.

(** What the [over] branch shows for the stored feedback. *)
Definition feedback_element (fb : option Feedback) : Element :=
  match fb with
  | Some (fb_success, text) => StSuccess text
  | Some (fb_error, text) => StError text
  | None => StWarning "Time's up!"
  end.

(** ** [strip_html] (lines 201-204)

    [re.sub('<[^<]+?>', '', text)] removes every leftmost match of a ['<'],
    one or more characters other than ['<'] (as few as possible), and a
    ['>'].  [strip_scan] reads the text once: [pending] is the text of the
    match under way, from its ['<'] on; it is dropped when a ['>'] closes it
    after at least one character, and put back into the result when another
    ['<'] or the end of the text comes first. *)
Definition lt_char : ascii := ascii_of_nat 60.
Definition gt_char : ascii := ascii_of_nat 62.

Fixpoint strip_scan (pending : option string) (s : string) : string :=
  match s with
  | EmptyString =>
      match pending with
      | Some p => p
      | None => EmptyString
      end
  | String c rest =>
      match pending with
      | None =>
          if Ascii.eqb c lt_char
          then strip_scan (Some (String lt_char EmptyString)) rest
          else String c (strip_scan None rest)
      | Some p =>
          if Ascii.eqb c lt_char
          then p ++ strip_scan (Some (String lt_char EmptyString)) rest
          else if (Ascii.eqb c gt_char && Nat.ltb 1 (String.length p))%bool
               then strip_scan None rest
               else strip_scan (Some (p ++ String c EmptyString)) rest
      end
  end.

Definition strip_html (text : string) : string :=
  if Py.is_empty text then EmptyString else strip_scan None text.

(** The character [c] occurs in [s]. *)
Fixpoint occurs (c : ascii) (s : string) : bool :=
  match s with
  | EmptyString => false
  | String c' rest => (Ascii.eqb c' c || occurs c rest)%bool
  end.

(** ** The edges of the reveal state machine *)

(** The moves of the reveal state the Trainer tab makes for an active
    tossup: the rows of the branches of lines 311-348, and [over] to
    [waiting] when the next tossup is fetched. *)
Definition reveal_edge (a b : TossupState) : bool :=
  match a, b with
  | waiting, waiting | waiting, reading
  | reading, reading | reading, buzzed | reading, grace_period
  | grace_period, grace_period | grace_period, buzzed | grace_period, over
  | buzzed, buzzed | buzzed, over
  | over, over | over, waiting => true
  | _, _ => false
  end.

(** A world whose answer judge cannot be reached. *)
Definition failing_judge_world : World :=
  mkWorld
    (random_tossup (sample_world sample_tossup))
    (random_bonus (sample_world sample_tossup))
    (fun _ _ => Raised (OtherException "timed out"))
    None
    (requests_post (sample_world sample_tossup))
    (json_loads (sample_world sample_tossup))
    (nlp_sents (sample_world sample_tossup))
    (requests_get_query (sample_world sample_tossup)).

(** ** The progress of a bonus *)

(** [st.session_state.get('bonus_answers', [])] *)
Definition given_answers (s : Session) : list (bool * string) :=
  match bonus_answers s with
  | Some given => given
  | None => []
  end.

(** The run appended one entry to the answers of the bonus [b]: the answer
    submitted for the part whose index is the number of answers given so
    far, with the verdict of the judge against the expected answer of that
    part. *)
Definition bonus_appended (W : World) (inp : Input) (b : Bonus) (s s' : Session) : Prop :=
  exists expected text correct,
    (List.length (given_answers s) < List.length (parts b))%nat /\
    event inp = SubmitBonusPart (List.length (given_answers s)) text /\
    nth_error (answers b) (List.length (given_answers s)) = Some expected /\
    check_answer W expected text = Returned correct /\
    s' = with_bonus_answers (Some (given_answers s ++ [(correct, text)])%list) s.

(** What holds of the session whenever the active question is a bonus: the
    answers are there, and there are no more of them than parts. *)
Definition bonus_inv (s : Session) : Prop :=
  match question s with
  | Some (QBonus b) =>
      exists given,
        bonus_answers s = Some given /\
        (List.length given <= List.length (parts b))%nat
  | _ => True
  end.

(** ** The search session *)

(** The keys of the search did not change. *)
Definition search_kept (m m' : Machine) : Prop :=
  search_results (session m') = search_results (session m) /\
  search_page (session m') = search_page (session m) /\
  search_submitted (session m') = search_submitted (session m).

(** The page number stays at 1 or above. *)
Definition page_from_one (m m' : Machine) : Prop :=
  1 <= search_page (session m) -> 1 <= search_page (session m').

(** The page the query of a run asks for: 1 on a fresh submission. *)
Definition queried_page (inp : Input) (s : Session) : Z :=
  match event inp with
  | SubmitSearch => 1
  | _ => search_page s
  end.

(** The run issues the query: a search was submitted, now or before. *)
Definition query_issued (inp : Input) (s : Session) : bool :=
  match event inp with
  | SubmitSearch => true
  | _ => search_submitted s
  end.

(** The machine after [n] further runs. *)
Definition run_from (W : World) (inputs : list Input) (m : Machine) : Machine :=
  fold_left (fun m inp => step W inp m) inputs m.

(** ** Responses of the generative endpoint *)

(** The API key is set: [os.getenv] gave a non-empty string. *)
Definition has_api_key (W : World) : Prop :=
  match getenv_api_key W with
  | Some (String _ _) => True
  | _ => False
  end.

(** The configuration error of line 170. *)
Definition missing_key_error : Element :=
  StError "Error: GEMINI_API_KEY not found. Please set it in your .env file.".

(** A world with an API key whose endpoint answers every prompt with [body],
    read by [parse]. *)
Definition endpoint_world (body : string) (parse : string -> option Json) : World :=
  mkWorld
    (random_tossup (sample_world sample_tossup))
    (random_bonus (sample_world sample_tossup))
    (check_answer (sample_world sample_tossup))
    (Some "key")
    (fun _ => PostResponse true body)
    parse
    (nlp_sents (sample_world sample_tossup))
    (requests_get_query (sample_world sample_tossup)).

(** A reader of three fixed texts: a response with one candidate whose text
    is ["inner"], a response with no candidate, and the explanation
    ["inner"] stands for. *)
Definition sample_parse (text : string) : option Json :=
  if String.eqb text "outer" then
    Some (JObj [("candidates",
                 JArr [JObj [("content",
                              JObj [("parts", JArr [JObj [("text", JStr "inner")]]);
                                    ("role", JStr "model")]);
                             ("finishReason", JStr "STOP")]]);
                ("modelVersion", JStr "gemini-2.0-flash")])
  else if String.eqb text "inner" then
    Some (JObj [("explanation", JStr "Paris is the capital of France.");
                ("image_search_query", JStr "Paris France");
                ("recommended_reading",
                 JArr [JObj [("title", JStr "Paris");
                             ("url", JStr "https://en.wikipedia.org/wiki/Paris")]])])
  else if String.eqb text "blocked" then
    Some (JObj [("candidates", JArr [])])
  else if String.eqb text "feedback" then
    Some (JObj [("promptFeedback", JObj [("blockReason", JStr "SAFETY")])])
  else None.

(** ** The Packet Study tab (lines 534-559)

    The tab has keys of its own, [packet_data] and [packet_set_name], which
    lines 269-270 initialise to Python's [None]; its collaborators are the
    list of the sets, the number of packets of a set and the packet
    endpoint ([requests.get], [raise_for_status] and [json()] together).  A
    run is a function of these, the widgets and the two keys.  Of what is
    shown of a loaded packet only the heading is modelled. *)
Record PacketSession := mkPacketSession {
  packet_data : option Json;
  packet_set_name : option string
}.

Record PacketWorld := mkPacketWorld {
  (** [get_set_list()], that is [qbr.set_list()] *)
  set_list : ApiResult (list string);
  (** [qbr.num_packets(set_name)] *)
  num_packets : string -> ApiResult Z;
  (** the GET of the packet endpoint, by set name and packet number *)
  requests_get_packet : string -> Z -> ApiResult Json
}.

(** The widgets of the tab: the set the select box returns, the number the
    number input returns, and whether "Load Packet" was clicked. *)
Record PacketInput := mkPacketInput {
  selected_set : string;
  packet_number : Z;
  load_clicked : bool
}.

Inductive PacketElement :=
| PkHeader (body : string)
| PkSelectbox (options : list string)
| PkNumberInput (min_value max_value : Z)
| PkLoadButton
| PkWarning (body : string)
| PkDivider
| PkSubheader (body : string).

(** How a run of the tab ends, the keys after it, and its page. *)
Definition PacketRun : Type := Outcome unit * PacketSession * list PacketElement.

(** Lines 557-559: the heading of the loaded packet. *)
Definition packet_view (ps : PacketSession) (shown : list PacketElement) : PacketRun :=
  match packet_data ps with
  | Some data =>
      if truthy data then
        match data with
        | JObj fields =>
            let number :=
              match assoc "number" fields with
              | Some n => json_text n
              | None => EmptyString
              end in
            let set_name :=
              match packet_set_name ps with
              | Some name => name
              | None => "None"
              end in
            (Ret tt, ps,
             shown ++ [PkDivider;
                       PkSubheader ("Viewing: " ++ set_name ++ " - Packet " ++ number)])%list
        | _ => (Raise AttributeError, ps, shown ++ [PkDivider])%list
        end
      else (Ret tt, ps, shown)
  | None => (Ret tt, ps, shown)
  end.

(** Lines 534-559. *)
Definition packet_tab (W : PacketWorld) (inp : PacketInput) (ps : PacketSession) : PacketRun :=
  let shown := [PkHeader "Packet Study"] in
  match set_list W with
  | Raised e => (Raise e, ps, shown)
  | Returned sets =>
      if is_nil sets then packet_view ps shown
      else
        let shown := (shown ++ [PkSelectbox sets])%list in
        let set_name := selected_set inp in
        if Py.is_empty set_name then packet_view ps shown
        else
          match num_packets W set_name with
          | Raised e => (Raise e, ps, shown)
          | Returned count =>
              if count >? 0 then
                let shown := (shown ++ [PkNumberInput 1 count; PkLoadButton])%list in
                if load_clicked inp then
                  match requests_get_packet W set_name (packet_number inp) with
                  | Raised e => (Raise e, ps, shown)
                  | Returned json_data =>
                      packet_view (mkPacketSession (Some json_data) (Some set_name)) shown
                  end
                else packet_view ps shown
              else
                packet_view ps
                  (shown ++ [PkWarning "This set does not appear to have any packets."])%list
          end
  end.

Definition initial_packet_session : PacketSession := mkPacketSession None None.

(** The keys after a sequence of runs of the tab from a fresh session. *)
Definition packet_runs (W : PacketWorld) (inputs : list PacketInput) : PacketSession :=
  fold_left (fun ps inp => snd (fst (packet_tab W inp ps))) inputs initial_packet_session.

(** The run loaded a packet: a set with packets is selected, the button was
    clicked and the endpoint answered. *)
Definition packet_loaded (W : PacketWorld) (inp : PacketInput) (json_data : Json) : Prop :=
  exists sets count,
    set_list W = Returned sets /\ sets <> [] /\
    selected_set inp <> EmptyString /\
    num_packets W (selected_set inp) = Returned count /\ 0 < count /\
    load_clicked inp = true /\
    requests_get_packet W (selected_set inp) (packet_number inp) = Returned json_data.

(** A world of two sets, one of them empty; packet 3 cannot be fetched. *)
Definition sample_packet_world : PacketWorld :=
  mkPacketWorld
    (Returned ["2023 ACF Fall"; "Empty Set"])
    (fun name => Returned (if String.eqb name "2023 ACF Fall" then 12 else 0))
    (fun name number =>
       if number =? 3 then Raised RequestException
       else Returned (JObj [("number", JNum number); ("tossups", JArr []); ("bonuses", JArr [])])).

(** ** Texts as code points

    [Py.split] reads the bytes of the UTF-8 encoding; these definitions say
    what it computes on the code points of the text. *)

(** The text of a sequence of code points. *)
Fixpoint encode (cps : list N) : string :=
  match cps with
  | [] => EmptyString
  | cp :: rest => Py.utf8 cp ++ encode rest
  end.

(** [ord(ch)] for one character. *)
Definition code_point (ch : string) : N :=
  match map N_of_ascii (list_ascii_of_string ch) with
  | [a] => a
  | [a; b] => (a - 192) * 64 + (b - 128)
  | [a; b; c] => (a - 224) * 4096 + (b - 128) * 64 + (c - 128)
  | [a; b; c; d] => (a - 240) * 262144 + (b - 128) * 4096 + (c - 128) * 64 + (d - 128)
  | _ => 0
  end%N.

(** A code point of Unicode. *)
Definition is_code_point (cp : N) : Prop := (cp < 1114112)%N.

(** [str.split()] on the code points of a text; [cur] is the word being
    read. *)
Fixpoint split_points (cps cur : list N) : list (list N) :=
  match cps with
  | [] => if is_nil cur then [] else [cur]
  | cp :: rest =>
      if existsb (N.eqb cp) Py.whitespace
      then (if is_nil cur then split_points rest [] else cur :: split_points rest [])
      else split_points rest (cur ++ [cp])%list
  end.
(** ** Reasoning about scripts *)

Ltac exec :=
  cbv [bind ret emit get_session modify_session st_rerun raise read index of_api
       st_button andb negb fetch try_except st_info st_warning st_error st_success st_markdown
       st_subheader st_header fst snd session page fetches
       question search_results search_page search_submitted words tossup_state
       word_index feedback grace_period_end bonus_answers
       with_question with_search_results with_search_page with_search_submitted
       with_words with_tossup_state with_word_index with_feedback
       with_grace_period_end with_bonus_answers].

Ltac finish := cbn; repeat split; intros; congruence.

Lemma tossup_branch_post W inp t m :
  session (snd (tossup_branch W inp t m)) = reveal_step W inp t (session m) /\
  fetches (snd (tossup_branch W inp t m)) = fetches m /\
  (fst (tossup_branch W inp t m) = Ret tt ->
   session (snd (tossup_branch W inp t m)) = session m).
Proof.
  destruct m as [[q sr sp ss ws st i fb ge ba] pg f].
  unfold tossup_branch, reveal_step, revealed_text.
  destruct st as [[]|]; exec.
  - destruct (clicked inp BtnStartReading); finish.
  - destruct ws as [ws|]; [|finish].
    destruct i as [i|]; [|finish].
    destruct (clicked inp BtnBuzz); [finish|].
    destruct (i <? Py.len ws - 1); finish.
  - destruct ge as [d|]; [|finish].
    destruct (Qgtb (d - now inp) 0); [|finish].
    destruct (clicked inp BtnBuzz); finish.
  - destruct i as [i|]; [|finish].
    destruct (i >? -1).
    + destruct ws as [ws|]; [|destruct (event inp); finish].
      destruct (event inp); try finish.
      destruct (check_answer W (answer t) user_answer); finish.
    + destruct (event inp); try finish.
      destruct (check_answer W (answer t) user_answer); finish.
  - destruct fb as [[[[] txt]|]|]; finish.
  - destruct (clicked inp BtnStartReading); finish.
Qed.

Section FrameRules.
Context {R : Machine -> Machine -> Prop} `{Frame R}.

Lemma preserves_ret {A} (a : A) : preserves R (ret a).
Proof. intro m. apply frame_refl. Qed.

Lemma preserves_rerun {A} : preserves R (@st_rerun A).
Proof. intro m. apply frame_refl. Qed.

Lemma preserves_raise {A} e : preserves R (@raise A e).
Proof. intro m. apply frame_refl. Qed.

Lemma preserves_get_session : preserves R get_session.
Proof. intro m. apply frame_refl. Qed.

Lemma preserves_emit e : preserves R (emit e).
Proof. intro m. apply frame_emit. Qed.

Lemma preserves_read {A} (field : Session -> option A) : preserves R (read field).
Proof. intro m. unfold read. destruct (field (session m)); apply frame_refl. Qed.

Lemma preserves_index {A} (l : list A) i : preserves R (index l i).
Proof. intro m. unfold index. destruct (nth_error l i); apply frame_refl. Qed.

Lemma preserves_of_api {A} (r : ApiResult A) : preserves R (of_api r).
Proof. intro m. destruct r; apply frame_refl. Qed.

Lemma preserves_bind {A B} (c : Script A) (k : A -> Script B) :
  preserves R c -> (forall a, preserves R (k a)) -> preserves R (bind c k).
Proof.
  intros Hc Hk m. unfold bind. specialize (Hc m).
  destruct (c m) as [[a| |e] m']; cbn in *; auto.
  eapply frame_trans; [exact Hc|apply Hk].
Qed.

Lemma preserves_try_except {A} (body : Script A) handler :
  preserves R body -> (forall e, preserves R (handler e)) ->
  preserves R (try_except body handler).
Proof.
  intros Hb Hh m. unfold try_except. specialize (Hb m).
  destruct (body m) as [[a| |e] m']; cbn in *; auto.
  eapply frame_trans; [exact Hb|apply Hh].
Qed.

Lemma preserves_button inp b disabled : preserves R (st_button inp b disabled).
Proof. apply preserves_bind; [apply preserves_emit|intro; apply preserves_ret]. Qed.

Lemma preserves_for_each {A} (l : list A) body :
  (forall x, preserves R (body x)) -> preserves R (for_each l body).
Proof.
  intro Hb. induction l as [|x l IH]; cbn.
  - apply preserves_ret.
  - apply preserves_bind; auto.
Qed.
End FrameRules.

(** Breaks a goal [preserves R script] down to the session writes of the script. *)
Ltac frame_step :=
  first
    [ apply preserves_ret | apply preserves_rerun | apply preserves_raise
    | apply preserves_get_session | apply preserves_emit | apply preserves_read
    | apply preserves_index | apply preserves_of_api | apply preserves_button
    | apply preserves_bind; [|intro]
    | apply preserves_try_except; [|intro]
    | apply preserves_for_each; intro
    | match goal with
      | |- preserves _ (match ?x with _ => _ end) => destruct x
      end ].

Ltac frame := repeat frame_step.

#[export] Instance same_state_frame : Frame same_state.
Proof.
  split; unfold same_state.
  - auto.
  - intros a b c [] []; split; congruence.
  - cbn; auto.
Qed.

Lemma fetcher_same_state W prompt :
  preserves same_state (get_ai_structured_explanation W prompt).
Proof.
  unfold get_ai_structured_explanation, loads, py_in, subscript_key, subscript_0,
    st_error.
  frame.
Qed.

Lemma display_same_state W prompt :
  preserves same_state (display_explanation_section W prompt).
Proof.
  unfold display_explanation_section.
  apply preserves_bind; [apply fetcher_same_state|intro data].
  unfold dict_get, iterate, subscript_key, st_markdown.
  frame.
Qed.

Lemma tossup_review_same_state W t : preserves same_state (tossup_review W t).
Proof.
  unfold tossup_review, st_markdown, st_subheader.
  repeat first [apply display_same_state | frame_step].
Qed.

Lemma bonus_review_same_state W b : preserves same_state (bonus_review W b).
Proof.
  unfold bonus_review, st_markdown, st_subheader.
  repeat first [apply display_same_state | frame_step].
Qed.

Lemma preserves_modify (R : Machine -> Machine -> Prop) f :
  (forall m, R m (mkMachine (f (session m)) (page m) (fetches m))) ->
  preserves R (modify_session f).
Proof. intros Hf m. apply Hf. Qed.

#[export] Instance trainer_kept_frame : Frame trainer_kept.
Proof.
  split; unfold trainer_kept.
  - intuition.
  - intros a b c Hab Hbc. decompose [and] Hab. decompose [and] Hbc.
    repeat split; congruence.
  - cbn; intuition.
Qed.

#[export] Instance bonus_kept_frame : Frame bonus_kept.
Proof.
  split; unfold bonus_kept.
  - intuition.
  - intros a b c (q1 & w1 & i1 & f1 & g1 & n1 & t1) (q2 & w2 & i2 & f2 & g2 & n2 & t2).
    repeat split; try congruence.
    destruct t2 as [t2|t2]; [|right; exact t2].
    destruct t1 as [t1|t1]; [left|right]; congruence.
  - cbn; intuition.
Qed.

(** *** [get_new_question] *)

Lemma get_new_question_post W inp m :
  let sd := selected "diff_" inp difficulty_map in
  let sc := selected "cat_" inp category_map in
  let r := get_new_question W inp m in
  fst r = Ret tt /\
  if (is_nil sd || is_nil sc)%bool then
    session (snd r) = session m /\ fetches (snd r) = fetches m /\
    page (snd r) =
      (page m ++ [StError "Please select at least one difficulty and one category."])%list
  else
    fetches (snd r) = S (fetches m) /\
    match q_type inp with
    | TossupType =>
        match random_tossup W (fetches m) sd sc with
        | Returned (t :: _) =>
            session (snd r) = loaded_tossup t (session m) /\ page (snd r) = page m
        | _ =>
            session (snd r) = with_question None (session m) /\
            exists msg, page (snd r) = (page m ++ [StError msg])%list
        end
    | BonusType =>
        match random_bonus W (fetches m) sd sc true with
        | Returned (b :: _) =>
            session (snd r) = loaded_bonus b (session m) /\ page (snd r) = page m
        | _ =>
            session (snd r) = with_question None (session m) /\
            exists msg, page (snd r) = (page m ++ [StError msg])%list
        end
    end.
Proof.
  intros sd sc. unfold get_new_question. fold sd sc.
  destruct m as [s pg f].
  destruct (is_nil sd || is_nil sc)%bool.
  - exec. auto.
  - destruct (q_type inp); exec.
    + destruct (random_tossup W f sd sc) as [[|t l]|e]; cbn.
      * repeat split; eauto.
      * repeat split; eauto.
      * destruct e; cbn; repeat split; eauto.
    + destruct (random_bonus W f sd sc true) as [[|b l]|e]; cbn.
      * repeat split; eauto.
      * repeat split; eauto.
      * destruct e; cbn; repeat split; eauto.
Qed.

Lemma get_new_question_snd_rerun W inp m :
  snd ((get_new_question W inp ;;; @st_rerun unit) m) = snd (get_new_question W inp m).
Proof.
  unfold bind. destruct (get_new_question W inp m) as [[a| |e] m']; reflexivity.
Qed.


(** *** Running the first command of a sequence *)

Lemma bind_get_session {B} (k : Session -> Script B) m :
  (s <- get_session ;; k s) m = k (session m) m.
Proof. reflexivity. Qed.

Lemma bind_emit {B} e (k : Script B) m :
  (emit e ;;; k) m = k (put_on_page m e).
Proof. reflexivity. Qed.

Lemma bind_button {B} inp b disabled (k : bool -> Script B) m :
  (c <- st_button inp b disabled ;; k c) m =
  k (clicked inp b && negb disabled)%bool (put_on_page m (StButton b disabled)).
Proof. reflexivity. Qed.

Lemma bind_outcome {A B} (c : Script A) (k : A -> Script B) m :
  bind c k m =
  match fst (c m) with
  | Ret a => k a (snd (c m))
  | Rerun => (Rerun, snd (c m))
  | Raise e => (Raise e, snd (c m))
  end.
Proof. unfold bind. destruct (c m) as [[a| |e] m']; reflexivity. Qed.

Lemma same_state_page m e : same_state m (put_on_page m e).
Proof. split; reflexivity. Qed.

Lemma same_state_trans a b c : same_state a b -> same_state b c -> same_state a c.
Proof. intros [] []; split; congruence. Qed.

(** *** The review screen *)

Lemma review_screen_post W inp q m :
  same_state m (snd (review_screen W inp q m)) \/
  (tossup_state (session m) = Some over /\ clicked inp BtnNextQuestion = true /\
   exists m1, same_state m m1 /\
     snd (review_screen W inp q m) = snd (get_new_question W inp m1)).
Proof.
  remember (snd (review_screen W inp q m)) as r eqn:Er.
  unfold review_screen in Er. rewrite bind_get_session in Er.
  destruct (tossup_state (session m)) as [[]|] eqn:Est; cbn [TossupState_eqb] in Er;
    try (left; subst r; split; reflexivity).
  unfold st_header in Er. rewrite !bind_emit in Er.
  set (m2 := put_on_page (put_on_page m StDivider) (StHeader "Review and Analyze")) in Er.
  assert (H2 : same_state m m2) by (split; reflexivity).
  rewrite bind_outcome in Er.
  set (review := match q with QTossup t => tossup_review W t | QBonus b => bonus_review W b end) in Er.
  assert (H3 : same_state m2 (snd (review m2))).
  { destruct q; [apply tossup_review_same_state|apply bonus_review_same_state]. }
  pose proof (same_state_trans _ _ _ H2 H3) as H4.
  destruct (fst (review m2)) as [[]| |e]; cbn [snd] in Er;
    try (left; subst r; exact H4).
  rewrite bind_button in Er.
  destruct (clicked inp BtnNextQuestion) eqn:Ec; cbn [andb negb] in Er.
  - right. split; [reflexivity|]. split; [reflexivity|].
    rewrite get_new_question_snd_rerun in Er.
    eexists. split; [|exact Er].
    eapply same_state_trans; [exact H4|apply same_state_page].
  - left. subst r. cbn [ret snd].
    eapply same_state_trans; [exact H4|apply same_state_page].
Qed.

(** *** The bonus branch and the search tab *)

Lemma bonus_parts_loop_kept W inp b indices :
  preserves bonus_kept (bonus_parts_loop W inp b indices).
Proof.
  induction indices as [|i rest IH]; cbn [bonus_parts_loop].
  - apply preserves_ret.
  - unfold st_markdown, st_success, st_error.
    repeat first
      [ exact IH
      | apply preserves_modify; intro m; unfold bonus_kept; cbn; intuition
      | frame_step ].
Qed.

Lemma bonus_branch_kept W inp b : preserves bonus_kept (bonus_branch W inp b).
Proof.
  unfold bonus_branch, st_markdown.
  repeat first
    [ apply bonus_parts_loop_kept
    | apply preserves_modify; intro m; unfold bonus_kept; cbn; intuition
    | frame_step ].
Qed.

Lemma search_tab_kept W inp : preserves trainer_kept (search_tab W inp).
Proof.
  unfold search_tab, search_form, issue_query, pagination_controls,
    st_header, st_subheader, st_markdown.
  repeat first
    [ apply preserves_modify; intro m; unfold trainer_kept; cbn; intuition
    | frame_step ].
Qed.

(** *** The Trainer tab and the script *)

Lemma bind_assoc {A B C} (c : Script A) (k : A -> Script B) (k' : B -> Script C) m :
  bind (bind c k) k' m = bind c (fun a => bind (k a) k') m.
Proof. unfold bind. destruct (c m) as [[a| |e] m']; reflexivity. Qed.

Lemma trainer_tab_empty W inp m :
  question (session m) = None ->
  same_state m (snd (trainer_tab W inp m)) /\
  fst (trainer_tab W inp m) = Ret tt /\
  In (StInfo "Click 'Get New Question' in the sidebar to start practicing!")
     (page (snd (trainer_tab W inp m))).
Proof.
  intro Hq. unfold trainer_tab, st_header.
  rewrite bind_emit, bind_button, bind_get_session. cbn [session put_on_page].
  rewrite Hq. unfold st_info, emit. cbn.
  repeat split. apply in_or_app. right. left. reflexivity.
Qed.

Lemma trainer_tab_tossup W inp m t :
  question (session m) = Some (QTossup t) ->
  tossup_run W inp t m (snd (trainer_tab W inp m)).
Proof.
  intro Hq. unfold trainer_tab, st_header.
  rewrite bind_emit, bind_button, bind_get_session. cbn [session put_on_page].
  rewrite Hq. cbv beta iota. unfold st_subheader, st_markdown.
  rewrite bind_emit, bind_assoc, bind_emit, bind_outcome.
  match goal with |- context [tossup_branch W inp t ?mm] => set (m0 := mm) end.
  destruct (tossup_branch_post W inp t m0) as (Hs & Hf & Hret).
  change (session m0) with (session m) in *. change (fetches m0) with (fetches m) in *.
  destruct (fst (tossup_branch W inp t m0)) as [[]| |e]; cbn [snd];
    try (left; split; assumption).
  specialize (Hret eq_refl).
  destruct (review_screen_post W inp (QTossup t) (snd (tossup_branch W inp t m0)))
    as [[Hs' Hf']|(Hover & Hc & m2 & [Hs2 Hf2] & Hm2)].
  - left. split; congruence.
  - right. rewrite Hret in Hover. split; [exact Hover|]. split; [exact Hc|].
    exists m2. split; [split; congruence|exact Hm2].
Qed.

Lemma trainer_tab_bonus W inp m b :
  question (session m) = Some (QBonus b) ->
  bonus_run W inp m (snd (trainer_tab W inp m)).
Proof.
  intro Hq. unfold trainer_tab, st_header.
  rewrite bind_emit, bind_button, bind_get_session. cbn [session put_on_page].
  rewrite Hq. cbv beta iota. unfold st_subheader, st_markdown.
  rewrite bind_emit, bind_assoc, bind_emit, bind_outcome.
  match goal with |- context [bonus_branch W inp b ?mm] => set (m0 := mm) end.
  assert (Hk : bonus_kept m (snd (bonus_branch W inp b m0))).
  { eapply frame_trans; [|apply bonus_branch_kept]. unfold bonus_kept; cbn; intuition. }
  destruct (fst (bonus_branch W inp b m0)) as [[]| |e]; cbn [snd];
    try (left; exact Hk).
  destruct (review_screen_post W inp (QBonus b) (snd (bonus_branch W inp b m0)))
    as [Hs|(Hover & Hc & m2 & Hs2 & Hm2)].
  - left. eapply frame_trans; [exact Hk|]. destruct Hs as [Hs Hf].
    unfold bonus_kept. rewrite Hs, Hf. intuition.
  - right. split; [exact Hc|]. exists m2. split; [|split; [|exact Hm2]].
    + eapply frame_trans; [exact Hk|]. destruct Hs2 as [Hs Hf].
      unfold bonus_kept. rewrite Hs, Hf. intuition.
    + destruct Hs2 as [Hs _]. rewrite Hs. exact Hover.
Qed.

Lemma same_state_kept m m' : same_state m m' -> trainer_kept m m'.
Proof. intros [Hs Hf]. unfold trainer_kept. rewrite Hs. intuition. Qed.

Lemma script_cases W inp m :
  trainer_kept m (snd (script W inp m)) \/
  (active_tab inp = Trainer /\
   ((exists t, question (session m) = Some (QTossup t) /\
               tossup_run W inp t m (snd (script W inp m))) \/
    (exists b, question (session m) = Some (QBonus b) /\
               bonus_run W inp m (snd (script W inp m))))).
Proof.
  unfold script. destruct (active_tab inp).
  - destruct (question (session m)) as [[t|b]|] eqn:Hq.
    + right. split; [reflexivity|]. left. exists t. split; [reflexivity|].
      apply trainer_tab_tossup, Hq.
    + right. split; [reflexivity|]. right. exists b. split; [reflexivity|].
      apply (trainer_tab_bonus W inp m b Hq).
    + left. apply same_state_kept. apply trainer_tab_empty. exact Hq.
  - left. apply search_tab_kept.
  - left. apply frame_refl.
Qed.

(** *** The invariant *)

Lemma Inv_kept m m' : trainer_kept m m' -> Inv (session m) -> Inv (session m').
Proof.
  intros (Hq & Hw & Hst & Hi & Hfb & Hge & _ & _). unfold Inv, tossup_inv.
  rewrite Hq, Hw, Hst, Hi, Hfb, Hge. auto.
Qed.

Lemma Inv_same_state m m' : same_state m m' -> Inv (session m) -> Inv (session m').
Proof. intros [Hs _]. rewrite Hs. auto. Qed.

Lemma reveal_step_question W inp t s :
  question (reveal_step W inp t s) = question s.
Proof.
  unfold reveal_step.
  repeat match goal with
         | |- context [match ?x with _ => _ end] => destruct x
         end; reflexivity.
Qed.

Lemma reveal_step_inv W inp t s :
  tossup_inv t s -> tossup_inv t (reveal_step W inp t s).
Proof.
  destruct s as [q sr sp ss ws st i fb ge ba].
  unfold tossup_inv, reveal_step, last_index. cbn.
  intros (Hw & st' & i' & fb' & Hst & Hi & Hfb & H). subst.
  set (n := Py.len (Py.split (question_sanitized t))) in *.
  destruct st'; cbn.
  - destruct (clicked inp BtnStartReading); cbn.
    + split; [reflexivity|]. exists reading, 0, fb'. intuition lia.
    + split; [reflexivity|]. exists waiting, i', fb'. intuition.
  - destruct (clicked inp BtnBuzz); cbn.
    + split; [reflexivity|]. exists buzzed, i', fb'. intuition.
    + destruct (Z.ltb_spec i' (n - 1)); cbn.
      * split; [reflexivity|]. exists reading, (i' + 1), fb'. intuition lia.
      * split; [reflexivity|]. exists grace_period, i', fb'.
        intuition (try lia). eauto.
  - destruct H as (Hi' & Hfb' & d & Hd). inversion Hd; subst.
    destruct (Qgtb (d - now inp) 0); cbn.
    + destruct (clicked inp BtnBuzz); cbn.
      * split; [reflexivity|]. eexists buzzed, _, _. intuition (try reflexivity; lia).
      * split; [reflexivity|]. eexists grace_period, _, _.
        intuition (try reflexivity). eauto.
    + split; [reflexivity|]. eexists over, _, _. intuition (try reflexivity; lia).
  - destruct (event inp); cbn;
      try (split; [reflexivity|]; exists buzzed, i', fb'; intuition).
    destruct (i' >? -1); cbn;
      destruct (check_answer W (answer t) user_answer); cbn;
      split; try reflexivity;
      first [ eexists over, _, _; intuition (try reflexivity; lia)
            | exists buzzed, i', fb'; intuition ].
  - split; [reflexivity|]. exists over, i', fb'. intuition.
Qed.

Lemma get_new_question_inv W inp m :
  Inv (session m) -> Inv (session (snd (get_new_question W inp m))).
Proof.
  intro HI. destruct (get_new_question_post W inp m) as [_ H].
  destruct (is_nil _ || is_nil _)%bool.
  - destruct H as (Hs & _). rewrite Hs. exact HI.
  - destruct H as (_ & H). destruct (q_type inp).
    + destruct (random_tossup W _ _ _) as [[|t l]|e]; destruct H as [Hs _]; rewrite Hs.
      * exact I.
      * unfold Inv, tossup_inv, loaded_tossup. cbn. split; [reflexivity|].
        exists waiting, (-1), None. intuition.
      * exact I.
    + destruct (random_bonus W _ _ _ _) as [[|b l]|e]; destruct H as [Hs _]; rewrite Hs;
        exact I.
Qed.

Lemma script_inv W inp m : Inv (session m) -> Inv (session (snd (script W inp m))).
Proof.
  intro HI.
  destruct (script_cases W inp m)
    as [Hk|(_ & [(t & Hq & [[Hs _]|(_ & _ & m2 & Hs & ->)])
                |(b & Hq & [Hk|(_ & m2 & Hk & _ & ->)])])].
  - eapply Inv_kept; eauto.
  - unfold Inv in *. rewrite Hs, reveal_step_question, Hq. rewrite Hq in HI.
    apply reveal_step_inv, HI.
  - apply get_new_question_inv. eapply Inv_same_state; eauto.
  - destruct Hk as (Hq' & _). unfold Inv. rewrite Hq', Hq. exact I.
  - apply get_new_question_inv. destruct Hk as (Hq' & _).
    unfold Inv. rewrite Hq', Hq. exact I.
Qed.

Lemma after_callback_inv W inp m :
  Inv (session m) -> Inv (session (after_callback W inp m)).
Proof.
  intro HI. unfold after_callback, callback.
  destruct (event inp) as [|[]| | |]; try exact HI; apply get_new_question_inv; exact HI.
Qed.

Lemma step_inv W inp m : Inv (session m) -> Inv (session (step W inp m)).
Proof. intro HI. apply script_inv, after_callback_inv, HI. Qed.

Lemma run_from_inv W inputs : forall m,
  Inv (session m) -> Inv (session (fold_left (fun m inp => step W inp m) inputs m)).
Proof.
  induction inputs as [|inp inputs IH]; intros m HI; cbn; [exact HI|].
  apply IH, step_inv, HI.
Qed.

Lemma run_inv W inputs : Inv (session (run W inputs)).
Proof. exact (run_from_inv W inputs initial_machine I). Qed.

(** * The claims *)

(** ** C6: an empty selection of difficulties or categories *)

(** C6.  A call of [get_new_question] with no difficulty or no category
    selected reports the validation error to the user and returns: the
    session and the number of fetches are those of before the call, and
    nothing but the error message is put on the page. *)
Theorem empty_selection_is_rejected W inp m :
  selected "diff_" inp difficulty_map = [] \/ selected "cat_" inp category_map = [] ->
  get_new_question W inp m =
    (Ret tt, put_on_page m (StError "Please select at least one difficulty and one category.")).
Proof.
  intro H. unfold get_new_question.
  assert (E : (is_nil (selected "diff_" inp difficulty_map)
               || is_nil (selected "cat_" inp category_map))%bool = true).
  { destruct H as [-> | ->]; [reflexivity|apply orb_true_r]. }
  rewrite E. reflexivity.
Qed.

Lemma empty_selection_is_rejected_witness :
  let W := sample_world sample_tossup in
  let m := run W answered_session in
  tossup_state (session m) = Some over /\
  get_new_question W (unchecked_input (Click BtnGetNewQuestion)) m =
    (Ret tt, put_on_page m (StError "Please select at least one difficulty and one category.")).
Proof.
  split; [reflexivity|].
  apply (empty_selection_is_rejected (sample_world sample_tossup)
           (unchecked_input (Click BtnGetNewQuestion))
           (run (sample_world sample_tossup) answered_session)).
  left. reflexivity.
Defined.

(** ** C8: the explanation fetcher on a failed call *)

(** C8.  When the call of the generative endpoint fails in transport or the
    body of its response is not JSON, [get_ai_structured_explanation]
    returns the empty dict to its caller instead of raising, after putting
    an error message on the page; the session is untouched. *)
Theorem explanation_failure_returns_empty W prompt m :
  transport_failure_or_malformed W prompt ->
  fst (get_ai_structured_explanation W prompt m) = Ret empty_dict /\
  same_state m (snd (get_ai_structured_explanation W prompt m)) /\
  exists msg,
    page (snd (get_ai_structured_explanation W prompt m)) = (page m ++ [StError msg])%list.
Proof.
  unfold transport_failure_or_malformed, get_ai_structured_explanation, loads.
  intro H. destruct m as [s pg f].
  destruct (getenv_api_key W) as [[|c key]|].
  - exec. repeat split. eauto.
  - destruct (requests_post W prompt) as [|ok body].
    + exec. repeat split. eauto.
    + destruct H as [-> | H].
      * exec. repeat split. eauto.
      * destruct ok; rewrite ?H; exec; repeat split; eauto.
  - exec. repeat split. eauto.
Qed.

Lemma explanation_failure_returns_empty_witness :
  fst (get_ai_structured_explanation keyed_world "Explain Paris" initial_machine)
    = Ret empty_dict /\
  same_state initial_machine
    (snd (get_ai_structured_explanation keyed_world "Explain Paris" initial_machine)) /\
  exists msg,
    page (snd (get_ai_structured_explanation keyed_world "Explain Paris" initial_machine))
    = (page initial_machine ++ [StError msg])%list.
Proof.
  apply (explanation_failure_returns_empty keyed_world "Explain Paris" initial_machine).
  right. reflexivity.
Defined.

(** ** C9: a new-question request whose fetch fails *)

(** C9.  When filters are selected and the question bank raises or has no
    question for them, [get_new_question] catches the failure, reports it
    and sets the active question to [None]; every other key of the session
    keeps the value it had before the call, so nothing of the failed fetch is
    kept.  A run of the Trainer tab on the resulting session shows the
    message of the empty state and changes nothing. *)
Theorem failed_fetch_clears_question W inp m :
  let sd := selected "diff_" inp difficulty_map in
  let sc := selected "cat_" inp category_map in
  sd <> [] -> sc <> [] ->
  match q_type inp with
  | TossupType => fetch_failed (random_tossup W (fetches m) sd sc)
  | BonusType => fetch_failed (random_bonus W (fetches m) sd sc true)
  end ->
  let m1 := snd (get_new_question W inp m) in
  fst (get_new_question W inp m) = Ret tt /\
  session m1 = with_question None (session m) /\
  (exists msg, page m1 = (page m ++ [StError msg])%list) /\
  forall inp',
    fst (trainer_tab W inp' m1) = Ret tt /\
    session (snd (trainer_tab W inp' m1)) = session m1 /\
    In (StInfo "Click 'Get New Question' in the sidebar to start practicing!")
       (page (snd (trainer_tab W inp' m1))).
Proof.
  intros sd sc Hd Hc Hfail m1.
  destruct (get_new_question_post W inp m) as [Hret H].
  fold sd sc in H.
  assert (E : (is_nil sd || is_nil sc)%bool = false).
  { destruct sd; [congruence|]. destruct sc; [congruence|]. reflexivity. }
  rewrite E in H. destruct H as [_ H].
  assert (Hs : session m1 = with_question None (session m) /\
               exists msg, page m1 = (page m ++ [StError msg])%list).
  { subst m1. destruct (q_type inp).
    - destruct (random_tossup W (fetches m) sd sc) as [[|t l]|e]; cbn in Hfail;
        [exact H|contradiction|exact H].
    - destruct (random_bonus W (fetches m) sd sc true) as [[|b l]|e]; cbn in Hfail;
        [exact H|contradiction|exact H]. }
  destruct Hs as [Hs Hp].
  split; [exact Hret|]. split; [exact Hs|]. split; [exact Hp|].
  intro inp'.
  assert (Hq : question (session m1) = None) by (rewrite Hs; reflexivity).
  destruct (trainer_tab_empty W inp' m1 Hq) as ([Hs' _] & Hr & Hin).
  auto.
Qed.

Lemma failed_fetch_clears_question_witness :
  let W := barren_world in
  let inp := input (Click BtnGetNewQuestion) 5 TossupType in
  let m := run (sample_world sample_tossup) answered_session in
  let m1 := snd (get_new_question W inp m) in
  question (session m) = Some (QTossup sample_tossup) /\
  fst (get_new_question W inp m) = Ret tt /\
  session m1 = with_question None (session m) /\
  (exists msg, page m1 = (page m ++ [StError msg])%list) /\
  forall inp',
    fst (trainer_tab W inp' m1) = Ret tt /\
    session (snd (trainer_tab W inp' m1)) = session m1 /\
    In (StInfo "Click 'Get New Question' in the sidebar to start practicing!")
       (page (snd (trainer_tab W inp' m1))).
Proof.
  split; [reflexivity|].
  apply (failed_fetch_clears_question barren_world
           (input (Click BtnGetNewQuestion) 5 TossupType)
           (run (sample_world sample_tossup) answered_session)).
  - discriminate.
  - discriminate.
  - exact I.
Defined.

(** ** C7: the pages of a search *)

Lemma total_pages_is_ceiling t :
  10 * (total_pages t - 1) < t <= 10 * total_pages t.
Proof.
  unfold total_pages.
  pose proof (Z.div_mod t 10 ltac:(lia)) as Hdm.
  pose proof (Z.mod_pos_bound t 10 ltac:(lia)) as Hb.
  destruct (Z.gtb_spec (t mod 10) 0); lia.
Qed.

(** C7.  With pages of 10 results, the page count [total_pages] of a search
    is the ceiling of [max(tossup_count, bonus_count) / 10], the least [p]
    with [10 * p >= max(...)], so 23 matching tossups give 3 pages; on the
    last page (or beyond) the "Next Page" button is disabled and a click on
    it leaves the session as it is, and so does a click on "Previous Page"
    on page 1. *)
Theorem pagination_pages_and_ends :
  (forall tossups bonuses,
     10 * (total_pages (Z.max tossups bonuses) - 1) < Z.max tossups bonuses
       <= 10 * total_pages (Z.max tossups bonuses)) /\
  total_pages (Z.max 23 0) = 3 /\
  (forall inp m tossups bonuses,
     event inp = Click BtnNextPage ->
     total_pages (Z.max tossups bonuses) <= search_page (session m) ->
     let r := pagination_controls inp tossups bonuses m in
     fst r = Ret tt /\ same_state m (snd r) /\
     (10 < Z.max tossups bonuses -> In (StButton BtnNextPage true) (page (snd r)))) /\
  (forall inp m tossups bonuses,
     event inp = Click BtnPreviousPage ->
     search_page (session m) <= 1 ->
     let r := pagination_controls inp tossups bonuses m in
     fst r = Ret tt /\ same_state m (snd r) /\
     (10 < Z.max tossups bonuses -> In (StButton BtnPreviousPage true) (page (snd r)))).
Proof.
  split; [intros; apply total_pages_is_ceiling|].
  split; [reflexivity|].
  split.
  - intros inp [[q sr sp ss ws st i fb ge ba] pg f] tossups bonuses Hev Hlast r.
    subst r. cbn [session search_page] in Hlast.
    assert (E : (sp >=? total_pages (Z.max tossups bonuses)) = true)
      by (apply Z.geb_le; lia).
    unfold pagination_controls.
    destruct (Z.gtb_spec (Z.max tossups bonuses) 10) as [Hgt|Hle].
    + exec. unfold clicked. rewrite Hev. cbn [Button_eqb]. rewrite E. cbn.
      repeat split.
      intros _. apply in_or_app. right. left. reflexivity.
    + cbn. repeat split. lia.
  - intros inp [[q sr sp ss ws st i fb ge ba] pg f] tossups bonuses Hev Hfirst r.
    subst r. cbn [session search_page] in Hfirst.
    assert (E : (sp <=? 1) = true) by (apply Z.leb_le; lia).
    unfold pagination_controls.
    destruct (Z.gtb_spec (Z.max tossups bonuses) 10) as [Hgt|Hle].
    + exec. unfold clicked. rewrite Hev. cbn [Button_eqb]. rewrite E. cbn.
      repeat split.
      intros _. apply in_or_app. left. apply in_or_app. left.
      apply in_or_app. right. left. reflexivity.
    + cbn. repeat split. lia.
Qed.

(** *** What a run can do to the reveal state *)

Lemma get_new_question_shapes W inp m :
  let s' := session (snd (get_new_question W inp m)) in
  s' = session m \/ s' = with_question None (session m) \/
  (exists t, s' = loaded_tossup t (session m)) \/
  (exists b, s' = loaded_bonus b (session m)).
Proof.
  destruct (get_new_question_post W inp m) as [_ H]. cbn zeta.
  destruct (is_nil _ || is_nil _)%bool; [left; apply H|].
  destruct H as [_ H]. destruct (q_type inp).
  - destruct (random_tossup W _ _ _) as [[|t l]|e]; destruct H as [H _]; eauto.
  - destruct (random_bonus W _ _ _ _) as [[|b l]|e]; destruct H as [H _]; eauto 6.
Qed.

Lemma get_new_question_state W inp m :
  tossup_state (session (snd (get_new_question W inp m))) = tossup_state (session m) \/
  tossup_state (session (snd (get_new_question W inp m))) = Some waiting.
Proof.
  destruct (get_new_question_shapes W inp m) as [H|[H|[[t H]|[b H]]]]; rewrite H; cbn; auto.
Qed.

Lemma get_new_question_fetches W inp m :
  selected "diff_" inp difficulty_map <> [] ->
  selected "cat_" inp category_map <> [] ->
  fetches (snd (get_new_question W inp m)) = S (fetches m).
Proof.
  intros Hd Hc. destruct (get_new_question_post W inp m) as [_ H].
  destruct (selected "diff_" inp difficulty_map); [congruence|].
  destruct (selected "cat_" inp category_map); [congruence|].
  apply H.
Qed.

(** A run of the script leaves the reveal state as it is, sets it to [over]
    or [waiting], or is a run of the tossup branch on a tossup that is not
    over. *)
Lemma script_state W inp m :
  let s := session m in
  let s' := session (snd (script W inp m)) in
  tossup_state s' = tossup_state s \/ tossup_state s' = Some over \/
  tossup_state s' = Some waiting \/
  (active_tab inp = Trainer /\
   exists t, question s = Some (QTossup t) /\ tossup_state s <> Some over /\
             s' = reveal_step W inp t s).
Proof.
  cbn zeta.
  destruct (script_cases W inp m)
    as [Hk|(Htab & [(t & Hq & [[Hs _]|(Hover & _ & m2 & [Hs _] & ->)])
                   |(b & Hq & [Hk|(_ & m2 & Hk & Hover & ->)])])].
  - left. apply Hk.
  - destruct (tossup_state (session m)) as [[]|] eqn:Est;
      try (right; right; right; split; [exact Htab|]; exists t;
           split; [exact Hq|]; split; [discriminate|exact Hs]).
    left. rewrite Hs. unfold reveal_step. rewrite Est. exact Est.
  - destruct (get_new_question_state W inp m2) as [H|H]; rewrite H; [|auto].
    right. left. congruence.
  - destruct Hk as (_ & _ & _ & _ & _ & _ & [H|H]); auto.
  - destruct (get_new_question_state W inp m2) as [H|H]; rewrite H; auto.
Qed.

Lemma last_index_nonneg t :
  Py.split (question_sanitized t) <> [] -> 0 <= last_index t.
Proof.
  unfold last_index, Py.len. destruct (Py.split (question_sanitized t)); [congruence|].
  intros _. cbn [List.length]. lia.
Qed.

(** ** C1: the word index while reading *)

(** C1 fails for a tossup without words: reading starts at index 0, which
    is above [len(words) - 1 = -1]. *)
Lemma reading_index_above_last_for_empty_tossup :
  exists W inputs t i,
    question (session (run W inputs)) = Some (QTossup t) /\
    tossup_state (session (run W inputs)) = Some reading /\
    word_index (session (run W inputs)) = Some i /\
    ~ (0 <= i <= last_index t).
Proof.
  exists (sample_world empty_tossup),
    [input (Click BtnGetNewQuestion) 0 TossupType; input (Click BtnStartReading) 0 TossupType],
    empty_tossup, 0.
  repeat split. vm_compute. intros [_ H]. apply H. reflexivity.
Qed.

(** C1, amended.  For every tossup with at least one word and every run of
    the script from a state a session can reach: while the tossup is being
    read the word index lies within [0, len(words) - 1]; a run that leaves
    the state in [reading] leaves the index as it is or adds one to it, and
    adds one only when the index is strictly below the last one; and a run
    that enters [reading] sets the index to 0. *)
Theorem reading_word_index_in_range W inputs inp t :
  let m0 := after_callback W inp (run W inputs) in
  let m' := step W inp (run W inputs) in
  question (session m0) = Some (QTossup t) ->
  Py.split (question_sanitized t) <> [] ->
  (tossup_state (session m0) = Some reading ->
   exists i, word_index (session m0) = Some i /\ 0 <= i <= last_index t /\
     (tossup_state (session m') = Some reading ->
      word_index (session m') = Some i \/
      (i < last_index t /\ word_index (session m') = Some (i + 1)))) /\
  (tossup_state (session m0) <> Some reading ->
   tossup_state (session m') = Some reading -> word_index (session m') = Some 0).
Proof.
  intros m0 m' Hq Hne.
  assert (HI : Inv (session m0)) by (apply after_callback_inv, run_inv).
  pose proof (last_index_nonneg t Hne) as Hlast.
  unfold Inv in HI. rewrite Hq in HI.
  destruct HI as (Hw & st & i & fb & Hst & Hi & Hfb & H).
  change m' with (snd (script W inp m0)).
  split.
  - intro Hr. rewrite Hr in Hst. injection Hst as <-. destruct H as [Hrange _].
    exists i. split; [exact Hi|]. split; [lia|]. intro Hr'.
    destruct (script_cases W inp m0)
      as [Hk|(_ & [(t' & Hq' & [[Hs _]|(Hover & _)])|(b & Hq' & _)])].
    + left. destruct Hk as (_ & _ & _ & Hk & _). congruence.
    + rewrite Hs in Hr' |- *. rewrite Hq in Hq'. injection Hq' as <-.
      unfold reveal_step in *. rewrite Hr, Hw, Hi in *.
      destruct (clicked inp BtnBuzz); [discriminate|].
      fold (last_index t) in *.
      destruct (Z.ltb_spec i (last_index t)).
      * right. split; [assumption|reflexivity].
      * discriminate.
    + congruence.
    + congruence.
  - intros Hnr Hr'.
    destruct (script_state W inp m0) as [H1|[H1|[H1|(_ & t' & Hq' & _ & Hs)]]];
      try congruence.
    rewrite Hs in Hr' |- *. unfold reveal_step in *. rewrite Hst, ?Hw, ?Hi in *.
    destruct st; try congruence.
    + destruct (clicked inp BtnStartReading); cbn in *; congruence.
    + destruct H as (_ & _ & d & Hd). rewrite Hd in *.
      destruct (Qgtb (d - now inp) 0); [|cbn in *; congruence].
      destruct (clicked inp BtnBuzz); cbn in *; congruence.
    + destruct (event inp); try congruence.
      destruct (if i >? -1 then _ else _); try congruence.
      destruct (check_answer W (answer t') user_answer); cbn in *; congruence.
Qed.

Lemma reading_word_index_in_range_witness :
  let W := sample_world sample_tossup in
  let fetched := [input (Click BtnGetNewQuestion) 0 TossupType] in
  let start := input (Click BtnStartReading) 0 TossupType in
  let inputs := [input (Click BtnGetNewQuestion) 0 TossupType;
                 input (Click BtnStartReading) 0 TossupType; tick 1] in
  let m0 := after_callback W (tick 2) (run W inputs) in
  let m' := step W (tick 2) (run W inputs) in
  (tossup_state (session (after_callback W start (run W fetched))) = Some waiting /\
   tossup_state (session (step W start (run W fetched))) = Some reading /\
   word_index (session (step W start (run W fetched))) = Some 0) /\
  (tossup_state (session m0) = Some reading /\
   tossup_state (session m') = Some reading /\
   last_index sample_tossup = 6) /\
  exists i, word_index (session m0) = Some i /\ 0 <= i <= last_index sample_tossup /\
    (word_index (session m') = Some i \/
     (i < last_index sample_tossup /\ word_index (session m') = Some (i + 1))).
Proof.
  assert (Hwords : Py.split (question_sanitized sample_tossup) <> [])
    by (vm_compute; discriminate).
  split; [|split].
  - split; [vm_compute; reflexivity|]. split; [vm_compute; reflexivity|].
    apply (reading_word_index_in_range (sample_world sample_tossup)
             [input (Click BtnGetNewQuestion) 0 TossupType]
             (input (Click BtnStartReading) 0 TossupType) sample_tossup).
    + vm_compute; reflexivity.
    + exact Hwords.
    + vm_compute. discriminate.
    + vm_compute; reflexivity.
  - repeat split; vm_compute; reflexivity.
  - destruct (reading_word_index_in_range (sample_world sample_tossup)
             [input (Click BtnGetNewQuestion) 0 TossupType;
              input (Click BtnStartReading) 0 TossupType; tick 1]
             (tick 2) sample_tossup) as [Hreading _].
    + vm_compute; reflexivity.
    + exact Hwords.
    + destruct Hreading as (i & Hi & Hrange & Hnext); [vm_compute; reflexivity|].
      exists i. split; [exact Hi|]. split; [exact Hrange|].
      apply Hnext. vm_compute; reflexivity.
Defined.

(** ** C2: entering the grace period *)

(** C2.  A run of the script from a state a session can reach enters
    [grace_period] if and only if it is a run of the Trainer tab on a tossup
    in [reading] whose word index has reached the last word (the index is
    [len(words) - 1], or 0 for a tossup without words) with no click on the
    buzz button; the run that enters it stores the clock reading of the run
    plus 5 seconds as the deadline. *)
Theorem grace_period_entered_iff W inputs inp :
  let m0 := after_callback W inp (run W inputs) in
  let m' := step W inp (run W inputs) in
  ((tossup_state (session m0) <> Some grace_period /\
    tossup_state (session m') = Some grace_period)
   <->
   (active_tab inp = Trainer /\ clicked inp BtnBuzz = false /\
    exists t i, question (session m0) = Some (QTossup t) /\
                tossup_state (session m0) = Some reading /\
                word_index (session m0) = Some i /\
                i = Z.max 0 (last_index t))) /\
  (tossup_state (session m0) <> Some grace_period ->
   tossup_state (session m') = Some grace_period ->
   grace_period_end (session m') = Some (now inp + 5)%Q).
Proof.
  intros m0 m'.
  assert (HI : Inv (session m0)) by (apply after_callback_inv, run_inv).
  change m' with (snd (script W inp m0)).
  assert (Hin : tossup_state (session m0) <> Some grace_period ->
                tossup_state (session (snd (script W inp m0))) = Some grace_period ->
                active_tab inp = Trainer /\ clicked inp BtnBuzz = false /\
                (exists t i, question (session m0) = Some (QTossup t) /\
                             tossup_state (session m0) = Some reading /\
                             word_index (session m0) = Some i /\
                             i = Z.max 0 (last_index t)) /\
                grace_period_end (session (snd (script W inp m0))) = Some (now inp + 5)%Q).
  { intros Hng Hg.
    destruct (script_state W inp m0) as [H1|[H1|[H1|(Htab & t & Hq & _ & Hs)]]];
      try congruence.
    unfold Inv in HI. rewrite Hq in HI.
    destruct HI as (Hw & st & i & fb & Hst & Hi & Hfb & H).
    rewrite Hs in Hg |- *. unfold reveal_step in *. rewrite Hst, ?Hw, ?Hi in *.
    destruct st; try congruence.
    - destruct (clicked inp BtnStartReading); cbn in *; congruence.
    - fold (last_index t) in *.
      destruct (clicked inp BtnBuzz); [cbn in *; congruence|].
      destruct (Z.ltb_spec i (last_index t)); [cbn in *; congruence|].
      split; [exact Htab|]. split; [reflexivity|]. split; [|reflexivity].
      exists t, i. repeat split; try assumption. lia.
    - destruct (event inp); try congruence.
      destruct (if i >? -1 then _ else _); try congruence.
      destruct (check_answer W (answer t) user_answer); cbn in *; congruence. }
  split; [split|].
  - intros [Hng Hg]. destruct (Hin Hng Hg) as (? & ? & ? & _). auto.
  - intros (Htab & Hb & t & i & Hq & Hst & Hi & Hmax).
    split; [congruence|].
    unfold Inv in HI. rewrite Hq in HI. destruct HI as (Hw & _).
    destruct (script_cases W inp m0)
      as [Hk|(_ & [(t' & Hq' & [[Hs _]|(Hover & _)])|(b & Hq' & _)])].
    + unfold script in Hk |- *. rewrite Htab in *.
      destruct (trainer_tab_tossup W inp m0 t Hq) as [[Hs _]|(Hover & _)]; [|congruence].
      rewrite Hs. unfold reveal_step. rewrite Hst, Hw, Hi, Hb.
      fold (last_index t).
      destruct (Z.ltb_spec i (last_index t)); [lia|reflexivity].
    + rewrite Hs. rewrite Hq in Hq'. injection Hq' as <-.
      unfold reveal_step. rewrite Hst, Hw, Hi, Hb.
      fold (last_index t).
      destruct (Z.ltb_spec i (last_index t)); [lia|reflexivity].
    + congruence.
    + congruence.
  - intros Hng Hg. apply (Hin Hng Hg).
Qed.

Lemma grace_period_entered_iff_witness :
  let W := sample_world sample_tossup in
  let inputs := [input (Click BtnGetNewQuestion) 0 TossupType;
                 input (Click BtnStartReading) 0 TossupType;
                 tick 1; tick 2; tick 3; tick 4; tick 5; tick 6] in
  let m0 := after_callback W (tick 7) (run W inputs) in
  let m' := step W (tick 7) (run W inputs) in
  (question (session m0) = Some (QTossup sample_tossup) /\
   tossup_state (session m0) = Some reading /\
   word_index (session m0) = Some 6 /\
   last_index sample_tossup = 6) /\
  tossup_state (session m') = Some grace_period /\
  grace_period_end (session m') = Some (now (tick 7) + 5)%Q.
Proof.
  split; [repeat split; vm_compute; reflexivity|].
  destruct (grace_period_entered_iff (sample_world sample_tossup)
              [input (Click BtnGetNewQuestion) 0 TossupType;
               input (Click BtnStartReading) 0 TossupType;
               tick 1; tick 2; tick 3; tick 4; tick 5; tick 6] (tick 7))
    as [[_ Henter] Hdeadline].
  destruct Henter as [Hbefore Hafter].
  - split; [vm_compute; reflexivity|]. split; [vm_compute; reflexivity|].
    exists sample_tossup, 6. repeat split; vm_compute; reflexivity.
  - split; [exact Hafter|]. exact (Hdeadline Hbefore Hafter).
Defined.

(** *** What a run puts on the page *)

#[export] Instance page_grows_frame : Frame page_grows.
Proof.
  split; unfold page_grows.
  - intro m. exists []. symmetry. apply app_nil_r.
  - intros a b c [l1 H1] [l2 H2]. exists (l1 ++ l2)%list.
    rewrite H2, H1. symmetry. apply app_assoc.
  - intros m e. exists [e]. reflexivity.
Qed.

Lemma page_grows_modify f : preserves page_grows (modify_session f).
Proof. intro m. exists []. cbn. symmetry. apply app_nil_r. Qed.

Lemma page_grows_fetch {A} (call : nat -> ApiResult A) : preserves page_grows (fetch call).
Proof.
  intro m. exists []. unfold fetch. destruct (call (fetches m)); cbn;
    symmetry; apply app_nil_r.
Qed.

Ltac grows :=
  repeat first [ apply page_grows_modify | apply page_grows_fetch | frame_step ].

Lemma page_grows_get_new_question W inp : preserves page_grows (get_new_question W inp).
Proof. unfold get_new_question, st_error. grows. Qed.

Lemma page_grows_display W prompt :
  preserves page_grows (display_explanation_section W prompt).
Proof.
  unfold display_explanation_section, get_ai_structured_explanation, loads, py_in,
    subscript_key, subscript_0, dict_get, iterate, st_error, st_markdown.
  grows.
Qed.

Lemma page_grows_in m m' e : page_grows m m' -> In e (page m) -> In e (page m').
Proof. intros [l H] Hin. rewrite H. apply in_or_app. left. exact Hin. Qed.

Lemma in_page_here m e : In e (page (put_on_page m e)).
Proof. cbn. apply in_or_app. right. left. reflexivity. Qed.

Lemma in_page_there m e e' : In e (page m) -> In e (page (put_on_page m e')).
Proof. intro H. cbn. apply in_or_app. left. exact H. Qed.

Lemma tossup_branch_over W inp t m fb :
  tossup_state (session m) = Some over ->
  feedback (session m) = Some fb ->
  tossup_branch W inp t m =
    (Ret tt, put_on_page (put_on_page m (StMarkdown (question_sanitized t)))
               (feedback_element fb)).
Proof.
  intros Hst Hfb. unfold tossup_branch. rewrite bind_get_session, Hst.
  cbv beta iota. unfold st_markdown. rewrite bind_emit.
  unfold bind, read. cbn [session put_on_page]. rewrite Hfb.
  destruct fb as [[[] text]|]; reflexivity.
Qed.

(** A run of the Trainer tab on a tossup that is over shows the feedback and
    the answer line of the tossup, whatever follows on the page. *)
Lemma trainer_tab_over_page W inp m t fb :
  question (session m) = Some (QTossup t) ->
  tossup_state (session m) = Some over ->
  feedback (session m) = Some fb ->
  In (feedback_element fb) (page (snd (trainer_tab W inp m))) /\
  In (StMarkdown ("**Correct Answer:** " ++ answer t)) (page (snd (trainer_tab W inp m))).
Proof.
  intros Hq Hst Hfb. unfold trainer_tab, st_header.
  rewrite bind_emit, bind_button, bind_get_session. cbn [session put_on_page].
  rewrite Hq. cbv beta iota. unfold st_subheader, st_markdown.
  rewrite bind_emit, bind_assoc, bind_emit, bind_outcome.
  rewrite (tossup_branch_over W inp t _ fb) by assumption.
  cbn [fst snd]. unfold review_screen.
  rewrite bind_get_session. cbn [session put_on_page]. rewrite Hst.
  cbn [TossupState_eqb]. unfold st_header, tossup_review, st_markdown.
  rewrite !bind_emit. rewrite bind_assoc, bind_emit.
  match goal with |- context [snd (?k ?mm)] =>
    assert (Hg : page_grows mm (snd (k mm)))
  end.
  { match goal with |- page_grows ?mm (snd (?k ?mm)) =>
      cut (preserves page_grows k); [intro Hp; apply Hp|]
    end.
    unfold st_subheader.
    repeat first [ apply page_grows_display | apply page_grows_get_new_question
                 | frame_step ]. }
  split; (eapply page_grows_in; [exact Hg|]);
    repeat first [ apply in_page_here | apply in_page_there ].
Qed.

(** ** C3: leaving the grace period *)

Lemma Qgtb_remaining deadline time :
  Qgtb (deadline - time) 0 = true <-> (time < deadline)%Q.
Proof.
  unfold Qgtb. rewrite negb_true_iff.
  destruct (Qle_bool (deadline - time) 0) eqn:E.
  - apply Qle_bool_iff in E. split; [discriminate|]. intro H. lra.
  - split; [|reflexivity]. intros _.
    destruct (Qlt_le_dec time deadline) as [H|H]; [exact H|].
    assert (E' : Qle_bool (deadline - time) 0 = true) by (apply Qle_bool_iff; lra).
    congruence.
Qed.

(** C3.  From the grace period of a tossup, a run of the Trainer tab whose
    clock reading has reached or passed the stored deadline sets the state to
    [over] with no feedback stored, and a run of the tab on that session
    shows "Time's up!"; a run before the deadline with a click on the buzz
    button sets the state to [buzzed]. *)
Theorem grace_period_exit W inputs inp t deadline :
  let m0 := after_callback W inp (run W inputs) in
  let m' := step W inp (run W inputs) in
  active_tab inp = Trainer ->
  question (session m0) = Some (QTossup t) ->
  tossup_state (session m0) = Some grace_period ->
  grace_period_end (session m0) = Some deadline ->
  ((deadline <= now inp)%Q ->
   tossup_state (session m') = Some over /\
   feedback (session m') = Some None /\
   question (session m') = Some (QTossup t) /\
   forall inp', In (StWarning "Time's up!") (page (snd (trainer_tab W inp' m')))) /\
  ((now inp < deadline)%Q -> clicked inp BtnBuzz = true ->
   tossup_state (session m') = Some buzzed).
Proof.
  intros m0 m' Htab Hq Hst Hd.
  assert (HI : Inv (session m0)) by (apply after_callback_inv, run_inv).
  unfold Inv in HI. rewrite Hq in HI.
  destruct HI as (Hw & st & i & fb & Hst' & Hi & Hfb & H).
  rewrite Hst in Hst'. injection Hst' as <-. destruct H as (_ & -> & _).
  assert (Hs : session m' = reveal_step W inp t (session m0)).
  { change m' with (snd (script W inp m0)). unfold script. rewrite Htab.
    destruct (trainer_tab_tossup W inp m0 t Hq) as [[Hs _]|(Hover & _)];
      [exact Hs|congruence]. }
  unfold reveal_step in Hs. rewrite Hst, Hd in Hs.
  split.
  - intro Hpast.
    assert (E : Qgtb (deadline - now inp) 0 = false).
    { destruct (Qgtb (deadline - now inp) 0) eqn:E; [|reflexivity].
      apply Qgtb_remaining in E. lra. }
    rewrite E in Hs.
    assert (Hst2 : tossup_state (session m') = Some over) by (rewrite Hs; reflexivity).
    assert (Hfb2 : feedback (session m') = Some None) by (rewrite Hs; exact Hfb).
    assert (Hq2 : question (session m') = Some (QTossup t)) by (rewrite Hs; exact Hq).
    repeat split; try assumption.
    intro inp'. apply (trainer_tab_over_page W inp' m' t None Hq2 Hst2 Hfb2).
  - intros Hbefore Hbuzz.
    apply Qgtb_remaining in Hbefore. rewrite Hbefore, Hbuzz in Hs.
    rewrite Hs. reflexivity.
Qed.

Lemma grace_period_exit_witness :
  let W := sample_world empty_tossup in
  let inputs := [input (Click BtnGetNewQuestion) 0 TossupType;
                 input (Click BtnStartReading) 0 TossupType; tick 1] in
  let inp := tick 6 in
  let m0 := after_callback W inp (run W inputs) in
  let m' := step W inp (run W inputs) in
  ((6 <= now inp)%Q ->
   tossup_state (session m') = Some over /\
   feedback (session m') = Some None /\
   question (session m') = Some (QTossup empty_tossup) /\
   forall inp', In (StWarning "Time's up!") (page (snd (trainer_tab W inp' m')))) /\
  ((now inp < 6)%Q -> clicked inp BtnBuzz = true ->
   tossup_state (session m') = Some buzzed).
Proof.
  apply (grace_period_exit (sample_world empty_tossup)
           [input (Click BtnGetNewQuestion) 0 TossupType;
            input (Click BtnStartReading) 0 TossupType; tick 1]
           (tick 6) empty_tossup 6%Q); reflexivity.
Defined.

(** ** C4: judging the answer, and the review of a tossup *)



(** ** C10: the "Next Question" button *)

(** C10 fails when a tossup is fetched: the callback resets the state to
    [waiting], the rerun does not reach the button, and one question is
    fetched, not two. *)
Lemma next_question_fetches_one_tossup :
  let W := sample_world sample_tossup in
  let m := run W answered_session in
  let inp := input (Click BtnNextQuestion) 4 TossupType in
  tossup_state (session m) = Some over /\
  In (StButton BtnNextQuestion false) (page m) /\
  fetches (step W inp m) = S (fetches m) /\
  fetches (step W inp m) <> S (S (fetches m)).
Proof.
  vm_compute. repeat split; auto 30. discriminate.
Qed.

Lemma with_tossup_state_over s :
  tossup_state s = Some over -> with_tossup_state (Some over) s = s.
Proof. destruct s. cbn. intros ->. reflexivity. Qed.

Lemma loaded_bonus_twice b b' s :
  loaded_bonus b' (loaded_bonus b s) = loaded_bonus b' s.
Proof. destruct s. reflexivity. Qed.

(** The bonus branch on a bonus without answers, in a run that a click
    triggered: the lead-in and the form of the first part are shown, and the
    branch ends normally. *)
Lemma bonus_branch_fresh W inp b m btn :
  event inp = Click btn ->
  bonus_answers (session m) = Some [] ->
  let r := bonus_branch W inp b m in
  fst r = Ret tt /\
  fetches (snd r) = fetches m /\
  In (StMarkdown ("**Leadin:** " ++ leadin b)) (page (snd r)) /\
  (session (snd r) = session m \/
   session (snd r) = with_tossup_state (Some over) (session m)).
Proof.
  intros Hev Hba.
  destruct m as [[q sr sp ss ws st i fb ge ba] pg f]. cbn in Hba. subst ba.
  unfold bonus_branch, st_markdown.
  destruct (parts b) as [|p ps] eqn:Ep.
  - cbn [List.length seq bonus_parts_loop]. exec.
    unfold bonus_answers_len. cbn.
    repeat split; auto. apply in_or_app. left. apply in_or_app. right. left. reflexivity.
  - cbn [List.length seq bonus_parts_loop]. rewrite Ep.
    unfold st_markdown, bonus_answers_len. exec. cbn. rewrite Hev. cbn.
    repeat split; auto.
    rewrite <- !app_assoc. apply in_or_app. right. left. reflexivity.
Qed.

Lemma review_screen_click W inp q m :
  tossup_state (session m) = Some over ->
  clicked inp BtnNextQuestion = true ->
  (forall m1, fst (match q with
                   | QTossup t => tossup_review W t
                   | QBonus b => bonus_review W b
                   end m1) = Ret tt) ->
  exists m1, same_state m m1 /\ page_grows m m1 /\
    snd (review_screen W inp q m) = snd (get_new_question W inp m1).
Proof.
  intros Hst Hc Hret.
  unfold review_screen. rewrite bind_get_session, Hst. cbn [TossupState_eqb].
  unfold st_header. rewrite !bind_emit.
  set (m2 := put_on_page (put_on_page m StDivider) (StHeader "Review and Analyze")).
  rewrite bind_outcome.
  set (review := match q with QTossup t => tossup_review W t | QBonus b => bonus_review W b end) in *.
  assert (H3 : same_state m2 (snd (review m2))).
  { destruct q; [apply tossup_review_same_state|apply bonus_review_same_state]. }
  assert (G3 : page_grows m2 (snd (review m2))).
  { subst review. destruct q; unfold tossup_review, bonus_review, st_markdown, st_subheader;
      match goal with |- page_grows ?mm (snd (?k ?mm)) =>
        cut (preserves page_grows k); [intro Hp; apply Hp|]
      end;
      repeat first [apply page_grows_display | frame_step]. }
  rewrite (Hret m2). cbv beta iota.
  rewrite bind_button, Hc. cbn [andb negb].
  rewrite get_new_question_snd_rerun.
  eexists. split; [|split; [|reflexivity]].
  - eapply same_state_trans; [|apply same_state_page].
    eapply same_state_trans; [|exact H3]. split; reflexivity.
  - eapply frame_trans; [|apply frame_emit].
    eapply frame_trans; [|exact G3].
    eapply frame_trans; apply (frame_emit (R := page_grows)).
Qed.

(** A click on "Next Question" while a bonus without answers is the active
    question and the state is [over]: the run shows the bonus and its review,
    reaches the button, and ends with a further [get_new_question]. *)
Lemma trainer_tab_next_bonus W inp m b :
  question (session m) = Some (QBonus b) ->
  bonus_answers (session m) = Some [] ->
  tossup_state (session m) = Some over ->
  event inp = Click BtnNextQuestion ->
  (forall m1, fst (bonus_review W b m1) = Ret tt) ->
  exists m1, same_state m m1 /\
    In (StMarkdown ("**Leadin:** " ++ leadin b)) (page m1) /\
    snd (trainer_tab W inp m) = snd (get_new_question W inp m1).
Proof.
  intros Hq Hba Hst Hev Hret.
  unfold trainer_tab, st_header.
  rewrite bind_emit, bind_button, bind_get_session. cbn [session put_on_page].
  rewrite Hq. cbv beta iota. unfold st_subheader, st_markdown.
  rewrite bind_emit, bind_assoc, bind_emit, bind_outcome.
  match goal with |- context [bonus_branch W inp b ?mm] => set (m0 := mm) end.
  destruct (bonus_branch_fresh W inp b m0 BtnNextQuestion Hev Hba)
    as (Hr & Hf & Hin & Hs).
  change (fetches m0) with (fetches m) in Hf.
  rewrite Hr. cbv beta iota.
  assert (Hs' : session (snd (bonus_branch W inp b m0)) = session m).
  { destruct Hs as [Hs|Hs]; rewrite Hs; [reflexivity|].
    apply with_tossup_state_over. exact Hst. }
  destruct (review_screen_click W inp (QBonus b) (snd (bonus_branch W inp b m0)))
    as (m1 & [Hs1 Hf1] & Hg & Hm1).
  - rewrite Hs'. exact Hst.
  - unfold clicked. rewrite Hev. reflexivity.
  - exact Hret.
  - exists m1. split; [split; congruence|]. split; [|exact Hm1].
    eapply page_grows_in; [exact Hg|exact Hin].
Qed.

(** C10, amended.  A click on "Next Question" with filters selected runs
    [get_new_question] as the callback of the button, which fetches one
    question.  The run of the script that follows fetches at most one more,
    in the body of the button, and only if it still reaches the button.
    When the callback fetched a tossup it does not: the state was reset to
    [waiting], one question was fetched and the session holds it.  When the
    callback fetched a bonus on the review screen (the state is still
    [over]) and the review of that bonus ends normally, it does: the run
    shows the first bonus, fetches a second question in the body of the
    button, and the session is the one the second fetch gives. *)
Theorem next_question_click W inp m :
  let sd := selected "diff_" inp difficulty_map in
  let sc := selected "cat_" inp category_map in
  let m0 := after_callback W inp m in
  let m' := step W inp m in
  event inp = Click BtnNextQuestion ->
  sd <> [] -> sc <> [] ->
  fetches m0 = S (fetches m) /\
  (fetches m' = S (fetches m) \/
   (fetches m' = S (S (fetches m)) /\ question (session m0) <> None)) /\
  (forall t rest,
     q_type inp = TossupType -> active_tab inp = Trainer ->
     random_tossup W (fetches m) sd sc = Returned (t :: rest) ->
     fetches m' = S (fetches m) /\ session m' = loaded_tossup t (session m)) /\
  (forall b rest,
     q_type inp = BonusType -> active_tab inp = Trainer ->
     tossup_state (session m) = Some over ->
     random_bonus W (fetches m) sd sc true = Returned (b :: rest) ->
     (forall m1, fst (bonus_review W b m1) = Ret tt) ->
     fetches m' = S (S (fetches m)) /\
     In (StMarkdown ("**Leadin:** " ++ leadin b)) (page m') /\
     match random_bonus W (S (fetches m)) sd sc true with
     | Returned (b2 :: _) => session m' = loaded_bonus b2 (session m)
     | _ => session m' = with_question None (loaded_bonus b (session m))
     end).
Proof.
  intros sd sc m0 m' Hev Hd Hc.
  assert (Hm0 : m0 = snd (get_new_question W inp (clear_page m))).
  { unfold m0, after_callback, callback. rewrite Hev. reflexivity. }
  assert (Hf0 : fetches m0 = S (fetches m)).
  { rewrite Hm0. apply (get_new_question_fetches W inp (clear_page m) Hd Hc). }
  assert (E : (is_nil sd || is_nil sc)%bool = false).
  { destruct sd; [congruence|]. destruct sc; [congruence|]. reflexivity. }
  change m' with (snd (script W inp m0)).
  split; [exact Hf0|]. split; [|split].
  - destruct (script_cases W inp m0)
      as [Hk|(_ & [(t & Hq & [[_ Hf]|(_ & _ & m2 & [_ Hf2] & ->)])
                  |(b & Hq & [Hk|(_ & m2 & Hk & _ & ->)])])].
    + left. destruct Hk as (_ & _ & _ & _ & _ & _ & _ & Hf). congruence.
    + left. congruence.
    + right. rewrite (get_new_question_fetches W inp m2 Hd Hc).
      split; congruence.
    + left. destruct Hk as (_ & _ & _ & _ & _ & Hf & _). congruence.
    + right. rewrite (get_new_question_fetches W inp m2 Hd Hc).
      destruct Hk as (_ & _ & _ & _ & _ & Hf & _). split; congruence.
  - intros t rest Hty Htab Hbank.
    destruct (get_new_question_post W inp (clear_page m)) as [_ H].
    fold sd sc in H.
    rewrite E, Hty in H. cbn [clear_page fetches] in H. rewrite Hbank in H.
    destruct H as (_ & Hs & _). rewrite <- Hm0 in Hs. cbn [clear_page session] in Hs.
    assert (Hq : question (session m0) = Some (QTossup t)) by (rewrite Hs; reflexivity).
    unfold script. rewrite Htab.
    destruct (trainer_tab_tossup W inp m0 t Hq) as [[Hs' Hf']|(Hover & _)].
    + split; [congruence|]. rewrite Hs', Hs. unfold reveal_step, clicked.
      rewrite Hev. reflexivity.
    + rewrite Hs in Hover. discriminate.
  - intros b rest Hty Htab Hover Hbank Hreview.
    destruct (get_new_question_post W inp (clear_page m)) as [_ H].
    fold sd sc in H.
    rewrite E, Hty in H. cbn [clear_page fetches] in H. rewrite Hbank in H.
    destruct H as (_ & Hs & _). rewrite <- Hm0 in Hs. cbn [clear_page session] in Hs.
    unfold script. rewrite Htab.
    destruct (trainer_tab_next_bonus W inp m0 b) as (m1 & [Hs1 Hf1] & Hin & Hm1).
    + rewrite Hs. reflexivity.
    + rewrite Hs. reflexivity.
    + rewrite Hs. exact Hover.
    + exact Hev.
    + exact Hreview.
    + rewrite Hm1.
      destruct (get_new_question_post W inp m1) as [_ H].
      fold sd sc in H. rewrite E, Hty in H.
      destruct H as (Hf & H). split; [congruence|]. split.
      * eapply page_grows_in; [apply page_grows_get_new_question|exact Hin].
      * rewrite Hf1, Hf0 in H.
        destruct (random_bonus W (S (fetches m)) sd sc true) as [[|b2 l]|e].
        -- destruct H as [H _]. rewrite H, Hs1, Hs. reflexivity.
        -- destruct H as [H _]. rewrite H, Hs1, Hs. apply loaded_bonus_twice.
        -- destruct H as [H _]. rewrite H, Hs1, Hs. reflexivity.
Qed.

Lemma next_question_click_witness :
  let W := sample_world sample_tossup in
  let m := run W answered_session in
  let tossup_click := input (Click BtnNextQuestion) 4 TossupType in
  let bonus_click := input (Click BtnNextQuestion) 4 BonusType in
  (tossup_state (session m) = Some over /\ fetches m = 1%nat) /\
  (fetches (step W tossup_click m) = S (fetches m) /\
   session (step W tossup_click m) = loaded_tossup sample_tossup (session m)) /\
  (fetches (step W bonus_click m) = S (S (fetches m)) /\
   In (StMarkdown ("**Leadin:** " ++ leadin other_bonus)) (page (step W bonus_click m)) /\
   session (step W bonus_click m) = loaded_bonus sample_bonus (session m)).
Proof.
  intros W m tossup_click bonus_click.
  split; [split; vm_compute; reflexivity|]. split.
  - destruct (next_question_click W tossup_click m) as (_ & _ & Htossup & _);
      [vm_compute; reflexivity|vm_compute; discriminate|vm_compute; discriminate|].
    apply (Htossup sample_tossup []); vm_compute; reflexivity.
  - destruct (next_question_click W bonus_click m) as (_ & _ & _ & Hbonus);
      [vm_compute; reflexivity|vm_compute; discriminate|vm_compute; discriminate|].
    destruct (Hbonus other_bonus []) as (Hf & Hin & Hs);
      [vm_compute; reflexivity|vm_compute; reflexivity|vm_compute; reflexivity
      |vm_compute; reflexivity|intro m1; vm_compute; reflexivity|].
    split; [exact Hf|]. split; [exact Hin|].
    vm_compute in Hs |- *. exact Hs.
Defined.

(** ** C5: the review of a bonus *)

(** C5 does not hold of the code: [get_new_question] resets the reveal
    state for a tossup and not for a bonus, so a bonus fetched after a
    question that was over is on the review screen with no part answered.
    Here a tossup is answered, then a bonus is requested: the run shows the
    review of the bonus, answers included, with [bonus_answers] empty. *)
Theorem fresh_bonus_is_shown_in_review :
  let W := sample_world sample_tossup in
  let m := step W (input (Click BtnGetNewQuestion) 4 BonusType) (run W answered_session) in
  question (session m) = Some (QBonus other_bonus) /\
  List.length (parts other_bonus) = 3%nat /\
  bonus_answers (session m) = Some [] /\
  tossup_state (session m) = Some over /\
  In (StHeader "Review and Analyze") (page m) /\
  In (StMarkdown "**Correct Answer:** Nile") (page m).
Proof.
  vm_compute. repeat split; auto 40.
Qed.

(** * Further properties of the code *)

(** ** [strip_html] *)

Lemma append_empty_r p : p ++ EmptyString = p.
Proof. induction p as [|a p IH]; cbn; [reflexivity|]. f_equal. exact IH. Qed.

Lemma string_length_append p q :
  String.length (p ++ q) = (String.length p + String.length q)%nat.
Proof. induction p as [|a p IH]; cbn; [reflexivity|]. f_equal. exact IH. Qed.

Lemma append_char_assoc p c s : (p ++ String c EmptyString) ++ s = p ++ String c s.
Proof. induction p as [|a p IH]; cbn; [reflexivity|]. f_equal. exact IH. Qed.

Lemma strip_scan_no_lt s :
  occurs lt_char s = false -> strip_scan None s = s.
Proof.
  induction s as [|c s IH]; cbn [strip_scan occurs]; [reflexivity|].
  intro H. apply orb_false_elim in H. destruct H as [Hc Hs].
  rewrite Hc. f_equal. apply IH, Hs.
Qed.

Lemma strip_scan_no_gt s : forall pending,
  occurs gt_char s = false ->
  strip_scan pending s = match pending with Some p => p ++ s | None => s end.
Proof.
  induction s as [|c s IH]; intros pending H; cbn [strip_scan occurs] in *.
  - destruct pending as [p|]; [|reflexivity]. symmetry. apply append_empty_r.
  - apply orb_false_elim in H. destruct H as [Hc Hs].
    destruct pending as [p|].
    + destruct (Ascii.eqb c lt_char) eqn:E.
      * apply Ascii.eqb_eq in E. subst c. rewrite (IH _ Hs). reflexivity.
      * rewrite Hc. cbn [andb]. rewrite (IH _ Hs). apply append_char_assoc.
    + destruct (Ascii.eqb c lt_char) eqn:E.
      * apply Ascii.eqb_eq in E. subst c. rewrite (IH _ Hs). reflexivity.
      * f_equal. apply (IH None Hs).
Qed.

(** X1.  [strip_html] returns a text that has no ['<'], or no ['>'],
    unchanged: an unclosed ['<'] removes nothing. *)
Theorem strip_html_keeps_text_without_tags text :
  occurs lt_char text = false \/ occurs gt_char text = false ->
  strip_html text = text.
Proof.
  intro H. unfold strip_html. destruct text as [|c s]; [reflexivity|].
  cbn [Py.is_empty]. destruct H as [H|H].
  - apply strip_scan_no_lt, H.
  - apply (strip_scan_no_gt _ None H).
Qed.

Lemma strip_html_keeps_text_without_tags_witness :
  strip_html "if a < b then 1 else 2" = "if a < b then 1 else 2".
Proof.
  apply (strip_html_keeps_text_without_tags "if a < b then 1 else 2").
  right. reflexivity.
Defined.

Lemma strip_scan_prefix a : forall rest,
  occurs lt_char a = false ->
  strip_scan None (a ++ rest) = a ++ strip_scan None rest.
Proof.
  induction a as [|c a IH]; intros rest H; cbn [strip_scan occurs append] in *; [reflexivity|].
  apply orb_false_elim in H. destruct H as [Hc Ha].
  rewrite Hc. f_equal. apply IH, Ha.
Qed.

Lemma strip_scan_closes tag : forall p rest,
  occurs lt_char tag = false -> occurs gt_char tag = false ->
  (0 < String.length p)%nat ->
  (1 < String.length p \/ tag <> EmptyString)%nat ->
  strip_scan (Some p) (tag ++ String gt_char rest) = strip_scan None rest.
Proof.
  induction tag as [|c tag IH]; intros p rest Hlt Hgt Hpos Hp.
  - cbn [append strip_scan]. destruct Hp as [Hp|Hp]; [|congruence].
    apply Nat.ltb_lt in Hp. rewrite Hp.
    assert (E : Ascii.eqb gt_char lt_char = false) by reflexivity.
    assert (E' : Ascii.eqb gt_char gt_char = true) by reflexivity.
    rewrite E, E'. reflexivity.
  - cbn [occurs] in Hlt, Hgt. apply orb_false_elim in Hlt. apply orb_false_elim in Hgt.
    destruct Hlt as [Hc1 Hlt]. destruct Hgt as [Hc2 Hgt].
    cbn [append strip_scan]. rewrite Hc1, Hc2. cbn [andb].
    apply IH; try assumption; rewrite string_length_append; cbn [String.length];
      [lia|left; lia].
Qed.

(** X2.  A tag ['<' tag '>'] whose inside is not empty and has neither
    ['<'] nor ['>'] is removed, the text before it (without ['<']) is kept,
    and the rest of the text is stripped in turn. *)
Theorem strip_html_removes_tag before tag rest :
  occurs lt_char before = false ->
  tag <> EmptyString ->
  occurs lt_char tag = false -> occurs gt_char tag = false ->
  strip_html (before ++ String lt_char (tag ++ String gt_char rest))
  = before ++ strip_html rest.
Proof.
  intros Hb Hne Hlt Hgt.
  assert (Hrest : strip_html rest = strip_scan None rest) by (destruct rest; reflexivity).
  rewrite Hrest. unfold strip_html.
  destruct (Py.is_empty _) eqn:E.
  { destruct before; discriminate E. }
  rewrite strip_scan_prefix by exact Hb. f_equal.
  cbn [strip_scan]. assert (El : Ascii.eqb lt_char lt_char = true) by reflexivity.
  rewrite El. apply strip_scan_closes; auto.
Qed.

Lemma strip_html_removes_tag_witness :
  strip_html ("The capital " ++ String lt_char ("b" ++ String gt_char "Paris</b>"))
  = "The capital " ++ strip_html "Paris</b>".
Proof.
  apply (strip_html_removes_tag "The capital " "b" "Paris</b>").
  - reflexivity.
  - discriminate.
  - reflexivity.
  - reflexivity.
Defined.

Lemma strip_scan_length s : forall pending,
  (String.length (strip_scan pending s)
   <= String.length (match pending with Some p => p | None => EmptyString end)
      + String.length s)%nat.
Proof.
  induction s as [|c s IH]; intro pending; cbn [strip_scan String.length].
  - destruct pending; cbn [String.length]; lia.
  - pose proof (IH None) as IHn.
    pose proof (IH (Some (String lt_char EmptyString))) as IHl.
    cbn [String.length] in IHn, IHl.
    destruct pending as [p|].
    + pose proof (IH (Some (p ++ String c EmptyString))) as IHp.
      cbv beta iota in IHp. rewrite string_length_append in IHp.
      cbn [String.length] in IHp.
      destruct (Ascii.eqb c lt_char).
      * rewrite string_length_append. lia.
      * destruct (Ascii.eqb c gt_char && Nat.ltb 1 (String.length p))%bool; lia.
    + destruct (Ascii.eqb c lt_char); cbn [String.length]; lia.
Qed.

(** X3.  [strip_html] only removes characters: its result is never longer
    than the text. *)
Theorem strip_html_never_longer text :
  (String.length (strip_html text) <= String.length text)%nat.
Proof.
  unfold strip_html. destruct (Py.is_empty text); [cbn; lia|].
  apply (strip_scan_length text None).
Qed.

(** ** The reveal engine *)

(** X4.  A run of the script that starts with a tossup as the active
    question moves the reveal state along an edge of the state machine only:
    [buzzed] is entered from [reading] or [grace_period], [over] from
    [buzzed] or [grace_period], [grace_period] from [reading], [reading] from
    [waiting], and [over] is left only for [waiting]. *)
Theorem reveal_state_moves_along_edges W inputs inp t st st' :
  let m0 := after_callback W inp (run W inputs) in
  let m' := step W inp (run W inputs) in
  question (session m0) = Some (QTossup t) ->
  tossup_state (session m0) = Some st ->
  tossup_state (session m') = Some st' ->
  reveal_edge st st' = true.
Proof.
  intros m0 m' Hq Hst Hst'.
  assert (HI : Inv (session m0)) by (apply after_callback_inv, run_inv).
  unfold Inv in HI. rewrite Hq in HI.
  destruct HI as (Hw & st0 & i & fb & Hst0 & Hi & Hfb & H).
  rewrite Hst in Hst0. injection Hst0 as <-.
  change m' with (snd (script W inp m0)) in Hst'.
  destruct (script_cases W inp m0)
    as [Hk|(_ & [(t' & Hq' & [[Hs _]|(Hover & _ & m2 & [Hs2 _] & Hm)])|(b & Hq' & _)])].
  - destruct Hk as (_ & _ & Hk & _). rewrite Hk, Hst in Hst'. injection Hst' as <-.
    destruct st; reflexivity.
  - rewrite Hs in Hst'. unfold reveal_step in Hst'. rewrite Hst, ?Hw, ?Hi in Hst'.
    destruct st.
    + destruct (clicked inp BtnStartReading); cbn in Hst'; rewrite ?Hst in Hst';
        injection Hst' as <-; reflexivity.
    + destruct (clicked inp BtnBuzz); [cbn in Hst'; injection Hst' as <-; reflexivity|].
      destruct (_ <? _); cbn in Hst'; rewrite ?Hst in Hst';
        injection Hst' as <-; reflexivity.
    + destruct H as (_ & _ & d & Hd). rewrite Hd in Hst'.
      destruct (Qgtb _ _); [destruct (clicked inp BtnBuzz)|]; cbn in Hst';
        rewrite ?Hst in Hst'; injection Hst' as <-; reflexivity.
    + assert (Hcases : st' = buzzed \/ st' = over).
      { destruct (event inp); rewrite ?Hst in Hst'; try (left; congruence).
        destruct (if i >? -1 then _ else _); rewrite ?Hst in Hst'; try (left; congruence).
        destruct (check_answer W (answer t') user_answer); cbn in Hst';
          rewrite ?Hst in Hst'; [right|left]; congruence. }
      destruct Hcases as [-> | ->]; reflexivity.
    + rewrite Hst in Hst'. injection Hst' as <-. reflexivity.
  - rewrite Hm in Hst'. rewrite Hover in Hst. injection Hst as <-.
    destruct (get_new_question_state W inp m2) as [Hg|Hg]; rewrite Hg in Hst'.
    + rewrite Hs2, Hover in Hst'. injection Hst' as <-. reflexivity.
    + injection Hst' as <-. reflexivity.
  - congruence.
Qed.

Lemma reveal_state_moves_along_edges_witness :
  let W := sample_world empty_tossup in
  let inputs := [input (Click BtnGetNewQuestion) 0 TossupType;
                 input (Click BtnStartReading) 0 TossupType] in
  tossup_state (session (after_callback W (tick 1) (run W inputs))) = Some reading /\
  tossup_state (session (step W (tick 1) (run W inputs))) = Some grace_period /\
  reveal_edge reading grace_period = true.
Proof.
  split; [reflexivity|]. split; [reflexivity|].
  apply (reveal_state_moves_along_edges (sample_world empty_tossup)
           [input (Click BtnGetNewQuestion) 0 TossupType;
            input (Click BtnStartReading) 0 TossupType]
           (tick 1) empty_tossup reading grace_period); reflexivity.
Defined.

Lemma tossup_branch_raises W inp t m e :
  tossup_inv t (session m) ->
  fst (tossup_branch W inp t m) = Raise e ->
  tossup_state (session m) = Some buzzed /\
  exists user_answer,
    event inp = SubmitAnswer user_answer /\
    check_answer W (answer t) user_answer = Raised e.
Proof.
  destruct m as [[q sr sp ss ws st i fb ge ba] pg f].
  unfold tossup_inv. cbn [session words tossup_state word_index feedback grace_period_end].
  intros (Hw & st' & i' & fb' & Hst & Hi & Hfb & H). subst.
  unfold tossup_branch, revealed_text.
  destruct st'; exec.
  - destruct (clicked inp BtnStartReading); cbn; discriminate.
  - destruct (clicked inp BtnBuzz); cbn; [discriminate|].
    destruct (_ <? _); cbn; discriminate.
  - destruct H as (_ & _ & d & Hd). cbn in Hd. subst ge.
    destruct (Qgtb _ _); cbn; [|discriminate].
    destruct (clicked inp BtnBuzz); cbn; discriminate.
  - destruct (i' >? -1); destruct (event inp); cbn; try discriminate;
      destruct (check_answer W (answer t) user_answer) eqn:E; cbn; try discriminate;
      intro Hr; injection Hr as <-; eauto.
  - destruct fb' as [[[] txt]|]; cbn; discriminate.
Qed.

(** X5.  On a session the program can reach, the tossup branch of the
    Trainer tab reads only keys that are set: the only exception it lets
    through is one raised by the answer judge on a submitted answer. *)
Theorem tossup_branch_raises_only_from_judge W inputs inp t e :
  let m0 := after_callback W inp (run W inputs) in
  question (session m0) = Some (QTossup t) ->
  fst (tossup_branch W inp t m0) = Raise e ->
  tossup_state (session m0) = Some buzzed /\
  exists user_answer,
    event inp = SubmitAnswer user_answer /\
    check_answer W (answer t) user_answer = Raised e.
Proof.
  intros m0 Hq Hr.
  assert (HI : Inv (session m0)) by (apply after_callback_inv, run_inv).
  unfold Inv in HI. rewrite Hq in HI.
  apply (tossup_branch_raises W inp t m0 e HI Hr).
Qed.

Lemma tossup_branch_raises_only_from_judge_witness :
  let W := failing_judge_world in
  let inputs := [input (Click BtnGetNewQuestion) 0 TossupType;
                 input (Click BtnStartReading) 0 TossupType;
                 input (Click BtnBuzz) 1 TossupType] in
  let inp := input (SubmitAnswer "Paris") 2 TossupType in
  tossup_state (session (after_callback W inp (run W inputs))) = Some buzzed /\
  exists user_answer,
    event inp = SubmitAnswer user_answer /\
    check_answer W (answer sample_tossup) user_answer = Raised (OtherException "timed out").
Proof.
  apply (tossup_branch_raises_only_from_judge failing_judge_world
           [input (Click BtnGetNewQuestion) 0 TossupType;
            input (Click BtnStartReading) 0 TossupType;
            input (Click BtnBuzz) 1 TossupType]
           (input (SubmitAnswer "Paris") 2 TossupType) sample_tossup
           (OtherException "timed out")); reflexivity.
Defined.

(** X7.  A run of the Trainer tab during the grace period, before the
    deadline and with no click on the buzz button, leaves the session as it
    is: the deadline is not moved by the runs that wait for it. *)
Theorem grace_period_waits W inputs inp t deadline :
  let m0 := after_callback W inp (run W inputs) in
  let m' := step W inp (run W inputs) in
  active_tab inp = Trainer ->
  question (session m0) = Some (QTossup t) ->
  tossup_state (session m0) = Some grace_period ->
  grace_period_end (session m0) = Some deadline ->
  (now inp < deadline)%Q ->
  clicked inp BtnBuzz = false ->
  session m' = session m0.
Proof.
  intros m0 m' Htab Hq Hst Hd Hbefore Hbuzz.
  change m' with (snd (script W inp m0)). unfold script. rewrite Htab.
  destruct (trainer_tab_tossup W inp m0 t Hq) as [[Hs _]|(Hover & _)]; [|congruence].
  rewrite Hs. unfold reveal_step. rewrite Hst, Hd, Hbuzz.
  apply Qgtb_remaining in Hbefore. rewrite Hbefore. reflexivity.
Qed.

Lemma grace_period_waits_witness :
  let W := sample_world empty_tossup in
  let inputs := [input (Click BtnGetNewQuestion) 0 TossupType;
                 input (Click BtnStartReading) 0 TossupType; tick 1] in
  session (step W (tick 3) (run W inputs))
  = session (after_callback W (tick 3) (run W inputs)).
Proof.
  apply (grace_period_waits (sample_world empty_tossup)
           [input (Click BtnGetNewQuestion) 0 TossupType;
            input (Click BtnStartReading) 0 TossupType; tick 1]
           (tick 3) empty_tossup 6%Q); reflexivity.
Defined.

(** X11.  Only the two buttons whose callback is [get_new_question] make
    the program fetch a question ([qbr.random_tossup] or
    [qbr.random_bonus]): a run triggered by anything else fetches none.  The
    other calls of the service (the judge, the search, the packets) are not
    fetches of a question and are not counted. *)
Theorem only_new_question_buttons_fetch W inp m :
  clicked inp BtnGetNewQuestion = false ->
  clicked inp BtnNextQuestion = false ->
  fetches (step W inp m) = fetches m.
Proof.
  intros Hg Hn.
  assert (Hm0 : after_callback W inp m = clear_page m).
  { unfold after_callback, callback, clicked in *.
    destruct (event inp) as [|[]| | |]; try reflexivity; discriminate. }
  unfold step. rewrite Hm0.
  destruct (script_cases W inp (clear_page m))
    as [Hk|(_ & [(t & Hq & [[_ Hf]|(_ & Hc & _)])|(b & Hq & [Hk|(Hc & _)])])].
  - destruct Hk as (_ & _ & _ & _ & _ & _ & _ & Hf). exact Hf.
  - exact Hf.
  - congruence.
  - destruct Hk as (_ & _ & _ & _ & _ & Hf & _). exact Hf.
  - congruence.
Qed.

Lemma only_new_question_buttons_fetch_witness :
  fetches (step (sample_world sample_tossup) (input (Click BtnBuzz) 1 TossupType)
             (run (sample_world sample_tossup) answered_session))
  = fetches (run (sample_world sample_tossup) answered_session).
Proof.
  apply (only_new_question_buttons_fetch (sample_world sample_tossup)
           (input (Click BtnBuzz) 1 TossupType)
           (run (sample_world sample_tossup) answered_session)); reflexivity.
Defined.

Lemma bind_read {A B} (field : Session -> option A) (k : A -> Script B) m v :
  field (session m) = Some v -> (x <- read field ;; k x) m = k v m.
Proof. intro H. unfold bind, read. rewrite H. reflexivity. Qed.

Lemma bind_ret {A B} (a : A) (k : A -> Script B) m :
  (x <- ret a ;; k x) m = k a m.
Proof. reflexivity. Qed.

Lemma page_grows_review_screen W inp q : preserves page_grows (review_screen W inp q).
Proof.
  unfold review_screen, tossup_review, bonus_review, st_header, st_markdown, st_subheader.
  repeat first [ apply page_grows_display | apply page_grows_get_new_question
               | frame_step ].
Qed.

(** While a tossup is read, a run of the Trainer tab shows the words up to
    the word index. *)
Lemma trainer_tab_reading_page W inp m t ws i :
  question (session m) = Some (QTossup t) ->
  tossup_state (session m) = Some reading ->
  words (session m) = Some ws ->
  word_index (session m) = Some i ->
  In (StMarkdown (Py.join " " (Py.slice_to ws (i + 1)))) (page (snd (trainer_tab W inp m))).
Proof.
  intros Hq Hst Hw Hi. unfold trainer_tab, st_header.
  rewrite bind_emit, bind_button, bind_get_session. cbn [session put_on_page].
  rewrite Hq. cbv beta iota. unfold st_subheader, st_markdown.
  rewrite bind_emit, bind_assoc, bind_emit.
  unfold tossup_branch. rewrite bind_assoc, bind_get_session.
  cbn [session put_on_page]. rewrite Hst. cbv beta iota.
  unfold revealed_text. rewrite !bind_assoc.
  rewrite (bind_read words _ _ ws) by exact Hw.
  rewrite bind_assoc.
  rewrite (bind_read word_index _ _ i) by exact Hi.
  rewrite bind_ret. unfold st_markdown. rewrite bind_assoc, bind_emit.
  match goal with |- context [snd (?k ?mm)] =>
    assert (Hg : page_grows mm (snd (k mm)))
  end.
  { match goal with |- page_grows ?mm (snd (?k ?mm)) =>
      cut (preserves page_grows k); [intro Hp; apply Hp|]
    end.
    repeat first [ apply page_grows_review_screen | apply page_grows_modify
                 | frame_step ]. }
  eapply page_grows_in; [exact Hg|]. apply in_page_here.
Qed.

Lemma slice_to_all {A} (l : list A) : Py.slice_to l (Py.len l) = l.
Proof.
  unfold Py.slice_to, Py.len.
  destruct (Z.leb_spec 0 (Z.of_nat (List.length l))); [|lia].
  rewrite Nat2Z.id. apply firstn_all.
Qed.

(** X6.  While a tossup is read, every run of the Trainer tab shows the
    words of the tossup up to the word index, joined by spaces; at the last
    index these are all the words. *)
Theorem reading_shows_words_up_to_index W inputs inp t :
  let m0 := after_callback W inp (run W inputs) in
  let m' := step W inp (run W inputs) in
  let ws := Py.split (question_sanitized t) in
  active_tab inp = Trainer ->
  question (session m0) = Some (QTossup t) ->
  tossup_state (session m0) = Some reading ->
  exists i,
    word_index (session m0) = Some i /\
    In (StMarkdown (Py.join " " (Py.slice_to ws (i + 1)))) (page m') /\
    (i = last_index t -> Py.slice_to ws (i + 1) = ws).
Proof.
  intros m0 m' ws Htab Hq Hst.
  assert (HI : Inv (session m0)) by (apply after_callback_inv, run_inv).
  unfold Inv in HI. rewrite Hq in HI.
  destruct HI as (Hw & st & i & fb & _ & Hi & _).
  exists i. split; [exact Hi|]. split.
  - change m' with (snd (script W inp m0)). unfold script. rewrite Htab.
    apply (trainer_tab_reading_page W inp m0 t); assumption.
  - intros ->. unfold last_index. fold ws.
    replace (Py.len ws - 1 + 1) with (Py.len ws) by lia. apply slice_to_all.
Qed.

Lemma reading_shows_words_up_to_index_witness :
  let W := sample_world sample_tossup in
  let inputs := [input (Click BtnGetNewQuestion) 0 TossupType;
                 input (Click BtnStartReading) 0 TossupType; tick 1] in
  let m0 := after_callback W (tick 2) (run W inputs) in
  let m' := step W (tick 2) (run W inputs) in
  let ws := Py.split (question_sanitized sample_tossup) in
  (tossup_state (session m0) = Some reading /\
   word_index (session m0) = Some 1 /\
   Py.join " " (Py.slice_to ws (1 + 1)) = "This city") /\
  exists i,
    word_index (session m0) = Some i /\
    In (StMarkdown (Py.join " " (Py.slice_to ws (i + 1)))) (page m') /\
    (i = last_index sample_tossup -> Py.slice_to ws (i + 1) = ws).
Proof.
  intros W inputs m0 m' ws.
  split; [repeat split; vm_compute; reflexivity|].
  apply (reading_shows_words_up_to_index W inputs (tick 2) sample_tossup);
    vm_compute; reflexivity.
Defined.

(** ** The bonus branch *)

Lemma bonus_parts_loop_post W inp b : forall n k m,
  (k <= bonus_answers_len (session m))%nat ->
  session (snd (bonus_parts_loop W inp b (seq k n) m)) = session m \/
  (fst (bonus_parts_loop W inp b (seq k n) m) = Rerun /\
   bonus_appended W inp b (session m) (session (snd (bonus_parts_loop W inp b (seq k n) m))) /\
   (List.length (given_answers (session m)) < k + n)%nat).
Proof.
  induction n as [|n IH]; intros k m Hk; [left; reflexivity|].
  cbn [seq bonus_parts_loop].
  destruct m as [[q sr sp ss ws st i fb ge ba] pg f].
  unfold bonus_answers_len in Hk. cbn [session bonus_answers] in Hk.
  unfold st_markdown, st_success, st_error, bonus_answers_len.
  destruct (nth_error (parts b) k) as [part|] eqn:Epart; [|exec; rewrite Epart; left; reflexivity].
  exec. rewrite Epart. exec.
  destruct ba as [given|].
  - destruct (Nat.ltb_spec k (List.length given)) as [Hlt|Hge].
    + destruct (nth_error given k) as [[is_correct user_ans]|] eqn:Eg;
        [|left; reflexivity].
      assert (Hnext : forall mm, session mm = session
                {| session := mkSession q sr sp ss ws st i fb ge (Some given);
                   page := pg; fetches := f |} ->
              (S k <= bonus_answers_len (session mm))%nat).
      { intros mm ->. unfold bonus_answers_len. cbn. lia. }
      destruct is_correct.
      * match goal with |- context [bonus_parts_loop W inp b ?l ?mm] =>
          destruct (IH (S k) mm (Hnext mm eq_refl)) as [H|(H1 & H2 & H3)];
          destruct (bonus_parts_loop W inp b l mm) as [[[]| |e] m']
        end; cbn in *; try discriminate; auto.
        right. repeat split; auto. lia.
      * destruct (nth_error (answers b) k) as [expected|]; [|left; reflexivity].
        match goal with |- context [bonus_parts_loop W inp b ?l ?mm] =>
          destruct (IH (S k) mm (Hnext mm eq_refl)) as [H|(H1 & H2 & H3)];
          destruct (bonus_parts_loop W inp b l mm) as [[[]| |e] m']
        end; cbn in *; try discriminate; auto.
        right. repeat split; auto. lia.
    + assert (Ek : k = List.length given) by lia. subst k.
      destruct (event inp) as [| | |j text|] eqn:Eev; try (left; reflexivity).
      destruct (Nat.eqb_spec j (List.length given)) as [->|Hne]; [|left; reflexivity].
      destruct (nth_error (answers b) (List.length given)) as [expected|] eqn:Eans;
        [|left; reflexivity].
      destruct (check_answer W expected text) as [correct|e] eqn:Ej; [|left; reflexivity].
      right. split; [reflexivity|]. split.
      * exists expected, text, correct. unfold given_answers. cbn.
        repeat split; auto.
        apply nth_error_Some. congruence.
      * unfold given_answers. cbn. lia.
  - assert (Ek : k = 0%nat) by lia. subst k.
    destruct (event inp) as [| | |j text|] eqn:Eev; try (left; reflexivity).
    destruct j as [|j]; [|left; reflexivity].
    destruct (nth_error (answers b) 0) as [expected|] eqn:Eans; [|left; reflexivity].
    destruct (check_answer W expected text) as [correct|e] eqn:Ej; [|left; reflexivity].
    right. split; [reflexivity|]. split.
    + exists expected, text, correct. unfold given_answers. cbn.
      repeat split; auto. apply nth_error_Some. congruence.
    + unfold given_answers. cbn. lia.
Qed.

Lemma bonus_branch_post W inp b m :
  (fst (bonus_branch W inp b m) = Rerun /\
   bonus_appended W inp b (session m) (session (snd (bonus_branch W inp b m)))) \/
  session (snd (bonus_branch W inp b m)) = session m \/
  (fst (bonus_branch W inp b m) = Ret tt /\
   bonus_answers_len (session m) = List.length (parts b) /\
   session (snd (bonus_branch W inp b m)) = with_tossup_state (Some over) (session m)).
Proof.
  unfold bonus_branch, st_markdown. rewrite !bind_emit, bind_outcome.
  set (m0 := put_on_page (put_on_page m (StMarkdown ("**Leadin:** " ++ leadin b)))
               (StMarkdown "---")).
  change (session m) with (session m0).
  destruct (bonus_parts_loop_post W inp b (List.length (parts b)) 0 m0 ltac:(lia))
    as [Hs|(Hr & Happ & _)].
  - destruct (fst (bonus_parts_loop W inp b _ m0)) as [[]| |e]; cbn [fst snd]; auto.
    rewrite bind_get_session, Hs.
    destruct (Nat.eqb_spec (bonus_answers_len (session m0)) (List.length (parts b)));
      cbn; auto.
    right. right. rewrite Hs. auto.
  - rewrite Hr. cbn [fst snd]. left. auto.
Qed.

Lemma trainer_tab_bonus_progress W inp m b :
  question (session m) = Some (QBonus b) ->
  let s := session m in
  let s' := session (snd (trainer_tab W inp m)) in
  bonus_appended W inp b s s' \/
  (question s' = question s /\ bonus_answers s' = bonus_answers s) \/
  (clicked inp BtnNextQuestion = true /\
   exists m2, question (session m2) = question s /\
              bonus_answers (session m2) = bonus_answers s /\
              snd (trainer_tab W inp m) = snd (get_new_question W inp m2)).
Proof.
  intro Hq. cbn zeta. unfold trainer_tab, st_header.
  rewrite bind_emit, bind_button, bind_get_session. cbn [session put_on_page].
  rewrite Hq. cbv beta iota. unfold st_subheader, st_markdown.
  rewrite bind_emit, bind_assoc, bind_emit, bind_outcome.
  match goal with |- context [bonus_branch W inp b ?mm] => set (m0 := mm) end.
  change (session m) with (session m0).
  assert (Hkept : forall m1, session m1 = session m0 \/
                             session m1 = with_tossup_state (Some over) (session m0) ->
                  question (session m1) = Some (QBonus b) /\
                  bonus_answers (session m1) = bonus_answers (session m0)).
  { intros m1 [-> | ->]; split; solve [reflexivity | exact Hq]. }
  destruct (bonus_branch_post W inp b m0) as [(Hr & Happ)|[Hs|(Hr & _ & Hs)]].
  - rewrite Hr. cbn [snd]. left. exact Happ.
  - destruct (fst (bonus_branch W inp b m0)) as [[]| |e]; cbn [snd];
      try solve [right; left; apply Hkept; auto].
    destruct (review_screen_post W inp (QBonus b) (snd (bonus_branch W inp b m0)))
      as [[Hs' _]|(_ & Hc & m2 & [Hs2 _] & Hm2)].
    + right. left. rewrite Hs'. apply Hkept. auto.
    + right. right. split; [exact Hc|]. exists m2. rewrite Hs2.
      split; [apply Hkept; auto|]. split; [apply Hkept; auto|exact Hm2].
  - rewrite Hr. cbn [snd].
    destruct (review_screen_post W inp (QBonus b) (snd (bonus_branch W inp b m0)))
      as [[Hs' _]|(_ & Hc & m2 & [Hs2 _] & Hm2)].
    + right. left. rewrite Hs'. apply Hkept. auto.
    + right. right. split; [exact Hc|]. exists m2. rewrite Hs2.
      split; [apply Hkept; auto|]. split; [apply Hkept; auto|exact Hm2].
Qed.

(** *** The invariant of a bonus *)

Lemma bonus_inv_get_new_question W inp m :
  bonus_inv (session m) -> bonus_inv (session (snd (get_new_question W inp m))).
Proof.
  intro HI.
  destruct (get_new_question_shapes W inp m) as [H|[H|[[t H]|[b H]]]]; rewrite H.
  - exact HI.
  - exact I.
  - exact I.
  - unfold bonus_inv, loaded_bonus. cbn. exists []. split; [reflexivity|cbn; lia].
Qed.

Lemma bonus_appended_inv W inp b s s' :
  question s = Some (QBonus b) -> bonus_appended W inp b s s' -> bonus_inv s'.
Proof.
  intros Hq (expected & text & correct & Hlen & _ & _ & _ & ->).
  unfold bonus_inv. cbn. rewrite Hq. eexists. split; [reflexivity|].
  rewrite length_app. cbn. lia.
Qed.

Lemma bonus_inv_script W inp m :
  bonus_inv (session m) -> bonus_inv (session (snd (script W inp m))).
Proof.
  intro HI. unfold script. destruct (active_tab inp).
  - destruct (question (session m)) as [[t|b]|] eqn:Hq.
    + destruct (trainer_tab_tossup W inp m t Hq) as [[Hs _]|(_ & _ & m2 & [Hs _] & ->)].
      * unfold bonus_inv. rewrite Hs, reveal_step_question, Hq. exact I.
      * apply bonus_inv_get_new_question. rewrite Hs. exact HI.
    + destruct (trainer_tab_bonus_progress W inp m b Hq)
        as [Happ|[[Hq' Hb]|(_ & m2 & Hq' & Hb & ->)]].
      * eapply bonus_appended_inv; eauto.
      * unfold bonus_inv in *. rewrite Hq', Hb. exact HI.
      * apply bonus_inv_get_new_question. unfold bonus_inv in *.
        rewrite Hq', Hb. exact HI.
    + destruct (trainer_tab_empty W inp m Hq) as ([Hs _] & _). rewrite Hs. exact HI.
  - destruct (search_tab_kept W inp m) as (Hq & _ & _ & _ & _ & _ & Hb & _).
    unfold bonus_inv in *. rewrite Hq, Hb. exact HI.
  - exact HI.
Qed.

Lemma bonus_inv_after_callback W inp m :
  bonus_inv (session m) -> bonus_inv (session (after_callback W inp m)).
Proof.
  intro HI. unfold after_callback, callback.
  destruct (event inp) as [|[]| | |]; try exact HI;
    apply bonus_inv_get_new_question; exact HI.
Qed.

Lemma bonus_inv_run_from W inputs : forall m,
  bonus_inv (session m) ->
  bonus_inv (session (fold_left (fun m inp => step W inp m) inputs m)).
Proof.
  induction inputs as [|inp inputs IH]; intros m HI; cbn; [exact HI|].
  apply IH. apply bonus_inv_script, bonus_inv_after_callback, HI.
Qed.

Lemma bonus_inv_run W inputs : bonus_inv (session (run W inputs)).
Proof. exact (bonus_inv_run_from W inputs initial_machine I). Qed.

(** X8.  In every session the program can reach with a bonus as the active
    question, the list of answers given is set and is no longer than the
    list of the parts of the bonus. *)
Theorem bonus_answers_within_parts W inputs b :
  question (session (run W inputs)) = Some (QBonus b) ->
  exists given,
    bonus_answers (session (run W inputs)) = Some given /\
    (List.length given <= List.length (parts b))%nat.
Proof.
  intro Hq. pose proof (bonus_inv_run W inputs) as HI.
  unfold bonus_inv in HI. rewrite Hq in HI. exact HI.
Qed.

Lemma bonus_answers_within_parts_witness :
  let W := sample_world sample_tossup in
  let inputs := [input (Click BtnGetNewQuestion) 0 BonusType;
                 input (SubmitBonusPart 0 "Paris") 1 BonusType;
                 input (SubmitBonusPart 1 "Madrid") 2 BonusType] in
  exists given,
    bonus_answers (session (run W inputs)) = Some given /\
    (List.length given <= List.length (parts sample_bonus))%nat.
Proof.
  apply (bonus_answers_within_parts (sample_world sample_tossup)
           [input (Click BtnGetNewQuestion) 0 BonusType;
            input (SubmitBonusPart 0 "Paris") 1 BonusType;
            input (SubmitBonusPart 1 "Madrid") 2 BonusType] sample_bonus).
  reflexivity.
Defined.

(** X9.  A run of the Trainer tab on a bonus changes the answers given in
    one way only: it appends the answer submitted for the first part not yet
    answered, with the verdict of the judge against the expected answer of
    that part.  Otherwise the answers and the question are kept, unless the
    run ends in "Next Question". *)
Theorem bonus_answers_grow_in_part_order W inp m b :
  question (session m) = Some (QBonus b) ->
  clicked inp BtnNextQuestion = false ->
  let s := session m in
  let s' := session (snd (trainer_tab W inp m)) in
  bonus_appended W inp b s s' \/
  (question s' = question s /\ bonus_answers s' = bonus_answers s).
Proof.
  intros Hq Hn.
  destruct (trainer_tab_bonus_progress W inp m b Hq) as [H|[H|(Hc & _)]]; auto.
  congruence.
Qed.

Lemma bonus_answers_grow_in_part_order_witness :
  let W := sample_world sample_tossup in
  let m := run W [input (Click BtnGetNewQuestion) 0 BonusType;
                  input (SubmitBonusPart 0 "Paris") 1 BonusType] in
  let inp := input (SubmitBonusPart 1 "Madrid") 2 BonusType in
  bonus_answers (session (snd (trainer_tab W inp m)))
    = Some [(true, "Paris"); (false, "Madrid")] /\
  (bonus_appended W inp sample_bonus (session m) (session (snd (trainer_tab W inp m))) \/
   (question (session (snd (trainer_tab W inp m))) = question (session m) /\
    bonus_answers (session (snd (trainer_tab W inp m))) = bonus_answers (session m))).
Proof.
  split; [reflexivity|].
  apply (bonus_answers_grow_in_part_order (sample_world sample_tossup)
           (input (SubmitBonusPart 1 "Madrid") 2 BonusType)
           (run (sample_world sample_tossup)
              [input (Click BtnGetNewQuestion) 0 BonusType;
               input (SubmitBonusPart 0 "Paris") 1 BonusType])
           sample_bonus); reflexivity.
Defined.

Lemma bonus_parts_loop_answered W inp b : forall n k m,
  (k + n <= bonus_answers_len (session m))%nat ->
  (k + n <= List.length (parts b))%nat ->
  (k + n <= List.length (answers b))%nat ->
  fst (bonus_parts_loop W inp b (seq k n) m) = Ret tt /\
  session (snd (bonus_parts_loop W inp b (seq k n) m)) = session m.
Proof.
  induction n as [|n IH]; intros k m Hlen Hparts Hans; [split; reflexivity|].
  cbn [seq bonus_parts_loop].
  destruct m as [[q sr sp ss ws st i fb ge ba] pg f].
  unfold bonus_answers_len in Hlen. cbn [session bonus_answers] in Hlen.
  destruct ba as [given|]; [|lia].
  unfold st_markdown, st_success, st_error, bonus_answers_len.
  destruct (nth_error (parts b) k) as [part|] eqn:Epart.
  2:{ apply nth_error_None in Epart. lia. }
  destruct (nth_error given k) as [[is_correct user_ans]|] eqn:Eg.
  2:{ apply nth_error_None in Eg. lia. }
  destruct (nth_error (answers b) k) as [expected|] eqn:Eans.
  2:{ apply nth_error_None in Eans. lia. }
  assert (Eltb : (k <? List.length given)%nat = true) by (apply Nat.ltb_lt; lia).
  exec. rewrite Epart. exec. rewrite Eltb, Eg. cbv beta iota.
  assert (Hnext : forall mm, session mm = mkSession q sr sp ss ws st i fb ge (Some given) ->
            fst (bonus_parts_loop W inp b (seq (S k) n) mm) = Ret tt /\
            session (snd (bonus_parts_loop W inp b (seq (S k) n) mm)) = session mm).
  { intros mm Hmm. apply IH; try lia. unfold bonus_answers_len. rewrite Hmm. cbn. lia. }
  destruct is_correct.
  - match goal with |- context [bonus_parts_loop W inp b ?l ?mm] =>
      destruct (Hnext mm eq_refl) as [H1 H2];
      destruct (bonus_parts_loop W inp b l mm) as [o m']
    end. cbn in *. subst o. cbn. auto.
  - rewrite Eans.
    match goal with |- context [bonus_parts_loop W inp b ?l ?mm] =>
      destruct (Hnext mm eq_refl) as [H1 H2];
      destruct (bonus_parts_loop W inp b l mm) as [o m']
    end. cbn in *. subst o. cbn. auto.
Qed.

(** X10.  When every part of a bonus has its answer (and the bonus has an
    expected answer for every part), a run of the Trainer tab sets the
    reveal state to [over], which opens the review. *)
Theorem answered_bonus_is_over W inp m b :
  question (session m) = Some (QBonus b) ->
  bonus_answers_len (session m) = List.length (parts b) ->
  (List.length (parts b) <= List.length (answers b))%nat ->
  clicked inp BtnNextQuestion = false ->
  tossup_state (session (snd (trainer_tab W inp m))) = Some over.
Proof.
  intros Hq Hlen Hans Hn. unfold trainer_tab, st_header.
  rewrite bind_emit, bind_button, bind_get_session. cbn [session put_on_page].
  rewrite Hq. cbv beta iota. unfold st_subheader, st_markdown.
  rewrite bind_emit, bind_assoc, bind_emit, bind_outcome.
  match goal with |- context [bonus_branch W inp b ?mm] => set (m0 := mm) end.
  assert (Hb : fst (bonus_branch W inp b m0) = Ret tt /\
               tossup_state (session (snd (bonus_branch W inp b m0))) = Some over).
  { unfold bonus_branch, st_markdown. rewrite !bind_emit, bind_outcome.
    match goal with |- context [bonus_parts_loop W inp b ?l ?mm] =>
      destruct (bonus_parts_loop_answered W inp b (List.length (parts b)) 0 mm) as [H1 H2];
      [cbn; lia|cbn; lia|cbn; lia|]
    end.
    rewrite H1. cbn [fst snd]. rewrite bind_get_session, H2.
    unfold m0. cbn [session put_on_page]. rewrite Hlen, Nat.eqb_refl. cbn. auto. }
  destruct Hb as [Hr Hover]. rewrite Hr.
  destruct (review_screen_post W inp (QBonus b) (snd (bonus_branch W inp b m0)))
    as [[Hs _]|(_ & Hc & _)]; [|congruence].
  rewrite Hs. exact Hover.
Qed.

Lemma answered_bonus_is_over_witness :
  let W := sample_world sample_tossup in
  let m := run W [input (Click BtnGetNewQuestion) 0 BonusType;
                  input (SubmitBonusPart 0 "Paris") 1 BonusType;
                  input (SubmitBonusPart 1 "Madrid") 2 BonusType;
                  input (SubmitBonusPart 2 "Berlin") 3 BonusType] in
  bonus_answers (session m) = Some [(true, "Paris"); (false, "Madrid"); (true, "Berlin")] /\
  tossup_state (session (snd (trainer_tab W (input NoEvent 4 BonusType) m))) = Some over.
Proof.
  split; [reflexivity|].
  apply (answered_bonus_is_over (sample_world sample_tossup) (input NoEvent 4 BonusType)
           (run (sample_world sample_tossup)
              [input (Click BtnGetNewQuestion) 0 BonusType;
               input (SubmitBonusPart 0 "Paris") 1 BonusType;
               input (SubmitBonusPart 1 "Madrid") 2 BonusType;
               input (SubmitBonusPart 2 "Berlin") 3 BonusType])
           sample_bonus); reflexivity.
Defined.

(** ** The search tab *)

#[export] Instance search_kept_frame : Frame search_kept.
Proof.
  split; unfold search_kept.
  - intuition.
  - intros a b c (H1 & H2 & H3) (H4 & H5 & H6). repeat split; congruence.
  - cbn; intuition.
Qed.

#[export] Instance page_from_one_frame : Frame page_from_one.
Proof.
  split; unfold page_from_one.
  - auto.
  - auto.
  - cbn; auto.
Qed.

Ltac keeps_search_step :=
  first
    [ apply preserves_modify; intro; unfold search_kept; cbn; intuition
    | frame_step ].

Ltac keeps_search := repeat keeps_search_step.

Lemma search_kept_fetch {A} (call : nat -> ApiResult A) : preserves search_kept (fetch call).
Proof.
  intro m. unfold fetch, search_kept. destruct (call (fetches m)); cbn; intuition.
Qed.

Lemma search_kept_get_new_question W inp : preserves search_kept (get_new_question W inp).
Proof.
  unfold get_new_question, st_error.
  repeat first [ apply search_kept_fetch | keeps_search_step ].
Qed.

Lemma search_kept_display W prompt :
  preserves search_kept (display_explanation_section W prompt).
Proof.
  unfold display_explanation_section, get_ai_structured_explanation, loads, py_in,
    subscript_key, subscript_0, dict_get, iterate, st_error, st_markdown.
  keeps_search.
Qed.

Lemma search_kept_bonus_parts_loop W inp b indices :
  preserves search_kept (bonus_parts_loop W inp b indices).
Proof.
  induction indices as [|i rest IH]; cbn [bonus_parts_loop].
  - apply preserves_ret.
  - unfold st_markdown, st_success, st_error.
    repeat first [ exact IH | keeps_search_step ].
Qed.

Lemma search_kept_trainer_tab W inp : preserves search_kept (trainer_tab W inp).
Proof.
  unfold trainer_tab, tossup_branch, bonus_branch, review_screen, tossup_review,
    bonus_review, revealed_text, st_header, st_info, st_subheader, st_markdown,
    st_success, st_error, st_warning.
  repeat first
    [ apply search_kept_bonus_parts_loop | apply search_kept_display
    | apply search_kept_get_new_question | keeps_search_step ].
Qed.

Lemma page_from_one_pagination inp tossups bonuses :
  preserves page_from_one (pagination_controls inp tossups bonuses).
Proof.
  intros [[q sr sp ss ws st i fb ge ba] pg f]. unfold page_from_one, pagination_controls.
  cbn [session search_page]. intro Hp.
  destruct (Z.max tossups bonuses >? 10); [|exact Hp].
  exec.
  destruct (clicked inp BtnPreviousPage); destruct (Z.leb_spec sp 1);
    destruct (clicked inp BtnNextPage);
    destruct (sp >=? total_pages (Z.max tossups bonuses)); cbn; lia.
Qed.

Lemma page_from_one_search_tab W inp : preserves page_from_one (search_tab W inp).
Proof.
  unfold search_tab, search_form, issue_query, st_header, st_subheader.
  repeat first
    [ apply page_from_one_pagination
    | apply preserves_modify; intro; unfold page_from_one; cbn; intros; lia
    | frame_step ].
Qed.

Lemma page_from_one_step W inp m : page_from_one m (step W inp m).
Proof.
  unfold page_from_one, step. intro Hp.
  assert (H0 : 1 <= search_page (session (after_callback W inp m))).
  { unfold after_callback, callback.
    destruct (event inp) as [|[]| | |]; try exact Hp;
      destruct (search_kept_get_new_question W inp (clear_page m)) as (_ & H & _);
      rewrite H; exact Hp. }
  unfold script. destruct (active_tab inp).
  - destruct (search_kept_trainer_tab W inp (after_callback W inp m)) as (_ & H & _).
    rewrite H. exact H0.
  - apply page_from_one_search_tab. exact H0.
  - exact H0.
Qed.

(** X12.  In every session the program can reach, the page number of the
    search is at least 1: "Previous Page" is disabled on page 1, and nothing
    else lowers the number. *)
Theorem search_page_at_least_one W inputs :
  1 <= search_page (session (run W inputs)).
Proof.
  unfold run.
  assert (H : forall m, 1 <= search_page (session m) ->
              1 <= search_page (session (fold_left (fun m inp => step W inp m) inputs m))).
  { induction inputs as [|inp inputs IH]; intros m Hm; cbn; [exact Hm|].
    apply IH. apply page_from_one_step. exact Hm. }
  apply H. cbn. lia.
Qed.

(** X13.  When the request of a search fails, the run ends in the
    exception of the request and the results of the previous search stay in
    the session. *)
Theorem failed_search_keeps_results W inp m e :
  query_issued inp (session m) = true ->
  requests_get_query W (search_query inp) (queried_page inp (session m)) = Raised e ->
  fst (search_tab W inp m) = Raise e /\
  search_results (session (snd (search_tab W inp m))) = search_results (session m).
Proof.
  destruct m as [[q sr sp ss ws st i fb ge ba] pg f].
  unfold query_issued, queried_page, search_tab, search_form, issue_query, st_header.
  cbn [session search_page search_submitted].
  intros Hq Hr. exec.
  destruct (event inp); exec; rewrite ?Hq, Hr; cbn; auto.
Qed.

Lemma failed_search_keeps_results_witness :
  let W := mkWorld (random_tossup barren_world) (random_bonus barren_world)
             (check_answer barren_world) None (requests_post barren_world)
             (json_loads barren_world) (nlp_sents barren_world)
             (fun _ page => if page =? 1 then Returned (mkSearchJson 23 [] 0 [])
                            else Raised RequestException) in
  let m := run W [search_input SubmitSearch; search_input (Click BtnNextPage)] in
  search_page (session m) = 2 /\
  fst (search_tab W (search_input NoEvent) m) = Raise RequestException /\
  search_results (session (snd (search_tab W (search_input NoEvent) m)))
    = search_results (session m).
Proof.
  split; [reflexivity|].
  apply (failed_search_keeps_results
           (mkWorld (random_tossup barren_world) (random_bonus barren_world)
              (check_answer barren_world) None (requests_post barren_world)
              (json_loads barren_world) (nlp_sents barren_world)
              (fun _ page => if page =? 1 then Returned (mkSearchJson 23 [] 0 [])
                             else Raised RequestException))
           (search_input NoEvent)); reflexivity.
Defined.

(** X20.  A click on an enabled pagination button moves the search by one
    page and reruns: "Next Page" below the last page goes to the next page,
    which the results have, and "Previous Page" above page 1 goes back one
    page, which is still 1 or more. *)
Theorem pagination_moves_one_page inp m tossups bonuses :
  let p := search_page (session m) in
  let last := total_pages (Z.max tossups bonuses) in
  10 < Z.max tossups bonuses ->
  (event inp = Click BtnNextPage -> p < last ->
   fst (pagination_controls inp tossups bonuses m) = Rerun /\
   session (snd (pagination_controls inp tossups bonuses m))
     = with_search_page (p + 1) (session m) /\
   p + 1 <= last) /\
  (event inp = Click BtnPreviousPage -> 1 < p ->
   fst (pagination_controls inp tossups bonuses m) = Rerun /\
   session (snd (pagination_controls inp tossups bonuses m))
     = with_search_page (p - 1) (session m) /\
   1 <= p - 1).
Proof.
  destruct m as [[q sr sp ss ws st i fb ge ba] pg f].
  intros p last Hmany. subst p last. cbn [session search_page].
  unfold pagination_controls.
  replace (Z.max tossups bonuses >? 10) with true by (symmetry; apply Z.gtb_lt; lia).
  split.
  - intros Hev Hlt. exec. unfold clicked. rewrite Hev. cbn [Button_eqb].
    replace (sp >=? total_pages (Z.max tossups bonuses)) with false
      by (symmetry; rewrite Z.geb_leb; apply Z.leb_gt; lia).
    cbn. repeat split. lia.
  - intros Hev Hgt. exec. unfold clicked. rewrite Hev. cbn [Button_eqb].
    replace (sp <=? 1) with false by (symmetry; apply Z.leb_gt; lia).
    cbn. repeat split. lia.
Qed.

Lemma pagination_moves_one_page_witness :
  let m := run (sample_world sample_tossup) [search_input SubmitSearch] in
  (event (search_input (Click BtnNextPage)) = Click BtnNextPage ->
   search_page (session m) < total_pages (Z.max 23 0) ->
   fst (pagination_controls (search_input (Click BtnNextPage)) 23 0 m) = Rerun /\
   session (snd (pagination_controls (search_input (Click BtnNextPage)) 23 0 m))
     = with_search_page (search_page (session m) + 1) (session m) /\
   search_page (session m) + 1 <= total_pages (Z.max 23 0)) /\
  (event (search_input (Click BtnNextPage)) = Click BtnPreviousPage ->
   1 < search_page (session m) ->
   fst (pagination_controls (search_input (Click BtnNextPage)) 23 0 m) = Rerun /\
   session (snd (pagination_controls (search_input (Click BtnNextPage)) 23 0 m))
     = with_search_page (search_page (session m) - 1) (session m) /\
   1 <= search_page (session m) - 1).
Proof.
  apply (pagination_moves_one_page (search_input (Click BtnNextPage))
           (run (sample_world sample_tossup) [search_input SubmitSearch]) 23 0).
  reflexivity.
Defined.

(** ** The explanation fetcher and its display *)

(** X14.  With an API key and a response of the usual shape (a
    [candidates] list whose first entry has [content.parts[0].text]),
    [get_ai_structured_explanation] returns what that text parses to and
    puts nothing on the page; when the text is not JSON it returns the empty
    dict with an error message. *)
Theorem explanation_is_the_parsed_candidate_text
    W prompt m body top c0 others content p0 ps text :
  has_api_key W ->
  requests_post W prompt = PostResponse true body ->
  json_loads W body = Some (JObj top) ->
  assoc "candidates" top = Some (JArr (JObj c0 :: others)) ->
  assoc "content" c0 = Some (JObj content) ->
  assoc "parts" content = Some (JArr (JObj p0 :: ps)) ->
  assoc "text" p0 = Some (JStr text) ->
  match json_loads W text with
  | Some explanation =>
      get_ai_structured_explanation W prompt m = (Ret explanation, m)
  | None =>
      fst (get_ai_structured_explanation W prompt m) = Ret empty_dict /\
      exists msg, snd (get_ai_structured_explanation W prompt m) = put_on_page m (StError msg)
  end.
Proof.
  unfold has_api_key, get_ai_structured_explanation, loads, py_in, subscript_key, subscript_0.
  intros Hkey Hpost Hbody Hc Hcontent Hparts Htext.
  destruct (getenv_api_key W) as [[|ch key]|]; try contradiction.
  rewrite Hpost. destruct m as [s pg f].
  exec. rewrite Hbody. exec. rewrite Hc. exec. rewrite Hcontent. exec.
  rewrite Hparts. exec. rewrite Htext. exec.
  destruct (json_loads W text); cbn; [reflexivity|].
  split; [reflexivity|]. eexists. reflexivity.
Qed.

Lemma explanation_is_the_parsed_candidate_text_witness :
  exists explanation,
    sample_parse "inner" = Some explanation /\
    get_ai_structured_explanation (endpoint_world "outer" sample_parse) "Explain Paris"
      initial_machine = (Ret explanation, initial_machine).
Proof.
  eexists. split; [reflexivity|].
  apply (explanation_is_the_parsed_candidate_text
           (endpoint_world "outer" sample_parse) "Explain Paris" initial_machine "outer"
           _ _ _ _ _ _ "inner" I eq_refl eq_refl eq_refl eq_refl eq_refl eq_refl).
Defined.

(** X15.  With an API key and a response that is a JSON object without
    [candidates], the fetcher returns its fallback explanation, and
    [display_explanation_section] shows it: the image search for "error" and
    the apology, with no reading list. *)
Theorem response_without_candidates_is_shown_as_apology W prompt m body top :
  has_api_key W ->
  requests_post W prompt = PostResponse true body ->
  json_loads W body = Some (JObj top) ->
  assoc "candidates" top = None ->
  get_ai_structured_explanation W prompt m = (Ret no_structured_explanation, m) /\
  display_explanation_section W prompt m =
    (Ret tt,
     put_on_page
       (put_on_page m
          (StLinkButton "Search for images of 'error'"
             "https://www.google.com/search?tbm=isch&q=error"))
       (StMarkdown "Sorry, the AI could not provide a structured explanation.")).
Proof.
  intros Hkey Hpost Hbody Hc.
  assert (Hf : get_ai_structured_explanation W prompt m = (Ret no_structured_explanation, m)).
  { unfold has_api_key, get_ai_structured_explanation, loads, py_in in *.
    destruct (getenv_api_key W) as [[|ch key]|]; try contradiction.
    rewrite Hpost. destruct m as [s pg f].
    exec. rewrite Hbody. exec. rewrite Hc. reflexivity. }
  split; [exact Hf|].
  unfold display_explanation_section. unfold bind at 1. rewrite Hf. reflexivity.
Qed.

Lemma response_without_candidates_is_shown_as_apology_witness :
  let W := endpoint_world "feedback" sample_parse in
  get_ai_structured_explanation W "Explain Paris" initial_machine
    = (Ret no_structured_explanation, initial_machine) /\
  display_explanation_section W "Explain Paris" initial_machine =
    (Ret tt,
     put_on_page
       (put_on_page initial_machine
          (StLinkButton "Search for images of 'error'"
             "https://www.google.com/search?tbm=isch&q=error"))
       (StMarkdown "Sorry, the AI could not provide a structured explanation.")).
Proof.
  apply (response_without_candidates_is_shown_as_apology
           (endpoint_world "feedback" sample_parse) "Explain Paris" initial_machine
           "feedback" _ I eq_refl eq_refl eq_refl).
Defined.

(** X16.  Only request failures and JSON decoding errors are caught by the
    fetcher.  A well-formed response with an empty [candidates] list makes
    [display_explanation_section] end in [IndexError], and one whose first
    candidate has no [content] in [KeyError]; the session is left as it
    is. *)
Theorem unexpected_response_shape_raises W prompt m body top :
  has_api_key W ->
  requests_post W prompt = PostResponse true body ->
  json_loads W body = Some (JObj top) ->
  (assoc "candidates" top = Some (JArr []) ->
   display_explanation_section W prompt m = (Raise IndexError, m)) /\
  (forall c0 others,
     assoc "candidates" top = Some (JArr (JObj c0 :: others)) ->
     assoc "content" c0 = None ->
     display_explanation_section W prompt m = (Raise KeyError, m)).
Proof.
  intros Hkey Hpost Hbody.
  unfold has_api_key, display_explanation_section, get_ai_structured_explanation,
    loads, py_in, subscript_key, subscript_0 in *.
  destruct (getenv_api_key W) as [[|ch key]|]; try contradiction.
  rewrite Hpost. destruct m as [s pg f]. split.
  - intro Hc. exec. rewrite Hbody. exec. rewrite Hc. reflexivity.
  - intros c0 others Hc Hcontent. exec. rewrite Hbody. exec. rewrite Hc. exec.
    rewrite Hcontent. reflexivity.
Qed.

Lemma unexpected_response_shape_raises_witness :
  display_explanation_section (endpoint_world "blocked" sample_parse) "Explain Paris"
    initial_machine = (Raise IndexError, initial_machine).
Proof.
  apply (unexpected_response_shape_raises
           (endpoint_world "blocked" sample_parse) "Explain Paris" initial_machine
           "blocked" _ I eq_refl eq_refl).
  reflexivity.
Defined.

(** X17.  Without an API key (unset, or empty) the endpoint is not asked:
    the fetcher returns the empty dict with the configuration error on the
    page, and [display_explanation_section] shows nothing else. *)
Theorem missing_api_key_shows_configuration_error W prompt m :
  ~ has_api_key W ->
  get_ai_structured_explanation W prompt m = (Ret empty_dict, put_on_page m missing_key_error) /\
  display_explanation_section W prompt m = (Ret tt, put_on_page m missing_key_error).
Proof.
  intro Hkey.
  assert (Hf : get_ai_structured_explanation W prompt m
               = (Ret empty_dict, put_on_page m missing_key_error)).
  { unfold has_api_key, get_ai_structured_explanation in *.
    destruct (getenv_api_key W) as [[|ch key]|]; try reflexivity.
    exfalso. apply Hkey. exact I. }
  split; [exact Hf|].
  unfold display_explanation_section. unfold bind at 1. rewrite Hf. reflexivity.
Qed.

Lemma missing_api_key_shows_configuration_error_witness :
  let W := sample_world sample_tossup in
  get_ai_structured_explanation W "Explain Paris" initial_machine
    = (Ret empty_dict, put_on_page initial_machine missing_key_error) /\
  display_explanation_section W "Explain Paris" initial_machine
    = (Ret tt, put_on_page initial_machine missing_key_error).
Proof.
  apply (missing_api_key_shows_configuration_error (sample_world sample_tossup)
           "Explain Paris" initial_machine).
  intro H. exact H.
Defined.

(** ** Reading a tossup to the end *)

Lemma tick_step W time m t :
  question (session m) = Some (QTossup t) ->
  tossup_state (session m) <> Some over ->
  session (step W (tick time) m) = reveal_step W (tick time) t (session m).
Proof.
  intros Hq Hst. unfold step, after_callback, callback. cbn [tick input event].
  cbn [ret snd]. unfold script. cbn [active_tab tick input].
  destruct (trainer_tab_tossup W (tick time) (clear_page m) t Hq) as [[Hs _]|(Hover & _)].
  - exact Hs.
  - contradiction.
Qed.

Lemma reading_runs_to_grace_period W t ws final : forall times m i,
  question (session m) = Some (QTossup t) ->
  words (session m) = Some ws ->
  tossup_state (session m) = Some reading ->
  word_index (session m) = Some i ->
  i + Z.of_nat (List.length times) = Py.len ws - 1 ->
  let m' := run_from W (map tick (times ++ [final])) m in
  question (session m') = Some (QTossup t) /\
  tossup_state (session m') = Some grace_period /\
  word_index (session m') = Some (Py.len ws - 1) /\
  grace_period_end (session m') = Some (final + 5)%Q.
Proof.
  induction times as [|time times IH]; intros m i Hq Hw Hst Hi Hlen; cbn zeta.
  - cbn [List.length app map run_from fold_left] in *.
    rewrite (tick_step W final m t Hq) by congruence.
    unfold reveal_step. rewrite Hst, Hw, Hi. cbn [clicked tick input event].
    replace (i <? Py.len ws - 1) with false by (symmetry; apply Z.ltb_ge; lia).
    cbn [question tossup_state word_index grace_period_end
         with_grace_period_end with_tossup_state].
    split; [exact Hq|]. split; [reflexivity|]. split; [|reflexivity].
    rewrite Hi. f_equal. cbn [Z.of_nat] in Hlen. lia.
  - cbn [List.length app map run_from fold_left] in *.
    assert (Hs : session (step W (tick time) m)
                 = with_word_index (Some (i + 1)) (session m)).
    { rewrite (tick_step W time m t Hq) by congruence.
      unfold reveal_step. rewrite Hst, Hw, Hi. cbn [clicked tick input event].
      replace (i <? Py.len ws - 1) with true by (symmetry; apply Z.ltb_lt; lia).
      reflexivity. }
    apply (IH (step W (tick time) m) (i + 1)); rewrite ?Hs; cbn; auto.
    rewrite Nat2Z.inj_succ in Hlen. lia.
Qed.

(** X21.  A tossup that waits to be read is read to the end when nobody
    buzzes: after a click on "Start Reading", as many runs as the tossup has
    words leave it in the grace period with the index on the last word and
    the deadline 5 seconds after the clock reading of the last of these
    runs. *)
Theorem unbuzzed_tossup_reaches_grace_period W m t ws start times final :
  question (session m) = Some (QTossup t) ->
  words (session m) = Some ws ->
  tossup_state (session m) = Some waiting ->
  S (List.length times) = List.length ws ->
  let m' := run_from W (input (Click BtnStartReading) start TossupType
                          :: map tick (times ++ [final])) m in
  question (session m') = Some (QTossup t) /\
  tossup_state (session m') = Some grace_period /\
  word_index (session m') = Some (Py.len ws - 1) /\
  grace_period_end (session m') = Some (final + 5)%Q.
Proof.
  intros Hq Hw Hst Hlen. cbn zeta. unfold run_from. cbn [fold_left].
  set (inp := input (Click BtnStartReading) start TossupType).
  assert (Hs : session (step W inp m)
               = with_word_index (Some 0) (with_tossup_state (Some reading) (session m))).
  { unfold step, after_callback, callback. cbn [inp input event].
    cbn [ret snd]. unfold script. cbn [active_tab inp input].
    destruct (trainer_tab_tossup W inp (clear_page m) t Hq) as [[Hs _]|(Hover & _)].
    - rewrite Hs. unfold reveal_step. cbn [clear_page session]. rewrite Hst. reflexivity.
    - cbn [clear_page session] in Hover. congruence. }
  apply (reading_runs_to_grace_period W t ws final times (step W inp m) 0);
    rewrite ?Hs; cbn; auto.
  unfold Py.len. lia.
Qed.

Lemma unbuzzed_tossup_reaches_grace_period_witness :
  let W := sample_world sample_tossup in
  let m := run W [input (Click BtnGetNewQuestion) 0 TossupType] in
  let m' := run_from W (input (Click BtnStartReading) 1 TossupType
                          :: map tick [2; 3; 4; 5; 6; 7; 8]%Q) m in
  question (session m') = Some (QTossup sample_tossup) /\
  tossup_state (session m') = Some grace_period /\
  word_index (session m') = Some (Py.len (Py.split (question_sanitized sample_tossup)) - 1) /\
  grace_period_end (session m') = Some (8 + 5)%Q.
Proof.
  apply (unbuzzed_tossup_reaches_grace_period (sample_world sample_tossup)
           (run (sample_world sample_tossup) [input (Click BtnGetNewQuestion) 0 TossupType])
           sample_tossup (Py.split (question_sanitized sample_tossup)) 1
           [2; 3; 4; 5; 6; 7]%Q 8%Q); reflexivity.
Defined.

(** ** The Packet Study tab *)

Lemma packet_view_keeps ps shown : snd (fst (packet_view ps shown)) = ps.
Proof.
  unfold packet_view. destruct (packet_data ps) as [data|]; [|reflexivity].
  destruct (truthy data); [|reflexivity]. destruct data; reflexivity.
Qed.

(** X18.  A run of the Packet Study tab changes its two keys only by
    loading a packet, and then writes both: the packet with the name of the
    set it was asked for.  When the set has no packet, the button was not
    clicked, or a call fails, both keys keep their values. *)
Theorem packet_keys_change_together W inp ps :
  let ps' := snd (fst (packet_tab W inp ps)) in
  ps' = ps \/
  exists json_data,
    packet_loaded W inp json_data /\
    ps' = mkPacketSession (Some json_data) (Some (selected_set inp)).
Proof.
  cbn zeta.
  unfold packet_tab.
  destruct (set_list W) as [sets|e] eqn:Esets; [|left; reflexivity].
  destruct sets as [|s0 sets']; [left; apply packet_view_keeps|].
  cbn [is_nil].
  destruct (selected_set inp) as [|c name] eqn:Ename; [left; apply packet_view_keeps|].
  cbn [Py.is_empty]. rewrite <- Ename.
  destruct (num_packets W (selected_set inp)) as [count|e] eqn:Ecount; [|left; reflexivity].
  destruct (Z.gtb_spec count 0) as [Hpos|Hnone]; [|left; apply packet_view_keeps].
  destruct (load_clicked inp) eqn:Eclick; [|left; apply packet_view_keeps].
  destruct (requests_get_packet W (selected_set inp) (packet_number inp))
    as [json_data|e] eqn:Eget; [|left; reflexivity].
  right. exists json_data. split; [|apply packet_view_keeps].
  exists (s0 :: sets'), count. repeat split; auto; congruence.
Qed.

Lemma packet_tab_name_follows_data W inp ps :
  (packet_data ps <> None -> packet_set_name ps <> None) ->
  packet_data (snd (fst (packet_tab W inp ps))) <> None ->
  packet_set_name (snd (fst (packet_tab W inp ps))) <> None.
Proof.
  intro Hps. unfold packet_tab.
  repeat match goal with
         | |- context [packet_view ?p ?l] => rewrite (packet_view_keeps p l)
         | |- context [match ?x with _ => _ end] => destruct x
         end; cbn; solve [exact Hps | discriminate].
Qed.

(** X19.  In every session of the Packet Study tab, a loaded packet comes
    with the name of its set: the heading of the packet never shows
    "None" for the set. *)
Theorem loaded_packet_has_set_name W inputs :
  packet_data (packet_runs W inputs) <> None ->
  packet_set_name (packet_runs W inputs) <> None.
Proof.
  unfold packet_runs.
  assert (H : forall ps,
            (packet_data ps <> None -> packet_set_name ps <> None) ->
            packet_data (fold_left (fun ps inp => snd (fst (packet_tab W inp ps))) inputs ps)
              <> None ->
            packet_set_name (fold_left (fun ps inp => snd (fst (packet_tab W inp ps))) inputs ps)
              <> None).
  { induction inputs as [|inp inputs IH]; intros ps Hps; cbn [fold_left]; [exact Hps|].
    apply IH. apply packet_tab_name_follows_data. exact Hps. }
  apply H. cbn. congruence.
Qed.

Lemma loaded_packet_has_set_name_witness :
  let inputs := [mkPacketInput "Empty Set" 1 true;
                 mkPacketInput "2023 ACF Fall" 2 true;
                 mkPacketInput "2023 ACF Fall" 3 true] in
  packet_data (packet_runs sample_packet_world inputs)
    = Some (JObj [("number", JNum 2); ("tossups", JArr []); ("bonuses", JArr [])]) /\
  packet_set_name (packet_runs sample_packet_world inputs) <> None.
Proof.
  split; [reflexivity|].
  apply (loaded_packet_has_set_name sample_packet_world
           [mkPacketInput "Empty Set" 1 true;
            mkPacketInput "2023 ACF Fall" 2 true;
            mkPacketInput "2023 ACF Fall" 3 true]).
  discriminate.
Defined.

(** ** [str.split] on the code points of a text *)

Ltac euclid := zify; Z.to_euclidean_division_equations; lia.

Lemma N_of_byte n : (n < 256)%N -> N_of_ascii (ascii_of_N n) = n.
Proof. apply N_ascii_embedding. Qed.

Lemma code_point_utf8 cp : is_code_point cp -> code_point (Py.utf8 cp) = cp.
Proof.
  unfold is_code_point, Py.utf8, code_point. intro H.
  destruct (N.ltb_spec cp 128); [|destruct (N.ltb_spec cp 2048); [|destruct (N.ltb_spec cp 65536)]];
    cbn [list_ascii_of_string map].
  - apply N_of_byte. lia.
  - rewrite !N_of_byte; euclid.
  - rewrite !N_of_byte; euclid.
  - rewrite !N_of_byte; euclid.
Qed.

Lemma utf8_inj cp cp' :
  is_code_point cp -> is_code_point cp' -> Py.utf8 cp = Py.utf8 cp' -> cp = cp'.
Proof.
  intros H H' E. rewrite <- (code_point_utf8 cp H), <- (code_point_utf8 cp' H'), E.
  reflexivity.
Qed.

Lemma whitespace_code_points : Forall is_code_point Py.whitespace.
Proof. unfold is_code_point. repeat constructor. Qed.

(** A character is whitespace exactly when its code point is in the table
    of [str.isspace]. *)
Lemma isspace_utf8 cp :
  is_code_point cp -> Py.isspace (Py.utf8 cp) = existsb (N.eqb cp) Py.whitespace.
Proof.
  intro H. unfold Py.isspace.
  pose proof whitespace_code_points as Hw.
  induction Py.whitespace as [|w l IH]; [reflexivity|].
  inversion Hw as [|? ? Hcp Hl]; subst. cbn [existsb]. rewrite (IH Hl). f_equal.
  destruct (N.eqb_spec cp w) as [->|Hne]; [apply String.eqb_refl|].
  apply String.eqb_neq. intro E. apply Hne. apply (utf8_inj cp w H Hcp E).
Qed.

Lemma chars_aux_utf8 cp s l :
  is_code_point cp -> Py.chars_aux s = (EmptyString, l) ->
  Py.chars_aux (Py.utf8 cp ++ s) = (EmptyString, Py.utf8 cp :: l).
Proof.
  unfold is_code_point, Py.utf8. intros H Hs.
  destruct (N.ltb_spec cp 128); [|destruct (N.ltb_spec cp 2048); [|destruct (N.ltb_spec cp 65536)]];
    cbn [append Py.chars_aux]; rewrite Hs; unfold Py.is_continuation;
    rewrite !N_of_byte by euclid.
  - replace (128 <=? cp)%N with false by (symmetry; apply N.leb_gt; lia). reflexivity.
  - repeat match goal with
    | |- context [(?a <=? ?b)%N] => destruct (N.leb_spec a b)
    | |- context [(?a <? ?b)%N] => destruct (N.ltb_spec a b)
    end; try reflexivity; exfalso; euclid.
  - repeat match goal with
    | |- context [(?a <=? ?b)%N] => destruct (N.leb_spec a b)
    | |- context [(?a <? ?b)%N] => destruct (N.ltb_spec a b)
    end; try reflexivity; exfalso; euclid.
  - repeat match goal with
    | |- context [(?a <=? ?b)%N] => destruct (N.leb_spec a b)
    | |- context [(?a <? ?b)%N] => destruct (N.ltb_spec a b)
    end; try reflexivity; exfalso; euclid.
Qed.

Lemma chars_aux_encode cps :
  Forall is_code_point cps -> Py.chars_aux (encode cps) = (EmptyString, map Py.utf8 cps).
Proof.
  induction 1 as [|cp cps Hcp _ IH]; [reflexivity|].
  cbn [encode map]. apply chars_aux_utf8; assumption.
Qed.

(** The characters of a text are its code points, encoded one by one. *)
Lemma chars_encode cps :
  Forall is_code_point cps -> Py.chars (encode cps) = map Py.utf8 cps.
Proof. intro H. unfold Py.chars. rewrite (chars_aux_encode cps H). reflexivity. Qed.

Lemma utf8_not_empty cp s : Py.is_empty (Py.utf8 cp ++ s) = false.
Proof.
  unfold Py.utf8.
  destruct (cp <? 128)%N; [reflexivity|]. destruct (cp <? 2048)%N; [reflexivity|].
  destruct (cp <? 65536)%N; reflexivity.
Qed.

Lemma is_empty_encode cps : Py.is_empty (encode cps) = is_nil cps.
Proof. destruct cps as [|cp rest]; [reflexivity|]. apply utf8_not_empty. Qed.

Lemma append_assoc_string (a b c : string) : (a ++ b) ++ c = a ++ (b ++ c).
Proof. induction a as [|x a IH]; cbn; [reflexivity|]. rewrite IH. reflexivity. Qed.

Lemma encode_app cur cps : encode (cur ++ cps)%list = encode cur ++ encode cps.
Proof.
  induction cur as [|cp cur IH]; [reflexivity|].
  cbn [app encode]. rewrite IH. symmetry. apply append_assoc_string.
Qed.

Lemma split_aux_encode cps : forall cur,
  Forall is_code_point cps ->
  Py.split_aux (map Py.utf8 cps) (encode cur) = map encode (split_points cps cur).
Proof.
  induction cps as [|cp cps IH]; intros cur H; cbn [map Py.split_aux split_points].
  - rewrite is_empty_encode. destruct cur; reflexivity.
  - inversion H as [|? ? Hcp Hrest]; subst.
    rewrite (isspace_utf8 cp Hcp), is_empty_encode.
    destruct (existsb (N.eqb cp) Py.whitespace).
    + destruct (is_nil cur); cbn [map]; rewrite <- (IH [] Hrest); reflexivity.
    + rewrite <- (IH (cur ++ [cp])%list Hrest), encode_app. cbn [encode].
      rewrite append_empty_r. reflexivity.
Qed.

(** [Py.split] on the encoding of a text gives the encodings of the words
    that splitting its code points at whitespace gives. *)
Lemma split_encode cps :
  Forall is_code_point cps ->
  Py.split (encode cps) = map encode (split_points cps []).
Proof.
  intro H. unfold Py.split. rewrite (chars_encode cps H).
  apply (split_aux_encode cps [] H).
Qed.

(** A no-break space and an ideographic space separate words. *)
Example split_at_unicode_spaces :
  Py.split (encode [97; 160; 98; 12288; 233]%N) = [encode [97]%N; encode [98]%N; encode [233]%N].
Proof. reflexivity. Qed.
